(** * The download core of Downloader (downloader_core.py) and its window
      (main.py)

    A shallow embedding of [DownloadManager]: its constructor, the progress
    hook, the two transport adapters ([_download_video_audio] over yt-dlp and
    [_download_image] over requests), the entry point [download_content] and
    the worker body [_run_download_task]; and of the handlers of
    [DownloaderApp] that drive the manager (module [Gui] below).

    Python objects the class touches are modelled as follows.
    - Strings are [string], a character being the code point of its number
      (Latin-1); byte chunks are [list Byte.byte].
    - Dictionaries ([ydl_opts], the progress dictionaries) are
      [gmap string pyval].
    - Exceptions, the callback calls and the calls into the libraries are
      threaded through a small monad [M]: a method takes the manager object
      and returns a result (normal or raised), the manager after the call and
      the list of actions it performed, in order.
    - A callback is a callable that returns or raises; the exception of a
      callback reaches the statement that called it.
    - What the libraries and the operating system answer (the directory
      test, the HTTP response and its body, file opening and writing) is an
      explicit [world] record; the extraction engine is a strategy that
      reports dictionaries to the progress hook and reacts to what the hook
      did.
    - A started thread is a list of pending actions which the scheduler
      performs one by one, interleaved with calls on the main thread.

    What the model takes for granted, beyond the source:
    - what a callback does with an argument (return or raise) depends on
      the argument only;
    - [threading.Thread(...).start()] succeeds;
    - [os.path] is [posixpath];
    - the exceptions raised by the libraries and by the callbacks derive
      from [Exception];
    - floats are IEEE binary64, computed exactly with [SpecFloat];
    - [sys.get_int_max_str_digits()] has its default, 4300. *)

From Stdlib Require Import ZArith String Ascii List Bool Lia Sorted.

From Stdlib Require Import Floats.SpecFloat DecimalString.

From stdpp Require Import gmap strings list.

Set Warnings "-register-all".

Local Open Scope string_scope.

Local Open Scope Z_scope.

(** ** Strings *)

Module Str.

(** [s.find(c)]: the index of the first [c], or -1. *)
Fixpoint find (c : ascii) (s : string) : Z :=
  match s with
  | EmptyString => -1
  | String a r =>
      if Ascii.eqb a c then 0
      else let i := find c r in if i <? 0 then -1 else i + 1
  end.

(** [s.find(c, start)] for [0 <= start]. *)
Fixpoint find_from (c : ascii) (start : nat) (s : string) : Z :=
  match start, s with
  | O, _ => find c s
  | S n, EmptyString => -1
  | S n, String _ r =>
      let i := find_from c n r in if i <? 0 then -1 else i + 1
  end.

(** [s.rfind(c)]: the index of the last [c], or -1. *)
Fixpoint rfind (c : ascii) (s : string) : Z :=
  match s with
  | EmptyString => -1
  | String a r =>
      let i := rfind c r in
      if 0 <=? i then i + 1 else if Ascii.eqb a c then 0 else -1
  end.

(** [c in s]. *)
Definition contains (c : ascii) (s : string) : bool := 0 <=? find c s.

(** [s[i:]] and [s[:i]] for [0 <= i]. *)
Fixpoint drop (i : nat) (s : string) : string :=
  match i, s with
  | O, _ => s
  | S n, EmptyString => EmptyString
  | S n, String _ r => drop n r
  end.

Fixpoint take (i : nat) (s : string) : string :=
  match i, s with
  | O, _ => EmptyString
  | S n, EmptyString => EmptyString
  | S n, String a r => String a (take n r)
  end.

Definition startswith (c : ascii) (s : string) : bool :=
  match s with
  | String a _ => Ascii.eqb a c
  | EmptyString => false
  end.

Fixpoint endswith (c : ascii) (s : string) : bool :=
  match s with
  | EmptyString => false
  | String a EmptyString => Ascii.eqb a c
  | String _ r => endswith c r
  end.

Fixpoint forallb (p : ascii -> bool) (s : string) : bool :=
  match s with
  | EmptyString => true
  | String a r => p a && forallb p r
  end.

Fixpoint filter (p : ascii -> bool) (s : string) : string :=
  match s with
  | EmptyString => EmptyString
  | String a r => if p a then String a (filter p r) else filter p r
  end.

Fixpoint map (f : ascii -> ascii) (s : string) : string :=
  match s with
  | EmptyString => EmptyString
  | String a r => String (f a) (map f r)
  end.

(** [s.lstrip(chars)] with the set of characters given as a test. *)
Fixpoint lstrip (p : ascii -> bool) (s : string) : string :=
  match s with
  | EmptyString => EmptyString
  | String a r => if p a then lstrip p r else s
  end.

Definition rstrip (p : ascii -> bool) (s : string) : string :=
  String.rev (lstrip p (String.rev s)).

(** [s.partition(c)]: the text before the first [c], whether [c] was
    found, and the text after it. *)
Definition partition (c : ascii) (s : string) : string * bool * string :=
  let i := find c s in
  if i <? 0 then (s, false, EmptyString)
  else (take (Z.to_nat i) s, true, drop (S (Z.to_nat i)) s).

(** [s.rpartition(c)[2]]: the text after the last [c], or [s]. *)
Definition after_last (c : ascii) (s : string) : string :=
  let i := rfind c s in
  if i <? 0 then s else drop (S (Z.to_nat i)) s.

(** [s.split(c)]. *)
Fixpoint split (c : ascii) (s : string) : list string :=
  match s with
  | EmptyString => [EmptyString]
  | String a r =>
      if Ascii.eqb a c then EmptyString :: split c r
      else
        match split c r with
        | h :: t => String a h :: t
        | [] => [String a EmptyString]
        end
  end.

(** Decimal rendering of a non-negative integer, as [str(n)] gives it. *)
Definition of_N (n : N) : string := NilZero.string_of_uint (N.to_uint n).

Definition of_Z (z : Z) : string :=
  match z with
  | Zneg p => "-" ++ of_N (Npos p)
  | _ => of_N (Z.to_N z)
  end.

End Str.

(** ** Exceptions and results *)

(** The exception classes the program can meet.  All of them derive from
    [Exception].  The first group derives from
    [requests.exceptions.RequestException]; [OtherRequestException] stands
    for every other class of that family ([MissingSchema], [InvalidSchema],
    [TooManyRedirects], [ContentDecodingError], ...), by its name.
    [OtherException] stands for a class outside that family. *)
Inductive exn_class :=
| ConnectionError | Timeout | HTTPError | ChunkedEncodingError | InvalidURL
| OtherRequestException (name : string)
| OSError | ValueError | OverflowError | ZeroDivisionError | TypeError
| DownloadError | OtherException (name : string).

Record exn := MkExn { exn_cls : exn_class; exn_str : string }.

(** [isinstance(e, requests.exceptions.RequestException)]. *)
Definition is_RequestException (e : exn) : bool :=
  match exn_cls e with
  | ConnectionError | Timeout | HTTPError | ChunkedEncodingError | InvalidURL
  | OtherRequestException _ => true
  | _ => false
  end.

(** [isinstance(e, Exception)]. *)
Definition is_Exception (e : exn) : bool :=
  match exn_cls e with
  | ConnectionError | Timeout | HTTPError | ChunkedEncodingError | InvalidURL
  | OtherRequestException _
  | OSError | ValueError | OverflowError | ZeroDivisionError | TypeError
  | DownloadError | OtherException _ => true
  end.

Inductive result (A : Type) :=
| Ok (a : A)
| Raise (e : exn).

Arguments Ok {A} a.

Arguments Raise {A} e.

(** ** Library functions on strings and numbers *)

Module Py.

(** The white space of [str.strip()] and [str.isspace()], a character
    code read as a Latin-1 code point. *)
Definition is_space (a : ascii) : bool :=
  let n := N_of_ascii a in
  (((9 <=? n) && (n <=? 13)) || ((28 <=? n) && (n <=? 32)) || (n =? 133) || (n =? 160))%N.

(** The white space that [int] and [float] skip around a number: space,
    tab, line feed, vertical tab, form feed, carriage return, and the two
    spaces beyond ASCII; not the separators 28 to 31. *)
Definition is_c_space (a : ascii) : bool :=
  let n := N_of_ascii a in
  (((9 <=? n) && (n <=? 13)) || (n =? 32) || (n =? 133) || (n =? 160))%N.

Definition digit_val (a : ascii) : option Z :=
  let n := N_of_ascii a in
  if ((48 <=? n) && (n <=? 57))%N then Some (Z.of_N n - 48) else None.

Definition hex_digit (n : N) : ascii :=
  if (n <? 10)%N then ascii_of_N (48 + n) else ascii_of_N (87 + n).

(** A character that [repr] prints as it is: the printable characters,
    with a code read as a Latin-1 code point. *)
Definition is_printable (a : ascii) : bool :=
  let n := N_of_ascii a in
  ((32 <=? n) && (n <? 127) || (160 <? n) && negb (n =? 173))%N.

Definition backslash : ascii := "092".

Definition double_quote : ascii := "034".

Fixpoint repr_body (quote : ascii) (s : string) : string :=
  match s with
  | EmptyString => EmptyString
  | String a r =>
      let n := N_of_ascii a in
      (if Ascii.eqb a quote || Ascii.eqb a backslash
       then String backslash (String a EmptyString)
       else if (n =? 9)%N then String backslash "t"
       else if (n =? 10)%N then String backslash "n"
       else if (n =? 13)%N then String backslash "r"
       else if is_printable a then String a EmptyString
       else String backslash
              (String "x" (String (hex_digit (n / 16))
                             (String (hex_digit (n mod 16)) EmptyString))))
        ++ repr_body quote r
  end.

(** [repr(s)] for a string: between single quotes, or between double
    quotes when it holds a single quote and no double quote. *)
Definition repr (s : string) : string :=
  let quote : ascii :=
    if Str.contains "'" s && negb (Str.contains double_quote s)
    then double_quote else "'"%char in
  String quote (repr_body quote s ++ String quote EmptyString).

(** The digits of a decimal literal, as [int] scans them: digits, with
    single underscores between them.  [prev] is the character before.  The
    result is the number, the count of its digits, and the rest. *)
Fixpoint scan_digits (s : string) (acc count : Z) (prev : ascii)
  : option (Z * Z * string) :=
  match s with
  | EmptyString => if Ascii.eqb prev "_" then None else Some (acc, count, s)
  | String a r =>
      match digit_val a with
      | Some d => scan_digits r (10 * acc + d) (count + 1) a
      | None =>
          if Ascii.eqb a "_" then
            if Ascii.eqb prev "_" then None else scan_digits r acc count a
          else if Ascii.eqb prev "_" then None
          else Some (acc, count, s)
      end
  end.

(** The limit of the interpreter on the digits of a string given to
    [int] ([sys.get_int_max_str_digits()], by default). *)
Definition max_str_digits : Z := 4300.

(** [int(s)] for a string [s], base 10: white space around, an optional
    sign, digits. *)
Definition int_of_str (s : string) : result Z :=
  let invalid :=
    Raise (MkExn ValueError
             ("invalid literal for int() with base 10: " ++ Str.take 200 (repr s))) in
  let t := Str.lstrip is_c_space s in
  let '(negative, t) :=
    match t with
    | String "-" r => (true, r)
    | String "+" r => (false, r)
    | _ => (false, t)
    end in
  if Str.startswith "_" t then invalid
  else
    match scan_digits t 0 0 "000" with
    | None => invalid
    | Some (z, count, rest) =>
        if count =? 0 then invalid
        else if max_str_digits <? count then
          Raise (MkExn ValueError
                   ("Exceeds the limit (" ++ Str.of_Z max_str_digits
                      ++ " digits) for integer string conversion: value has "
                      ++ Str.of_Z count
                      ++ " digits; use sys.set_int_max_str_digits() to increase the limit"))
        else if String.eqb (Str.lstrip is_c_space rest) "" then
          Ok (if negative then - z else z)
        else invalid
    end.

(** Floats are IEEE binary64 values. *)
Definition prec : Z := 53.

Definition emax : Z := 1024.

(** [float(n)] for an integer that converts exactly or rounds. *)
Definition float_of_int (n : Z) : spec_float := binary_normalize prec emax n 0 false.

(** [a / b] on integers: the correctly rounded quotient;
    [ZeroDivisionError] for [b = 0], [OverflowError] when the quotient is
    too large for a float. *)
Definition true_div (a b : Z) : result spec_float :=
  let fl (z : Z) :=
    match z with
    | Z0 => S754_zero false
    | Zpos p => S754_finite false p 0
    | Zneg p => S754_finite true p 0
    end in
  if b =? 0 then Raise (MkExn ZeroDivisionError "division by zero")
  else
    match SFdiv prec emax (fl a) (fl b) with
    | S754_infinity _ =>
        Raise (MkExn OverflowError "integer division result too large for a float")
    | q => Ok q
    end.

(** [x * n] for a float [x] and an integer [n]. *)
Definition float_mul_int (x : spec_float) (n : Z) : spec_float :=
  SFmul prec emax x (float_of_int n).

(** Round [n / d] to the nearest integer, ties to even ([0 < d]). *)
Definition round_half_even (n d : Z) : Z :=
  let q := n / d in
  let r := n mod d in
  match 2 * r ?= d with
  | Lt => q
  | Gt => q + 1
  | Eq => if Z.even q then q else q + 1
  end.

(** The number of tenths nearest to [m * 2^e]. *)
Definition tenths (m : positive) (e : Z) : Z :=
  match e with
  | Zneg p => round_half_even (10 * Zpos m) (2 ^ Zpos p)
  | _ => 10 * Zpos m * 2 ^ e
  end.

(** [f"{x:.1f}"]. *)
Definition format_1f (x : spec_float) : string :=
  let sign (s : bool) := if s then "-" else "" in
  match x with
  | S754_nan => "nan"
  | S754_infinity s => sign s ++ "inf"
  | S754_zero s => sign s ++ "0.0"
  | S754_finite s m e =>
      let t := tenths m e in
      sign s ++ Str.of_Z (t / 10) ++ "." ++ Str.of_Z (t mod 10)
  end.

End Py.

(** ** [os.path] (POSIX flavour) and [urllib.parse] *)

Module Path.

(** [os.path.basename(p)]: [i = p.rfind('/') + 1; return p[i:]]. *)
Definition basename (p : string) : string :=
  let i := Str.rfind "/" p + 1 in
  Str.drop (Z.to_nat i) p.

(** [os.path.join(a, b)]. *)
Definition join (a b : string) : string :=
  if Str.startswith "/" b then b
  else if (String.eqb a "" || Str.endswith "/" a)%bool then a ++ b
  else a ++ "/" ++ b.

End Path.

Module Url.

Definition is_alpha (a : ascii) : bool :=
  let n := N_of_ascii a in
  (((65 <=? n) && (n <=? 90)) || ((97 <=? n) && (n <=? 122)))%N.

Definition is_digit (a : ascii) : bool :=
  let n := N_of_ascii a in ((48 <=? n) && (n <=? 57))%N.

(** Membership in [scheme_chars]: letters, digits and [+-.]. *)
Definition scheme_char (a : ascii) : bool :=
  is_alpha a || is_digit a || Ascii.eqb a "+" || Ascii.eqb a "-" || Ascii.eqb a ".".

Definition lower (a : ascii) : ascii :=
  let n := N_of_ascii a in
  if ((65 <=? n) && (n <=? 90))%N then ascii_of_N (n + 32) else a.

(** The characters [urlsplit] strips on the left (C0 controls and space)
    and those it removes everywhere (tab, line feed, carriage return). *)
Definition c0_or_space (a : ascii) : bool := (N_of_ascii a <=? 32)%N.

Definition unsafe_byte (a : ascii) : bool :=
  let n := N_of_ascii a in ((n =? 9) || (n =? 10) || (n =? 13))%N.

(** The schemes for which [urlparse] splits off [;params]. *)
Definition uses_params : list string :=
  [""; "ftp"; "hdl"; "prospero"; "http"; "imap"; "https"; "shttp"; "rtsp";
   "rtspu"; "sip"; "sips"; "mms"; "sftp"; "tel"].

(** [_splitnetloc(url, 2)]: the authority ends at the first of [/?#]. *)
Definition splitnetloc (url : string) : string * string :=
  let len := Z.of_nat (String.length url) in
  let cut (delim : Z) (c : ascii) :=
    let w := Str.find_from c 2 url in
    if 0 <=? w then Z.min delim w else delim in
  let delim := cut (cut (cut len "/"%char) "?"%char) "#"%char in
  (Str.drop 2 (Str.take (Z.to_nat delim) url), Str.drop (Z.to_nat delim) url).

(** [s.split(c, 1)[0]] when [c] occurs in [s], else [s]. *)
Definition before (c : ascii) (s : string) : string :=
  let i := Str.find c s in
  if 0 <=? i then Str.take (Z.to_nat i) s else s.

(** [_splitparams(url)[0]]. *)
Definition splitparams (url : string) : string :=
  if Str.contains "/" url then
    let i := Str.find_from ";" (Z.to_nat (Str.rfind "/" url)) url in
    if i <? 0 then url else Str.take (Z.to_nat i) url
  else Str.take (Z.to_nat (Str.find ";" url)) url.

Definition is_hex (a : ascii) : bool :=
  let n := N_of_ascii a in
  (is_digit a || ((65 <=? n) && (n <=? 70)) || ((97 <=? n) && (n <=? 102)))%N.

(** The number a string of decimal digits stands for. *)
Fixpoint decimal (s : string) (acc : Z) : Z :=
  match s with
  | EmptyString => acc
  | String a r => decimal r (10 * acc + (Z.of_N (N_of_ascii a) - 48))
  end.

(** [ipaddress]: an octet of an IPv4 address, a whole IPv4 address, a
    hextet of an IPv6 address. *)
Definition valid_octet (s : string) : bool :=
  negb (String.eqb s "") && Str.forallb is_digit s
  && (Z.of_nat (String.length s) <=? 3)
  && (String.eqb s "0" || negb (Str.startswith "0" s))
  && (decimal s 0 <=? 255).

Definition valid_ipv4 (s : string) : bool :=
  negb (Str.contains "/" s) && negb (String.eqb s "")
  && match Str.split "." s with
     | [a; b; c; d] => valid_octet a && valid_octet b && valid_octet c && valid_octet d
     | _ => false
     end.

Definition valid_hextet (s : string) : bool :=
  Str.forallb is_hex s && (Z.of_nat (String.length s) <=? 4) && negb (String.eqb s "").

Definition is_empty (s : string) : bool := String.eqb s "".

(** How many parts stand before the first empty one. *)
Fixpoint before_empty (parts : list string) : nat :=
  match parts with
  | p :: rest => if is_empty p then O else S (before_empty rest)
  | [] => O
  end.

(** How many hexadecimal digits a string starts with. *)
Fixpoint leading_hex (s : string) : nat :=
  match s with
  | String a r => if is_hex a then S (leading_hex r) else O
  | EmptyString => O
  end.

(** The parts of an IPv6 address between its colons, an IPv4 suffix
    already replaced by its two hextets: at most one empty part inside,
    which stands for a run of zeros and may reach either end. *)
Definition valid_ipv6_parts (parts : list string) : bool :=
  let n := length parts in
  let first := hd "" parts in
  let final := List.last parts "" in
  let inner := removelast (tl parts) in
  match List.filter is_empty inner with
  | [] =>
      Nat.eqb n 8 && negb (is_empty first) && negb (is_empty final)
      && forallb valid_hextet parts
  | [_] =>
      let skip_index := S (before_empty inner) in
      let high := firstn skip_index parts in
      let low := skipn (S skip_index) parts in
      let high := if is_empty first then tl high else high in
      let low := if is_empty final then removelast low else low in
      (negb (is_empty first) || Nat.eqb skip_index 1)
      && (negb (is_empty final) || Nat.eqb (length (skipn (S skip_index) parts)) 1)
      && (length high + length low <? 8)%nat
      && forallb valid_hextet high && forallb valid_hextet low
  | _ => false
  end.

(** [IPv6Address(s)] accepts the string [s]. *)
Definition valid_ipv6 (s : string) : bool :=
  if Str.contains "/" s then false
  else
    let '(addr, found, scope) := Str.partition "%" s in
    if found && (String.eqb scope "" || Str.contains "%" scope) then false
    else if String.eqb addr "" then false
    else
      let parts := Str.split ":" addr in
      if (length parts <? 3)%nat then false
      else
        let final := List.last parts "" in
        if Str.contains "." final then
          valid_ipv4 final
          && (length parts <=? 8)%nat
          && valid_ipv6_parts (removelast parts ++ ["0"; "0"])%list
        else (length parts <=? 9)%nat && valid_ipv6_parts parts.

(** The text [v<hex digits>.<something>] of an IPvFuture address. *)
Definition is_ipvfuture (s : string) : bool :=
  match s with
  | String "v" r =>
      let digits := leading_hex r in
      (0 <? digits)%nat
      && match Str.drop digits r with
         | String "." (String _ _) => true
         | _ => false
         end
  | _ => false
  end.

(** [_check_bracketed_host(hostname)]. *)
Definition check_bracketed_host (hostname : string) : option exn :=
  if Str.startswith "v" hostname then
    if is_ipvfuture hostname then None
    else Some (MkExn ValueError "IPvFuture address is invalid")
  else if valid_ipv4 hostname then
    Some (MkExn ValueError "An IPv4 address cannot be in brackets")
  else if valid_ipv6 hostname then None
  else
    Some (MkExn ValueError
            (Py.repr hostname ++ " does not appear to be an IPv4 or IPv6 address")).

(** [_check_bracketed_netloc(netloc)]. *)
Definition check_bracketed_netloc (netloc : string) : option exn :=
  let hostname_and_port := Str.after_last "@" netloc in
  let '(before_bracket, have_open_br, bracketed) := Str.partition "[" hostname_and_port in
  if have_open_br then
    if negb (String.eqb before_bracket "") then Some (MkExn ValueError "Invalid IPv6 URL")
    else
      let '(hostname, _, port) := Str.partition "]" bracketed in
      if negb (String.eqb port "") && negb (Str.startswith ":" port)
      then Some (MkExn ValueError "Invalid IPv6 URL")
      else check_bracketed_host hostname
  else
    let '(hostname, _, _) := Str.partition ":" hostname_and_port in
    check_bracketed_host hostname.

(** [urlparse(url).path].  The scheme is split off when the text before
    the first colon is a scheme name; an authority introduced by [//] is
    split off and checked: its brackets balanced, a bracketed host an IPv6
    or IPvFuture address; fragment, query and parameters are removed.  The
    check of the normalised authority ([_checknetloc]) accepts every string
    of Latin-1 characters: none of them normalises to a delimiter. *)
Definition urlparse_path (url0 : string) : result string :=
  let url := Str.filter (fun a => negb (unsafe_byte a)) (Str.lstrip c0_or_space url0) in
  let i := Str.find ":" url in
  let '(scheme, url) :=
    if (0 <? i) && Str.forallb scheme_char (Str.take (Z.to_nat i) url)
       && match url with String a _ => is_alpha a | EmptyString => false end
    then (Str.map lower (Str.take (Z.to_nat i) url), Str.drop (Z.to_nat (i + 1)) url)
    else ("", url) in
  let '(netloc, url) :=
    if String.eqb (Str.take 2 url) "//" then splitnetloc url else ("", url) in
  if xorb (Str.contains "[" netloc) (Str.contains "]" netloc)
  then Raise (MkExn ValueError "Invalid IPv6 URL")
  else
    match (if Str.contains "[" netloc && Str.contains "]" netloc
           then check_bracketed_netloc netloc else None) with
    | Some e => Raise e
    | None =>
        let url := before "?" (before "#" url) in
        if existsb (String.eqb scheme) uses_params && Str.contains ";" url
        then Ok (splitparams url)
        else Ok url
    end.

End Url.

(** ** Python values, the manager object and the actions it performs *)

Local Open Scope list_scope.

Inductive pyval :=
| PNone
| PBool (b : bool)
| PInt (z : Z)
| PStr (s : string)
| PList (l : list pyval)
| PDict (d : gmap string pyval)
| PMethod (name : string).

(** A callable passed as a callback: its name, and what a call of it does
    with the argument it is handed, return ([None]) or raise an exception.
    A callback attribute holds a callable or Python's [None] (here [None] of
    [option]). *)
Inductive callable := Func (name : string) (answer : pyval -> option exn).

Definition answer (f : callable) : pyval -> option exn :=
  match f with Func _ a => a end.

Record DownloadManager := MkManager {
  progress_callback : option callable;
  completion_callback : option callable;
  error_callback : option callable;
  is_downloading : bool
}.

Definition with_downloading (b : bool) (self : DownloadManager) : DownloadManager :=
  {| progress_callback := progress_callback self;
     completion_callback := completion_callback self;
     error_callback := error_callback self;
     is_downloading := b |}.

(** Which attribute a callback was called through. *)
Inductive role := Progress | Completion | Error.

Inductive action :=
| Callback (r : role) (f : callable) (arg : pyval)
| HttpGet (url : string) (stream : bool) (timeout : Z)
| YoutubeDL (opts : gmap string pyval) (urls : list string)
| OpenWb (path : string)
| FileWrite (path : string) (chunk : list Byte.byte)
| FileClose (path : string)
| SetDownloading (b : bool)
| ThreadStart (url download_type output_dir : string) (daemon : bool).

(** ** The world: what the libraries and the system answer *)

Record response := MkResponse {
  status_code : Z;
  reason : string;
  resp_url : string;
  content_length : option string;   (* headers.get('content-length') *)
  body : list (list Byte.byte);     (* what iter_content yields *)
  body_end : option exn             (* the stream ends, or breaks with an exception *)
}.

(** The extraction engine inside the [with] block.  It ends, with the
    exception that leaves the block if any; or it hands a dictionary to the
    progress hooks and goes on, in a way that may depend on what the hooks
    did: they returned ([None]) or raised. *)
Inductive engine :=
| Ends (e : option exn)
| Reports (d : gmap string pyval) (next : option exn -> engine).

Record world := MkWorld {
  isdir : string -> bool;
  requests_get : string -> result response;
  youtube_dl : gmap string pyval -> string -> engine;
  open_wb : string -> option exn;
  file_write : string -> Z -> list Byte.byte -> option exn;
  file_close : string -> option exn
}.

(** ** The monad of methods *)

Definition M (A : Type) : Type :=
  DownloadManager -> result A * DownloadManager * list action.

Definition ret {A} (a : A) : M A := fun self => (Ok a, self, []).

Definition raise {A} (e : exn) : M A := fun self => (Raise e, self, []).

Definition bind {A B} (c : M A) (k : A -> M B) : M B :=
  fun self =>
    match c self with
    | (Ok a, self1, acts1) =>
        let '(r, self2, acts2) := k a self1 in (r, self2, acts1 ++ acts2)
    | (Raise e, self1, acts1) => (Raise e, self1, acts1)
    end.

Notation "x <- c ;; k" := (bind c (fun x => k))
  (at level 100, c at next level, right associativity).

Notation "c ;;; k" := (bind c (fun _ => k))
  (at level 100, right associativity).

Definition emit (a : action) : M unit := fun self => (Ok tt, self, [a]).

Definition get_self : M DownloadManager := fun self => (Ok self, self, []).

(** [self.is_downloading = b]. *)
Definition set_is_downloading (b : bool) : M unit :=
  fun self => (Ok tt, with_downloading b self, [SetDownloading b]).

Definition lift {A} (r : result A) : M A :=
  match r with Ok a => ret a | Raise e => raise e end.

Definition raise_if (o : option exn) : M unit :=
  match o with Some e => raise e | None => ret tt end.

(** [try: body / except C1 as e: h1 / except C2 as e: h2 ...]: the first
    clause whose class test accepts the exception handles it; with no such
    clause the exception goes on. *)
Fixpoint dispatch {A} (clauses : list ((exn -> bool) * (exn -> M A))) (e : exn) : M A :=
  match clauses with
  | [] => raise e
  | (test, handler) :: rest => if test e then handler e else dispatch rest e
  end.

Definition try_except {A} (body : M A) (clauses : list ((exn -> bool) * (exn -> M A))) : M A :=
  fun self =>
    match body self with
    | (Ok a, self1, acts1) => (Ok a, self1, acts1)
    | (Raise e, self1, acts1) =>
        let '(r, self2, acts2) := dispatch clauses e self1 in (r, self2, acts1 ++ acts2)
    end.

(** [try: body / finally: fin]: [fin] runs on every exit of [body]; an
    exception of [fin] replaces the outcome of [body]. *)
Definition try_finally {A} (body : M A) (fin : M unit) : M A :=
  fun self =>
    let '(r, self1, acts1) := body self in
    match fin self1 with
    | (Ok _, self2, acts2) => (r, self2, acts1 ++ acts2)
    | (Raise e, self2, acts2) => (Raise e, self2, acts1 ++ acts2)
    end.

(** [for x in items: st = body(x, st)], over a generator that yields
    [items] and then ends, or breaks with [stop]. *)
Fixpoint for_each {A S} (items : list A) (stop : option exn)
    (body : A -> S -> M S) (st : S) : M S :=
  match items with
  | [] => match stop with Some e => raise e | None => ret st end
  | x :: rest => st1 <- body x st ;; for_each rest stop body st1
  end.

(** What a computation did, as a value: the exception it raised, if any.
    This is what a caller sees that goes on after the exception. *)
Definition attempt {A} (c : M A) : M (option exn) :=
  fun self =>
    match c self with
    | (Ok _, self1, acts1) => (Ok None, self1, acts1)
    | (Raise e, self1, acts1) => (Ok (Some e), self1, acts1)
    end.

(** Calling an attribute that holds a callback: the callable is called and
    what it raises goes to the caller; [None] is not callable. *)
Definition py_call (r : role) (cb : option callable) (arg : pyval) : M unit :=
  match cb with
  | Some f => emit (Callback r f arg) ;;; raise_if (answer f arg)
  | None => raise (MkExn TypeError "'NoneType' object is not callable")
  end.

(** [if cb: ...]: a callable is true, [None] is false. *)
Definition truthy (cb : option callable) : bool :=
  match cb with Some _ => true | None => false end.

Definition when (b : bool) (c : M unit) : M unit := if b then c else ret tt.

(** ** Library calls, as the world answers them *)

(** [requests.get(url, stream=True, timeout=10)]. *)
Definition requests_get_call (w : world) (url : string) (stream : bool) (timeout : Z)
  : M response :=
  emit (HttpGet url stream timeout) ;;; lift (requests_get w url).

(** [response.raise_for_status()]. *)
Definition raise_for_status (resp : response) : M unit :=
  let msg (kind : string) :=
    Str.of_Z (status_code resp) +:+ " " +:+ kind +:+ " Error: " +:+ reason resp
      +:+ " for url: " +:+ resp_url resp in
  if (400 <=? status_code resp) && (status_code resp <? 500)
  then raise (MkExn HTTPError (msg "Client"))
  else if (500 <=? status_code resp) && (status_code resp <? 600)
  then raise (MkExn HTTPError (msg "Server"))
  else ret tt.

(** [int(response.headers.get('content-length', 0))]. *)
Definition content_length_int (resp : response) : result Z :=
  match content_length resp with
  | Some s => Py.int_of_str s
  | None => Ok 0
  end.

(** [with open(path, 'wb') as f: body]: the file is closed on every exit. *)
Definition with_open {A} (w : world) (path : string) (body : M A) : M A :=
  emit (OpenWb path) ;;;
  raise_if (open_wb w path) ;;;
  try_finally body (emit (FileClose path) ;;; raise_if (file_close w path)).

(** [f.write(chunk)], with [offset] bytes written before. *)
Definition f_write (w : world) (path : string) (offset : Z) (chunk : list Byte.byte)
  : M unit :=
  emit (FileWrite path chunk) ;;; raise_if (file_write w path offset chunk).

(** [len(chunk)]. *)
Definition len (chunk : list Byte.byte) : Z := Z.of_nat (length chunk).

(** ** The class [DownloadManager] *)

(** [__init__(self, progress_callback=None, completion_callback=None,
    error_callback=None)]; an argument left out is [None] here and takes its
    default. *)
Definition __init__ (progress completion error : option (option callable))
  : DownloadManager :=
  {| progress_callback := default None progress;
     completion_callback := default None completion;
     error_callback := default None error;
     is_downloading := false |}.

Definition _yt_dlp_hook (d : gmap string pyval) : M unit :=
  self <- get_self ;;
  when (truthy (progress_callback self))
    (py_call Progress (progress_callback self) (PDict d)).

(** The engine calls every hook registered under ['progress_hooks']; the
    only method of this class that is ever registered is [_yt_dlp_hook]. *)
Definition call_progress_hooks (opts d : gmap string pyval) : M unit :=
  match opts !! "progress_hooks" with
  | Some (PList hooks) =>
      for_each hooks None
        (fun h _ =>
           match h with
           | PMethod "_yt_dlp_hook" => _yt_dlp_hook d
           | _ => raise (MkExn TypeError "object is not callable")
           end) tt
  | _ => ret tt
  end.

(** The engine at work: every dictionary it reports goes through the
    hooks, and the engine goes on with what the hooks did. *)
Fixpoint run_engine (hooks : gmap string pyval -> M unit) (g : engine) : M unit :=
  match g with
  | Ends e => raise_if e
  | Reports d next => o <- attempt (hooks d) ;; run_engine hooks (next o)
  end.

(** [with yt_dlp.YoutubeDL(ydl_opts) as ydl: ydl.download([url])]. *)
Definition ydl_download (w : world) (opts : gmap string pyval) (url : string) : M unit :=
  emit (YoutubeDL opts [url]) ;;;
  run_engine (call_progress_hooks opts) (youtube_dl w opts url).

Definition ydl_opts_default (output_path : string) : gmap string pyval :=
  {[ "outtmpl" := PStr (Path.join output_path "%(title)s.%(ext)s");
     "progress_hooks" := PList [PMethod "_yt_dlp_hook"];
     "retries" := PInt 3;
     "fragment_retries" := PInt 3;
     "ignoreerrors" := PBool true;
     "format" := PStr "bestvideo[ext=mp4]+bestaudio[ext=m4a]/best[ext=mp4]/best" ]}.

Definition ydl_opts_audio : gmap string pyval :=
  {[ "format" := PStr "bestaudio/best";
     "postprocessors" :=
       PList [PDict {[ "key" := PStr "FFmpegExtractAudio";
                       "preferredcodec" := PStr "mp3";
                       "preferredquality" := PStr "192" ]}];
     "extract_audio" := PBool true ]}.

(** [d.update(other)]: the entries of [other] win. *)
Definition dict_update (d other : gmap string pyval) : gmap string pyval := other ∪ d.

Definition make_ydl_opts (output_path download_type : string) : gmap string pyval :=
  let ydl_opts := ydl_opts_default output_path in
  if String.eqb download_type "audio" then dict_update ydl_opts ydl_opts_audio
  else ydl_opts.

Definition _download_video_audio (w : world) (url output_path download_type : string)
  : M unit :=
  let ydl_opts := make_ydl_opts output_path download_type in
  try_finally
    (try_except
       (ydl_download w ydl_opts url ;;;
        self <- get_self ;;
        when (truthy (completion_callback self))
          (py_call Completion (completion_callback self)
             (PStr ("Download complete for " +:+ url +:+ " (check " +:+ output_path +:+ ")"))))
       [(is_Exception,
         fun e =>
           self <- get_self ;;
           when (truthy (error_callback self))
             (py_call Error (error_callback self)
                (PStr ("Error downloading " +:+ url +:+ ": " +:+ exn_str e))))])
    (set_is_downloading false).

(** The filename of an image: the basename of the URL's path, or the
    default when it is empty or has no dot. *)
Definition image_filename (path : string) : string :=
  let filename := Path.basename path in
  if String.eqb filename "" || negb (Str.contains "." filename)
  then "downloaded_image.jpg"
  else filename.

(** [f"{downloaded_size / total_size * 100:.1f}%" if total_size > 0 else "N/A"]. *)
Definition percent_str (downloaded_size total_size : Z) : result string :=
  if total_size >? 0 then
    match Py.true_div downloaded_size total_size with
    | Ok q => Ok (Py.format_1f (Py.float_mul_int q 100) +:+ "%")
    | Raise e => Raise e
    end
  else Ok "N/A".

(** The progress dictionary of the image adapter. *)
Definition image_progress (total_size downloaded_size : Z) (percent : string)
  : gmap string pyval :=
  {[ "status" := PStr "downloading";
     "total_bytes" := PInt total_size;
     "downloaded_bytes" := PInt downloaded_size;
     "_percent_str" := PStr percent;
     "_eta_str" := PStr "N/A" ]}.

(** The body of the [for chunk in response.iter_content(...)] loop; the
    loop state is [downloaded_size]. *)
Definition image_chunk (w : world) (file_path : string) (total_size : Z)
    (chunk : list Byte.byte) (downloaded_size : Z) : M Z :=
  match chunk with
  | [] => ret downloaded_size
  | _ =>
      f_write w file_path downloaded_size chunk ;;;
      let downloaded_size := downloaded_size + len chunk in
      self <- get_self ;;
      when (truthy (progress_callback self))
        (percent <- lift (percent_str downloaded_size total_size) ;;
         py_call Progress (progress_callback self)
           (PDict (image_progress total_size downloaded_size percent))) ;;;
      ret downloaded_size
  end.

(** The [try] block of [_download_image]. *)
Definition image_try (w : world) (url output_path : string) : M unit :=
  response <- requests_get_call w url true 10 ;;
  raise_for_status response ;;;
  parsed_path <- lift (Url.urlparse_path url) ;;
  let filename := image_filename parsed_path in
  let file_path := Path.join output_path filename in
  total_size <- lift (content_length_int response) ;;
  let downloaded_size := 0 in
  with_open w file_path
    (for_each (body response) (body_end response)
       (image_chunk w file_path total_size) downloaded_size) ;;;
  self <- get_self ;;
  when (truthy (completion_callback self))
    (py_call Completion (completion_callback self) (PStr file_path)).

Definition _download_image (w : world) (url output_path : string) : M unit :=
  try_finally
    (try_except (image_try w url output_path)
       [(is_RequestException,
         fun e =>
           self <- get_self ;;
           when (truthy (error_callback self))
             (py_call Error (error_callback self)
                (PStr ("Network error downloading image from " +:+ url +:+ ": "
                         +:+ exn_str e))));
        (is_Exception,
         fun e =>
           self <- get_self ;;
           when (truthy (error_callback self))
             (py_call Error (error_callback self)
                (PStr ("Error downloading image from " +:+ url +:+ ": "
                         +:+ exn_str e))))])
    (set_is_downloading false).

(** [download_content]: the thread it starts is recorded as a
    [ThreadStart] action; the scheduler below runs it. *)
Definition download_content (w : world) (url download_type output_dir : string)
  : M unit :=
  self <- get_self ;;
  if is_downloading self then
    when (truthy (error_callback self))
      (py_call Error (error_callback self)
         (PStr "A download is already in progress. Please wait."))
  else if negb (isdir w output_dir) then
    when (truthy (error_callback self))
      (py_call Error (error_callback self)
         (PStr ("Output directory does not exist: " +:+ output_dir)))
  else
    set_is_downloading true ;;;
    emit (ThreadStart url download_type output_dir true).

Definition _run_download_task (w : world) (url download_type output_dir : string)
  : M unit :=
  if String.eqb download_type "video" || String.eqb download_type "audio" then
    _download_video_audio w url output_dir download_type
  else if String.eqb download_type "image" then
    _download_image w url output_dir
  else
    self <- get_self ;;
    when (truthy (error_callback self))
      (py_call Error (error_callback self)
         (PStr ("Invalid download type: " +:+ download_type))) ;;;
    set_is_downloading false.

(** ** Threads and the scheduler *)

(** A started thread: the actions its target still has to perform, and the
    exception that leaves the target after them, if any.  The target never
    reads [is_downloading], so its actions are fixed when it starts. *)
Record thread := MkThread {
  pending : list action;
  fault : option exn
}.

(** The program state: the manager object, the threads by the number of
    the submission that started them, the actions performed so far, each
    tagged with the submission it belongs to, and the number of
    submissions made. *)
Record system := MkSystem {
  manager : DownloadManager;
  threads : gmap nat thread;
  history : list (nat * action);
  submitted : nat
}.

Definition boot (self : DownloadManager) : system :=
  {| manager := self; threads := ∅; history := []; submitted := 0 |}.

(** The effect of one action on the shared manager object. *)
Definition perform (a : action) (self : DownloadManager) : DownloadManager :=
  match a with
  | SetDownloading b => with_downloading b self
  | _ => self
  end.

(** The thread that [Thread(target=self._run_download_task, args=...)]
    becomes once started. *)
Definition start_thread (w : world) (self : DownloadManager)
    (url download_type output_dir : string) : thread :=
  let '(r, _, acts) := _run_download_task w url download_type output_dir self in
  {| pending := acts;
     fault := match r with Ok _ => None | Raise e => Some e end |}.

(** The threads started by a list of actions of submission [id]. *)
Fixpoint spawn (w : world) (self : DownloadManager) (id : nat) (acts : list action)
    (ts : gmap nat thread) : gmap nat thread :=
  match acts with
  | [] => ts
  | ThreadStart url download_type output_dir _ :: rest =>
      spawn w self id rest (<[id := start_thread w self url download_type output_dir]> ts)
  | _ :: rest => spawn w self id rest ts
  end.

Inductive label :=
| Submit (w : world) (url download_type output_dir : string)
| Work (tid : nat).

(** One scheduling step: a whole call of [download_content] on the main
    thread, or the next action of a started thread. *)
Definition sys_step (l : label) (s : system) : system :=
  match l with
  | Submit w url download_type output_dir =>
      let id := submitted s in
      let '(_, self, acts) := download_content w url download_type output_dir (manager s) in
      {| manager := self;
         threads := spawn w self id acts (threads s);
         history := history s ++ map (pair id) acts;
         submitted := S id |}
  | Work tid =>
      match threads s !! tid with
      | Some {| pending := a :: rest; fault := f |} =>
          {| manager := perform a (manager s);
             threads := <[tid := {| pending := rest; fault := f |}]> (threads s);
             history := history s ++ [(tid, a)];
             submitted := submitted s |}
      | _ => s
      end
  end.

Definition run_system (ls : list label) (s : system) : system :=
  fold_left (fun s l => sys_step l s) ls s.

(** ** Events *)

(** The events of the specification are the callback calls. *)
Definition is_event (a : action) : bool :=
  match a with Callback _ _ _ => true | _ => false end.

Definition is_progress (a : action) : bool :=
  match a with Callback Progress _ _ => true | _ => false end.

Definition is_write (a : action) : bool :=
  match a with FileWrite _ _ => true | _ => false end.

(** An outcome event: a completion or an error callback call. *)
Definition is_outcome (a : action) : bool :=
  match a with
  | Callback Completion _ _ | Callback Error _ _ => true
  | _ => false
  end.

Definition events (acts : list action) : list action := List.filter is_event acts.

Definition progress_events (acts : list action) : list action := List.filter is_progress acts.

Definition outcome_events (acts : list action) : list action := List.filter is_outcome acts.

(** The actions of submission [id] in a history. *)
Definition actions_of (id : nat) (h : list (nat * action)) : list action :=
  map snd (List.filter (fun p => Nat.eqb (fst p) id) h).

(** What one request looks like from outside: its actions so far and the
    state of its thread. *)
Definition view (id : nat) (s : system) : list action * option thread :=
  (actions_of id (history s), threads s !! id).

(** [d['downloaded_bytes']] of a progress event, when it is an integer. *)
Definition downloaded_bytes (a : action) : option Z :=
  match a with
  | Callback Progress _ (PDict d) =>
      match d !! "downloaded_bytes" with
      | Some (PInt n) => Some n
      | _ => None
      end
  | _ => None
  end.

(** ** The calls a run makes *)

(** What a call of a callback attribute under its guard [if cb:] raises:
    what the callable answers when one is registered, nothing otherwise. *)
Definition call_fault (cb : option callable) (arg : pyval) : option exn :=
  match cb with
  | Some f => answer f arg
  | None => None
  end.

(** The result of a computation that ends with the exception [o], if
    any. *)
Definition fault_result (o : option exn) : result unit :=
  match o with Some e => Raise e | None => Ok tt end.

(** The call a guarded callback attribute makes: one call when a callable
    is registered, nothing otherwise. *)
Definition notify (r : role) (cb : option callable) (arg : pyval) : list action :=
  match cb with
  | Some f => [Callback r f arg]
  | None => []
  end.

(** The dictionaries an engine reports when the progress callback is [cb],
    in order, and the exception that leaves the engine at its end. *)
Fixpoint hook_calls (cb : option callable) (g : engine) : list (gmap string pyval) :=
  match g with
  | Ends _ => []
  | Reports d next => d :: hook_calls cb (next (call_fault cb (PDict d)))
  end.

Fixpoint engine_exn (cb : option callable) (g : engine) : option exn :=
  match g with
  | Ends e => e
  | Reports d next => engine_exn cb (next (call_fault cb (PDict d)))
  end.

(** The progress events the hook produces for the engine's dictionaries. *)
Definition hook_events (self : DownloadManager) (ds : list (gmap string pyval))
  : list action :=
  match progress_callback self with
  | Some f => map (fun d => Callback Progress f (PDict d)) ds
  | None => []
  end.

Definition completion_message (url output_path : string) : string :=
  "Download complete for " +:+ url +:+ " (check " +:+ output_path +:+ ")".

Definition video_error_message (url : string) (e : exn) : string :=
  "Error downloading " +:+ url +:+ ": " +:+ exn_str e.

(** The exception that leaves the [try] block of the extraction adapter:
    that of the engine or, when the engine ends well, that of the completion
    callback. *)
Definition video_try_fault (self : DownloadManager) (url output_path : string)
    (run : engine) : option exn :=
  match engine_exn (progress_callback self) run with
  | Some e => Some e
  | None =>
      call_fault (completion_callback self) (PStr (completion_message url output_path))
  end.

(** The outcome calls of the extraction adapter for one engine: the
    completion call when the engine ends well, and the error call for the
    exception that leaves the [try] block. *)
Definition video_outcome (self : DownloadManager) (url output_path : string)
    (run : engine) : list action :=
  match engine_exn (progress_callback self) run with
  | None =>
      notify Completion (completion_callback self)
        (PStr (completion_message url output_path))
  | Some _ => []
  end
    ++ match video_try_fault self url output_path run with
       | Some e => notify Error (error_callback self) (PStr (video_error_message url e))
       | None => []
       end.

(** The exception that leaves the extraction adapter: that of the error
    callback. *)
Definition video_fault (self : DownloadManager) (url output_path : string)
    (run : engine) : option exn :=
  match video_try_fault self url output_path run with
  | Some e => call_fault (error_callback self) (PStr (video_error_message url e))
  | None => None
  end.

(** ** Descriptions of the runs of the image adapter *)

Definition nonempty (chunk : list Byte.byte) : bool :=
  match chunk with [] => false | _ => true end.

(** The chunks handed to [f.write] in a list of actions, and their total
    length. *)
Fixpoint chunks_written (acts : list action) : list (list Byte.byte) :=
  match acts with
  | [] => []
  | FileWrite _ chunk :: rest => chunk :: chunks_written rest
  | _ :: rest => chunks_written rest
  end.

Fixpoint written (acts : list action) : Z :=
  match acts with
  | [] => 0
  | FileWrite _ chunk :: rest => len chunk + written rest
  | _ :: rest => written rest
  end.

(** A list of actions reports image progress correctly from the count
    [dl] on: every progress call goes to the registered callback and carries
    the image dictionary for [total] and the bytes written before it. *)
Fixpoint progress_ok (cb : option callable) (total dl : Z) (acts : list action) : Prop :=
  match acts with
  | [] => True
  | FileWrite _ chunk :: rest => progress_ok cb total (dl + len chunk) rest
  | Callback Progress f arg :: rest =>
      (cb = Some f /\
       exists pct, percent_str dl total = Ok pct /\
                   arg = PDict (image_progress total dl pct)) /\
      progress_ok cb total dl rest
  | _ :: rest => progress_ok cb total dl rest
  end.

(** The actions the loop itself may perform: writes of non-empty chunks to
    the file and progress calls. *)
Definition loop_action (path : string) (a : action) : Prop :=
  match a with
  | FileWrite p chunk => p = path /\ chunk <> []
  | Callback Progress _ _ => True
  | _ => False
  end.

(** What one turn of the loop does, as a value. *)
Definition chunk_turn (w : world) (cb : option callable) (path : string) (total : Z)
    (chunk : list Byte.byte) (dl : Z) : result Z * list action :=
  if nonempty chunk then
    match file_write w path dl chunk with
    | Some e => (Raise e, [FileWrite path chunk])
    | None =>
        match cb with
        | None => (Ok (dl + len chunk), [FileWrite path chunk])
        | Some f =>
            match percent_str (dl + len chunk) total with
            | Ok pct =>
                let d := PDict (image_progress total (dl + len chunk) pct) in
                (match answer f d with
                 | Some e => Raise e
                 | None => Ok (dl + len chunk)
                 end,
                 [FileWrite path chunk; Callback Progress f d])
            | Raise e => (Raise e, [FileWrite path chunk])
            end
        end
    end
  else (Ok dl, []).

(** A list of actions without writes or progress calls reports progress
    correctly, whatever the count. *)
Definition quiet (a : action) : Prop :=
  match a with
  | FileWrite _ _ | Callback Progress _ _ => False
  | _ => True
  end.

(** Actions a worker performs before its outcome: no outcome call, no
    write to the busy flag, no thread start. *)
Definition worker_io (a : action) : Prop :=
  match a with
  | Callback Completion _ _ | Callback Error _ _ => False
  | SetDownloading _ | ThreadStart _ _ _ _ => False
  | _ => True
  end.

(** Every file operation in the list is on [path]. *)
Definition on_file (path : string) (a : action) : Prop :=
  match a with
  | OpenWb q | FileWrite q _ | FileClose q => q = path
  | _ => True
  end.

(** What holds of one run of the [try] block of the image adapter, split
    into the actions before the outcome ([pre]) and the completion call
    ([tail]). *)
Definition image_facts (w : world) (url output_path : string) (self : DownloadManager)
    (r : result unit) (pre tail : list action) : Prop :=
  Forall worker_io pre /\
  ((tail = [] /\ forall u, r <> Ok u) \/
   exists p, Url.urlparse_path url = Ok p /\
     tail = notify Completion (completion_callback self)
              (PStr (Path.join output_path (image_filename p))) /\
     r = fault_result (call_fault (completion_callback self)
                         (PStr (Path.join output_path (image_filename p))))) /\
  (forall p, Url.urlparse_path url = Ok p ->
     Forall (on_file (Path.join output_path (image_filename p))) pre) /\
  (Forall quiet pre /\ (forall u, r <> Ok u) \/
   exists resp total,
     requests_get w url = Ok resp /\
     content_length_int resp = Ok total /\
     progress_ok (progress_callback self) total 0 pre /\
     (exists rest, List.filter nonempty (body resp) = chunks_written pre ++ rest) /\
     (forall u, r = Ok u -> chunks_written pre = List.filter nonempty (body resp))).

(** The error message of the image adapter for an exception. *)
Definition image_error_message (url : string) (e : exn) : string :=
  if is_RequestException e
  then "Network error downloading image from " +:+ url +:+ ": " +:+ exn_str e
  else "Error downloading image from " +:+ url +:+ ": " +:+ exn_str e.

(** The error call of the image adapter for the result of its [try]
    block, and the exception that leaves the adapter: that of the error
    callback. *)
Definition image_report (self : DownloadManager) (url : string) (r : result unit)
  : list action :=
  match r with
  | Ok _ => []
  | Raise e => notify Error (error_callback self) (PStr (image_error_message url e))
  end.

Definition image_report_fault (self : DownloadManager) (url : string) (r : result unit)
  : option exn :=
  match r with
  | Ok _ => None
  | Raise e => call_fault (error_callback self) (PStr (image_error_message url e))
  end.

(** The outcome calls of the image adapter, from the result of its [try]
    block and the completion call made there. *)
Definition image_outcome (self : DownloadManager) (url : string) (r : result unit)
    (tail : list action) : list action :=
  tail ++ image_report self url r.

(** ** The shape of a worker run *)

(** The outcome calls of a worker: one completion call, or one error call,
    each when a callback is registered for it; or a completion call that
    raised, followed by the error call that reports its exception. *)
Definition outcome_calls (self : DownloadManager) (outcome : list action) : Prop :=
  (exists arg, outcome = notify Completion (completion_callback self) arg) \/
  (exists arg, outcome = notify Error (error_callback self) arg) \/
  (exists g arg arg' e,
     completion_callback self = Some g /\ answer g arg = Some e /\
     outcome = Callback Completion g arg :: notify Error (error_callback self) arg').

(** The shape of a worker run that resets the busy flag: actions that are
    neither outcome calls nor writes of the busy flag, then the outcome
    calls, then the reset of the busy flag. *)
Definition worker_shape (self : DownloadManager) (acts : list action) : Prop :=
  exists pre outcome,
    acts = pre ++ outcome ++ [SetDownloading false] /\
    Forall worker_io pre /\
    outcome_calls self outcome.

Definition invalid_type_message (download_type : string) : string :=
  "Invalid download type: " +:+ download_type.

(** A request of a kind the worker knows. *)
Definition known_kind (download_type : string) : bool :=
  String.eqb download_type "video" || String.eqb download_type "audio"
  || String.eqb download_type "image".

(** The worker run that does not reset the busy flag: the kind is unknown
    and the error callback raises on the message about it. *)
Definition stuck_run (self : DownloadManager) (download_type : string)
    (r : result unit) (acts : list action) : Prop :=
  known_kind download_type = false /\
  exists f e,
    error_callback self = Some f /\
    answer f (PStr (invalid_type_message download_type)) = Some e /\
    r = Raise e /\
    acts = [Callback Error f (PStr (invalid_type_message download_type))].

(** An operation returns, or the exception that leaves it is the one a call
    of the error callback raised. *)
Definition error_callback_raised (self : DownloadManager) (r : result unit)
    (acts : list action) : Prop :=
  r = Ok tt \/
  exists f arg e,
    error_callback self = Some f /\ In (Callback Error f arg) acts /\
    answer f arg = Some e /\ r = Raise e.

(** ** Sample worlds and managers *)

(** The callbacks of the application: each schedules a call on the Tk loop
    and returns. *)
Definition on_progress : callable := Func "update_progress" (fun _ => None).

Definition on_complete : callable := Func "on_download_complete" (fun _ => None).

Definition on_error : callable := Func "on_download_error" (fun _ => None).

(** A callback that raises [e] whatever it is given. *)
Definition raising (name : string) (e : exn) : callable := Func name (fun _ => Some e).

(** The manager the application builds: all three callbacks registered. *)
Definition app_manager : DownloadManager :=
  __init__ (Some (Some on_progress)) (Some (Some on_complete)) (Some (Some on_error)).

(** A manager built with no argument at all. *)
Definition bare_manager : DownloadManager := __init__ None None None.

(** A response of status 200 with the given length header and chunks. *)
Definition ok_response (url : string) (header : option string)
    (chunks : list (list Byte.byte)) : response :=
  {| status_code := 200; reason := "OK"; resp_url := url;
     content_length := header; body := chunks; body_end := None |}.

(** A world where the directory [/tmp/out] exists, every URL answers with
    [resp], the engine runs as [run] and the file system accepts all. *)
Definition sample_world (resp : response) (run : engine) : world :=
  {| isdir := fun d => String.eqb d "/tmp/out";
     requests_get := fun _ => Ok resp;
     youtube_dl := fun _ _ => run;
     open_wb := fun _ => None;
     file_write := fun _ _ _ => None;
     file_close := fun _ => None |}.

(** An engine that reports the dictionaries [ds] whatever the hooks do and
    ends with [e]. *)
Fixpoint scripted (ds : list (gmap string pyval)) (e : option exn) : engine :=
  match ds with
  | [] => Ends e
  | d :: rest => Reports d (fun _ => scripted rest e)
  end.

Definition silent_run : engine := Ends None.

(** An engine that reports one dictionary and, when a hook raises, lets
    the exception leave the [with] block. *)
Definition fragile_run (d : gmap string pyval) : engine :=
  Reports d (fun o => Ends o).

Definition chunk_of (n : nat) : list Byte.byte := repeat Byte.x00 n.

(** The two-chunk scenario: 1000 bytes announced, two chunks of 500. *)
Definition two_chunk_world : world :=
  sample_world
    (ok_response "https://example.com/x.jpg" (Some "1000") [chunk_of 500; chunk_of 500])
    silent_run.

(** An engine run that reports 100 bytes, then 50: the second file of a
    two-file download starts counting again. *)
Definition restarting_run : engine :=
  scripted
    [ {[ "status" := PStr "downloading"; "downloaded_bytes" := PInt 100 ]};
      {[ "status" := PStr "downloading"; "downloaded_bytes" := PInt 50 ]} ]
    None.

Definition restarting_world : world :=
  sample_world (ok_response "" None []) restarting_run.

(** The actions of a run. *)
Definition actions {A} (x : result A * DownloadManager * list action) : list action :=
  snd x.

Definition outcome_of {A} (x : result A * DownloadManager * list action) : result A :=
  fst (fst x).

Definition manager_after {A} (x : result A * DownloadManager * list action)
  : DownloadManager :=
  snd (fst x).

(** ** Registered callbacks *)

(** The attribute a callback of a given role is called through. *)
Definition callback_of (r : role) (self : DownloadManager) : option callable :=
  match r with
  | Progress => progress_callback self
  | Completion => completion_callback self
  | Error => error_callback self
  end.

(** A callback call goes to the callable registered for its role. *)
Definition registered (self : DownloadManager) (a : action) : Prop :=
  match a with
  | Callback r f _ => callback_of r self = Some f
  | _ => True
  end.

(** ** Byte counts of progress events *)

(** The byte counts of the progress events of a list of actions. *)
Definition progress_counts (acts : list action) : list Z :=
  omap downloaded_bytes (progress_events acts).

(** ** The image adapter, as a value *)

(** The exception [raise_for_status] raises for a response, if any. *)
Definition status_error (resp : response) : option exn :=
  let msg (kind : string) :=
    Str.of_Z (status_code resp) +:+ " " +:+ kind +:+ " Error: " +:+ reason resp
      +:+ " for url: " +:+ resp_url resp in
  if (400 <=? status_code resp) && (status_code resp <? 500)
  then Some (MkExn HTTPError (msg "Client"))
  else if (500 <=? status_code resp) && (status_code resp <? 600)
  then Some (MkExn HTTPError (msg "Server"))
  else None.

(** What the whole loop does, as a value: the turns in order up to the
    first one that raises, then the end of the stream. *)
Fixpoint loop_run (w : world) (cb : option callable) (path : string) (total : Z)
    (chunks : list (list Byte.byte)) (stop : option exn) (dl : Z)
  : result Z * list action :=
  match chunks with
  | [] => (match stop with Some e => Raise e | None => Ok dl end, [])
  | chunk :: rest =>
      match chunk_turn w cb path total chunk dl with
      | (Ok dl1, acts1) =>
          let '(r, acts2) := loop_run w cb path total rest stop dl1 in
          (r, acts1 ++ acts2)
      | (Raise e, acts1) => (Raise e, acts1)
      end
  end.

(** What the [try] block of the image adapter does, as a value, for the
    progress callback [pcb] and the completion callback [ccb]. *)
Definition image_try_value (w : world) (pcb ccb : option callable)
    (url output_path : string) : result unit * list action :=
  match requests_get w url with
  | Raise e => (Raise e, [HttpGet url true 10])
  | Ok resp =>
      match status_error resp with
      | Some e => (Raise e, [HttpGet url true 10])
      | None =>
          match Url.urlparse_path url with
          | Raise e => (Raise e, [HttpGet url true 10])
          | Ok p =>
              match content_length_int resp with
              | Raise e => (Raise e, [HttpGet url true 10])
              | Ok total =>
                  let path := Path.join output_path (image_filename p) in
                  match open_wb w path with
                  | Some e => (Raise e, [HttpGet url true 10; OpenWb path])
                  | None =>
                      let '(rl, la) :=
                        loop_run w pcb path total (body resp) (body_end resp) 0 in
                      let pre :=
                        HttpGet url true 10 :: OpenWb path :: la ++ [FileClose path] in
                      match file_close w path with
                      | Some e => (Raise e, pre)
                      | None =>
                          match rl with
                          | Raise e => (Raise e, pre)
                          | Ok _ =>
                              (fault_result (call_fault ccb (PStr path)),
                               pre ++ notify Completion ccb (PStr path))
                          end
                      end
                  end
              end
          end
      end
  end.

(** The actions of the whole image adapter. *)
Definition image_actions (w : world) (self : DownloadManager)
    (url output_path : string) : list action :=
  let '(r, acts) :=
    image_try_value w (progress_callback self) (completion_callback self)
      url output_path in
  acts ++ image_report self url r ++ [SetDownloading false].

(** The exception that leaves the image adapter. *)
Definition image_fault (w : world) (self : DownloadManager)
    (url output_path : string) : option exn :=
  image_report_fault self url
    (fst (image_try_value w (progress_callback self) (completion_callback self)
            url output_path)).

(** An action that touches no file. *)
Definition no_file_op (a : action) : Prop :=
  match a with
  | OpenWb _ | FileWrite _ _ | FileClose _ => False
  | _ => True
  end.

(** The world in which every body comes without its empty chunks. *)
Definition drop_empty_chunks (w : world) : world :=
  {| isdir := isdir w;
     requests_get := fun url =>
       match requests_get w url with
       | Ok resp =>
           Ok {| status_code := status_code resp; reason := reason resp;
                 resp_url := resp_url resp; content_length := content_length resp;
                 body := List.filter nonempty (body resp);
                 body_end := body_end resp |}
       | Raise e => Raise e
       end;
     youtube_dl := youtube_dl w;
     open_wb := open_wb w;
     file_write := file_write w;
     file_close := file_close w |}.

(** ** Single flight *)

(** An action that does not write the busy flag. *)
Definition keeps_flag (a : action) : Prop :=
  match a with SetDownloading _ => False | _ => True end.

(** No thread but [id] has an action left. *)
Definition only_active (id : nat) (s : system) : Prop :=
  forall id' t', id' <> id -> threads s !! id' = Some t' -> pending t' = [].

(** The manager is idle and no thread has an action left. *)
Definition idle (s : system) : Prop :=
  is_downloading (manager s) = false /\
  forall id t, threads s !! id = Some t -> pending t = [].

(** The manager is busy and one thread, and only this one, has actions
    left, the last of them the reset of the busy flag and none before it a
    write of the flag. *)
Definition busy (s : system) : Prop :=
  is_downloading (manager s) = true /\
  exists id t pre,
    threads s !! id = Some t /\
    pending t = pre ++ [SetDownloading false] /\
    Forall keeps_flag pre /\
    only_active id s.

(** The manager is busy for good: the one thread that may have actions
    left ends with an exception and does not write the busy flag. *)
Definition stuck (s : system) : Prop :=
  is_downloading (manager s) = true /\
  exists id t e,
    threads s !! id = Some t /\
    fault t = Some e /\
    Forall keeps_flag (pending t) /\
    only_active id s.

(** The state of the scheduler between two steps. *)
Definition single_flight (s : system) : Prop := idle s \/ busy s \/ stuck s.

(** The state of the scheduler between two steps when no thread fails to
    reset the busy flag. *)
Definition steady (s : system) : Prop := idle s \/ busy s.

(** A step after which every started thread resets the busy flag: a step of
    a thread, or a submission whose kind is known or whose report of the
    unknown kind returns. *)
Definition resetting (error_callback : option callable) (l : label) : Prop :=
  match l with
  | Submit _ _ download_type _ =>
      known_kind download_type = true \/
      call_fault error_callback (PStr (invalid_type_message download_type)) = None
  | Work _ => True
  end.

(** ** More of Python: values, [float] and [int] *)

Module Val.

(** [type(v).__name__]. *)
Definition type_name (v : pyval) : string :=
  match v with
  | PNone => "NoneType"
  | PBool _ => "bool"
  | PInt _ => "int"
  | PStr _ => "str"
  | PList _ => "list"
  | PDict _ => "dict"
  | PMethod _ => "method"
  end.

(** [bool(v)]. *)
Definition truth (v : pyval) : bool :=
  match v with
  | PNone => false
  | PBool b => b
  | PInt z => negb (z =? 0)
  | PStr s => negb (String.eqb s "")
  | PList l => match l with [] => false | _ => true end
  | PDict d => negb (Nat.eqb (size d) 0)
  | PMethod _ => true
  end.

(** [v == s] for a string literal [s]. *)
Definition eq_str (v : pyval) (s : string) : bool :=
  match v with PStr t => String.eqb t s | _ => false end.

Definition AttributeError : exn_class := OtherException "AttributeError".

Definition KeyError : exn_class := OtherException "KeyError".

Definition no_attribute (v : pyval) (name : string) : exn :=
  MkExn AttributeError
    ("'" +:+ type_name v +:+ "' object has no attribute '" +:+ name +:+ "'").

(** [d[key]] for a string literal [key]. *)
Definition subscript (d : pyval) (key : string) : result pyval :=
  match d with
  | PDict m =>
      match m !! key with
      | Some v => Ok v
      | None => Raise (MkExn KeyError ("'" +:+ key +:+ "'"))
      end
  | PStr _ => Raise (MkExn TypeError "string indices must be integers, not 'str'")
  | PList _ => Raise (MkExn TypeError "list indices must be integers or slices, not str")
  | _ => Raise (MkExn TypeError ("'" +:+ type_name d +:+ "' object is not subscriptable"))
  end.

(** [d.get(key, default)]. *)
Definition get (d : pyval) (key : string) (fallback : pyval) : result pyval :=
  match d with
  | PDict m => Ok (default fallback (m !! key))
  | _ => Raise (no_attribute d "get")
  end.

(** The integer a number stands for in arithmetic ([True] is 1). *)
Definition as_int (v : pyval) : option Z :=
  match v with
  | PInt z => Some z
  | PBool b => Some (if b then 1 else 0)
  | _ => None
  end.

(** [v > 0]. *)
Definition gt_zero (v : pyval) : result bool :=
  match as_int v with
  | Some z => Ok (z >? 0)
  | None =>
      Raise (MkExn TypeError
               ("'>' not supported between instances of '" +:+ type_name v
                  +:+ "' and 'int'"))
  end.

(** [a / b]. *)
Definition truediv (a b : pyval) : result spec_float :=
  match as_int a, as_int b with
  | Some x, Some y => Py.true_div x y
  | _, _ =>
      Raise (MkExn TypeError
               ("unsupported operand type(s) for /: '" +:+ type_name a +:+ "' and '"
                  +:+ type_name b +:+ "'"))
  end.

(** [v.replace(old, '')] for a one-character [old]. *)
Definition replace_char (v : pyval) (old : ascii) : result string :=
  match v with
  | PStr s => Ok (Str.filter (fun a => negb (Ascii.eqb a old)) s)
  | _ => Raise (no_attribute v "replace")
  end.

(** [s.strip()]. *)
Definition strip (s : string) : string :=
  Str.rstrip Py.is_space (Str.lstrip Py.is_space s).

Definition upper (a : ascii) : ascii :=
  let n := N_of_ascii a in
  if ((97 <=? n) && (n <=? 122))%N then ascii_of_N (n - 32) else a.

(** [s.capitalize()]: the first character in upper case, the rest in
    lower case. *)
Definition capitalize (s : string) : string :=
  match s with
  | EmptyString => EmptyString
  | String a r => String (upper a) (Str.map Url.lower r)
  end.

(** The text of a number in a string given to [float]: underscores are
    removed; one is allowed only between two digits. *)
Fixpoint drop_underscores (prev : ascii) (s : string) : option string :=
  match s with
  | EmptyString => if Ascii.eqb prev "_" then None else Some EmptyString
  | String a r =>
      if Ascii.eqb a "_" then
        if Url.is_digit prev then drop_underscores a r else None
      else if Ascii.eqb prev "_" && negb (Url.is_digit a) then None
      else option_map (String a) (drop_underscores a r)
  end.

(** A run of decimal digits: the number read after [acc], how many digits
    were read, and the rest of the string. *)
Fixpoint digits (s : string) (acc : Z) (n : Z) : Z * Z * string :=
  match s with
  | String a r =>
      match Py.digit_val a with
      | Some d => digits r (10 * acc + d) (n + 1)
      | None => (acc, n, s)
      end
  | EmptyString => (acc, n, s)
  end.

Definition sign_of (s : string) : bool * string :=
  match s with
  | String "-" r => (true, r)
  | String "+" r => (false, r)
  | _ => (false, s)
  end.

(** The exponent part [e±ddd] at the head of [s], if there is one. *)
Definition exponent (s : string) : Z * string :=
  match s with
  | String a r =>
      if Ascii.eqb a "e" || Ascii.eqb a "E" then
        let '(neg, r1) := sign_of r in
        let '(k, n, r2) := digits r1 0 0 in
        if n =? 0 then (0, s) else (if neg then - k else k, r2)
      else (0, s)
  | EmptyString => (0, s)
  end.

(** The float nearest to [m * 10^e], for [0 <= m]. *)
Definition of_decimal (neg : bool) (m e : Z) : spec_float :=
  match m with
  | Zpos p =>
      match e with
      | Zneg k =>
          match 10 ^ Zpos k with
          | Zpos d =>
              SFdiv Py.prec Py.emax (S754_finite neg p 0) (S754_finite false d 0)
          | _ => S754_nan
          end
      | _ => binary_normalize Py.prec Py.emax (if neg then - (m * 10 ^ e) else m * 10 ^ e) 0 neg
      end
  | _ => S754_zero neg
  end.

(** [float(s)] for a string: white space around, a sign, then [inf],
    [infinity] or [nan] in any case, or a decimal number with an optional
    fraction and an optional exponent. *)
Definition float_of_str (s : string) : result spec_float :=
  let bad :=
    Raise (MkExn ValueError ("could not convert string to float: " +:+ Py.repr s)) in
  match drop_underscores "000" s with
  | None => bad
  | Some t =>
      let t := Str.rstrip Py.is_c_space (Str.lstrip Py.is_c_space t) in
      let '(neg, body) := sign_of t in
      let word := Str.map Url.lower body in
      if String.eqb word "inf" || String.eqb word "infinity" then Ok (S754_infinity neg)
      else if String.eqb word "nan" then Ok S754_nan
      else
        let '(ip, n1, r1) := digits body 0 0 in
        let '(m, n2, r2) :=
          match r1 with
          | String "." r => digits r ip 0
          | _ => (ip, 0, r1)
          end in
        if n1 + n2 =? 0 then bad
        else
          let '(e, r3) := exponent r2 in
          if String.eqb r3 "" then Ok (of_decimal neg m (e - n2)) else bad
  end.

(** [int(x)] for a float: towards zero. *)
Definition int_of_float (x : spec_float) : result Z :=
  match x with
  | S754_nan => Raise (MkExn ValueError "cannot convert float NaN to integer")
  | S754_infinity _ => Raise (MkExn OverflowError "cannot convert float infinity to integer")
  | S754_zero _ => Ok 0
  | S754_finite s m e =>
      let a := match e with
               | Zneg k => Zpos m / 2 ^ Zpos k
               | _ => Zpos m * 2 ^ e
               end in
      Ok (if s then - a else a)
  end.

End Val.

(** ** The callbacks of the script at the end of downloader_core.py *)

(** [test_progress] (lines 154-158): for the status [downloading] it reads
    four keys of the dictionary, of which the dictionaries of the image
    adapter lack [_total_bytes_str]; printing succeeds. *)
Definition test_progress : callable :=
  Func "test_progress"
    (fun d =>
       match Val.subscript d "status" with
       | Raise e => Some e
       | Ok status =>
           if Val.eq_str status "downloading" then
             match Val.subscript d "_percent_str" with
             | Raise e => Some e
             | Ok _ =>
                 match Val.subscript d "_total_bytes_str" with
                 | Raise e => Some e
                 | Ok _ =>
                     match Val.subscript d "_speed_str" with
                     | Raise e => Some e
                     | Ok _ =>
                         match Val.subscript d "_eta_str" with
                         | Raise e => Some e
                         | Ok _ => None
                         end
                     end
                 end
             end
           else
             match Val.subscript d "status" with
             | Raise e => Some e
             | Ok _ => None
             end
       end).

Definition test_completion : callable := Func "test_completion" (fun _ => None).

Definition test_error : callable := Func "test_error" (fun _ => None).

(** [manager = DownloadManager(test_progress, test_completion, test_error)]
    (line 166). *)
Definition test_manager : DownloadManager :=
  __init__ (Some (Some test_progress)) (Some (Some test_completion))
    (Some (Some test_error)).

(** ** The application window (main.py)

    The part of [DownloaderApp] that drives the download manager: the
    handlers of the download button and of the quality menu, the three
    callbacks given to the manager and the three functions they schedule on
    the Tk loop.  The widgets are the values the program reads and writes in
    them; building and styling the widgets is not modelled.

    What the model takes for granted, beyond the source:
    - configuring a widget and [master.after] succeed, and so do the
      statements of the constructor that build the window;
    - [master.after] calls with the same delay run in the order they were
      made, and an exception of such a call is reported by Tk, which then
      goes on;
    - a message box returns before the next scheduled call runs;
    - the dictionaries of progress hold the values of [pyval]. *)

Module Gui.

(** The text an f-string builds: its literal parts and the values it
    formats, in order. *)
Inductive fragment :=
| Lit (s : string)
| Fmt (v : pyval).

Definition text := list fragment.

(** [str(v)], for the values whose text depends on the value only. *)
Definition str_of (v : pyval) : option string :=
  match v with
  | PStr s => Some s
  | PInt z => Some (Str.of_Z z)
  | PBool b => Some (if b then "True" else "False")
  | PNone => Some "None"
  | _ => None
  end.

Fixpoint render (t : text) : option string :=
  match t with
  | [] => Some ""
  | Lit s :: r => option_map (String.append s) (render r)
  | Fmt v :: r =>
      match str_of v, render r with
      | Some s, Some rest => Some (s +:+ rest)
      | _, _ => None
      end
  end.

(** The value of a progress bar: an integer or a float. *)
Inductive number :=
| Int (z : Z)
| Float (x : spec_float).

Record Progressbar := MkBar {
  bar_value : number;
  bar_mode : string
}.

(** The log: a [tk.Text] with its state and the pieces of text inserted,
    each with its tag. *)
Record Text := MkText {
  text_state : string;
  text_lines : list (text * string)
}.

(** What the program does outside its own widgets. *)
Inductive effect :=
| ShowError (title : string) (message : pyval)
| JsonDump (file : string) (settings : gmap string pyval)   (* open and json.dump *)
| Print (line : text).

Record DownloaderApp := MkApp {
  download_manager : DownloadManager;
  output_directory : string;
  settings_file : string;
  current_theme : string;
  download_quality_var : string;
  url_entry : string;
  download_type : string;
  download_button : string;                  (* its state *)
  progress_bar : Progressbar;
  progress_label : text;
  log_text : Text;
  _last_logged_percent : Z;
  after_calls : list (Z * string * pyval);   (* delay, method, argument *)
  effects : list effect
}.

Definition with_manager (m : DownloadManager) (app : DownloaderApp) : DownloaderApp :=
  MkApp m (output_directory app) (settings_file app) (current_theme app)
    (download_quality_var app) (url_entry app) (download_type app) (download_button app)
    (progress_bar app) (progress_label app) (log_text app) (_last_logged_percent app)
    (after_calls app) (effects app).

Definition with_url_entry (s : string) (app : DownloaderApp) : DownloaderApp :=
  MkApp (download_manager app) (output_directory app) (settings_file app)
    (current_theme app) (download_quality_var app) s (download_type app)
    (download_button app) (progress_bar app) (progress_label app) (log_text app)
    (_last_logged_percent app) (after_calls app) (effects app).

Definition with_download_button (s : string) (app : DownloaderApp) : DownloaderApp :=
  MkApp (download_manager app) (output_directory app) (settings_file app)
    (current_theme app) (download_quality_var app) (url_entry app) (download_type app)
    s (progress_bar app) (progress_label app) (log_text app)
    (_last_logged_percent app) (after_calls app) (effects app).

Definition with_progress_bar (b : Progressbar) (app : DownloaderApp) : DownloaderApp :=
  MkApp (download_manager app) (output_directory app) (settings_file app)
    (current_theme app) (download_quality_var app) (url_entry app) (download_type app)
    (download_button app) b (progress_label app) (log_text app)
    (_last_logged_percent app) (after_calls app) (effects app).

Definition with_progress_label (t : text) (app : DownloaderApp) : DownloaderApp :=
  MkApp (download_manager app) (output_directory app) (settings_file app)
    (current_theme app) (download_quality_var app) (url_entry app) (download_type app)
    (download_button app) (progress_bar app) t (log_text app)
    (_last_logged_percent app) (after_calls app) (effects app).

Definition with_log_text (l : Text) (app : DownloaderApp) : DownloaderApp :=
  MkApp (download_manager app) (output_directory app) (settings_file app)
    (current_theme app) (download_quality_var app) (url_entry app) (download_type app)
    (download_button app) (progress_bar app) (progress_label app) l
    (_last_logged_percent app) (after_calls app) (effects app).

Definition with_last_logged_percent (z : Z) (app : DownloaderApp) : DownloaderApp :=
  MkApp (download_manager app) (output_directory app) (settings_file app)
    (current_theme app) (download_quality_var app) (url_entry app) (download_type app)
    (download_button app) (progress_bar app) (progress_label app) (log_text app)
    z (after_calls app) (effects app).

Definition with_after_calls (q : list (Z * string * pyval)) (app : DownloaderApp)
  : DownloaderApp :=
  MkApp (download_manager app) (output_directory app) (settings_file app)
    (current_theme app) (download_quality_var app) (url_entry app) (download_type app)
    (download_button app) (progress_bar app) (progress_label app) (log_text app)
    (_last_logged_percent app) q (effects app).

Definition with_effects (l : list effect) (app : DownloaderApp) : DownloaderApp :=
  MkApp (download_manager app) (output_directory app) (settings_file app)
    (current_theme app) (download_quality_var app) (url_entry app) (download_type app)
    (download_button app) (progress_bar app) (progress_label app) (log_text app)
    (_last_logged_percent app) (after_calls app) l.

(** Methods of the application: a result and the application after the
    call; what was done before an exception stays done. *)
Definition G (A : Type) : Type := DownloaderApp -> result A * DownloaderApp.

Definition ret {A} (a : A) : G A := fun app => (Ok a, app).

Definition bind {A B} (c : G A) (k : A -> G B) : G B :=
  fun app =>
    match c app with
    | (Ok a, app1) => k a app1
    | (Raise e, app1) => (Raise e, app1)
    end.

Notation "x <~ c ;; k" := (bind c (fun x => k))
  (at level 100, c at next level, right associativity).

Notation "c ;;~ k" := (bind c (fun _ => k))
  (at level 100, right associativity).

Definition lift {A} (r : result A) : G A := fun app => (r, app).

Definition get_app : G DownloaderApp := fun app => (Ok app, app).

Definition modify (f : DownloaderApp -> DownloaderApp) : G unit :=
  fun app => (Ok tt, f app).

(** [try: body / except ValueError: pass]. *)
Definition except_ValueError_pass (body : G unit) : G unit :=
  fun app =>
    match body app with
    | (Raise e, app1) =>
        match exn_cls e with
        | ValueError => (Ok tt, app1)
        | _ => (Raise e, app1)
        end
    | done => done
    end.

(** [widget.config(...)] of the widgets the handlers touch. *)
Definition progress_bar_config (value : option number) (mode : option string)
    (app : DownloaderApp) : DownloaderApp :=
  with_progress_bar
    {| bar_value := default (bar_value (progress_bar app)) value;
       bar_mode := default (bar_mode (progress_bar app)) mode |} app.

Definition log_text_config (state : string) (app : DownloaderApp) : DownloaderApp :=
  with_log_text {| text_state := state; text_lines := text_lines (log_text app) |} app.

(** [self.log_text.insert(tk.END, chars, tag)]: a disabled text widget takes
    no text. *)
Definition log_text_insert (chars : text) (tag : string) (app : DownloaderApp)
  : DownloaderApp :=
  if String.eqb (text_state (log_text app)) "disabled" then app
  else
    with_log_text
      {| text_state := text_state (log_text app);
         text_lines := text_lines (log_text app) ++ [(chars, tag)] |} app.

(** [log_message(message, tag)]; the scrolling to the end is not part of
    the state. *)
Definition log_message (message : text) (tag : string) (app : DownloaderApp)
  : DownloaderApp :=
  let app := log_text_config "normal" app in
  let app := log_text_insert (message ++ [Lit (String "010" "")]) tag app in
  log_text_config "disabled" app.

(** [self.master.after(ms, method, arg)]. *)
Definition master_after (ms : Z) (method : string) (arg : pyval) (app : DownloaderApp)
  : DownloaderApp :=
  with_after_calls (after_calls app ++ [(ms, method, arg)]) app.

Definition update_progress (d : pyval) (app : DownloaderApp) : DownloaderApp :=
  master_after 10 "_update_progress_gui" d app.

Definition on_download_complete (message : pyval) (app : DownloaderApp) : DownloaderApp :=
  master_after 10 "_on_download_complete_gui" message app.

Definition on_download_error (message : pyval) (app : DownloaderApp) : DownloaderApp :=
  master_after 10 "_on_download_error_gui" message app.

Definition _update_progress_gui (d : pyval) : G unit :=
  status <~ lift (Val.subscript d "status") ;;
  if Val.eq_str status "downloading" then
    known <~ lift (Val.get d "total_bytes" PNone) ;;
    total_bytes <~ (if Val.truth known then ret known
                    else lift (Val.get d "total_bytes_estimate" (PInt 0))) ;;
    downloaded_bytes <~ lift (Val.get d "downloaded_bytes" (PInt 0)) ;;
    percent_str <~ lift (Val.get d "_percent_str" (PStr "N/A")) ;;
    total_bytes_str <~ lift (Val.get d "_total_bytes_str" (PStr "N/A")) ;;
    speed_str <~ lift (Val.get d "_speed_str" (PStr "N/A")) ;;
    eta_str <~ lift (Val.get d "_eta_str" (PStr "N/A")) ;;
    downloaded_bytes_str <~ lift (Val.get d "_downloaded_bytes_str" (PStr "N/A")) ;;
    positive <~ lift (Val.gt_zero total_bytes) ;;
    (if positive : bool then
       ratio <~ lift (Val.truediv downloaded_bytes total_bytes) ;;
       let percent := Py.float_mul_int ratio 100 in
       modify (progress_bar_config (Some (Float percent)) (Some "determinate")) ;;~
       modify (with_progress_label
                 [Lit "Downloading: "; Fmt percent_str; Lit " of "; Fmt total_bytes_str;
                  Lit " at "; Fmt speed_str; Lit " ETA "; Fmt eta_str])
     else
       modify (progress_bar_config None (Some "indeterminate")) ;;~
       modify (with_progress_label
                 [Lit "Downloading: "; Fmt downloaded_bytes_str; Lit " at ";
                  Fmt speed_str; Lit " ETA "; Fmt eta_str])) ;;~
    except_ValueError_pass
      (stripped <~ lift (Val.replace_char percent_str "%") ;;
       numeric_percent <~ lift (Val.float_of_str (Url.before "." stripped)) ;;
       current_percent <~ lift (Val.int_of_float numeric_percent) ;;
       self <~ get_app ;;
       if (current_percent mod 10 =? 0)
          && negb (current_percent =? _last_logged_percent self)
       then
         modify (log_message [Lit "Progress: "; Fmt percent_str] "progress") ;;~
         modify (with_last_logged_percent current_percent)
       else ret tt)
  else if Val.eq_str status "finished" then
    modify (progress_bar_config (Some (Int 100)) (Some "determinate")) ;;~
    modify (with_progress_label [Lit "Download complete, processing..."]) ;;~
    modify (log_message [Lit "Download finished. Post-processing..."] "info")
  else if Val.eq_str status "error" then
    modify (progress_bar_config (Some (Int 0)) (Some "determinate")) ;;~
    modify (with_progress_label [Lit "Download failed."]) ;;~
    modify (log_message [Lit "Download failed."] "error")
  else ret tt.

Definition _on_download_complete_gui (message : pyval) : G unit :=
  modify (progress_bar_config (Some (Int 100)) (Some "determinate")) ;;~
  modify (with_progress_label [Lit "Download completed!"]) ;;~
  modify (with_download_button "normal") ;;~
  modify (log_message [Lit "Download complete: "; Fmt message] "success") ;;~
  modify (with_url_entry "") ;;~
  modify (with_last_logged_percent (-1)).

Definition _on_download_error_gui (message : pyval) : G unit :=
  modify (progress_bar_config (Some (Int 0)) (Some "determinate")) ;;~
  modify (with_progress_label [Lit "Download failed!"]) ;;~
  modify (with_download_button "normal") ;;~
  modify (log_message [Lit "Error: "; Fmt message] "error") ;;~
  modify (fun app => with_effects (effects app ++ [ShowError "Download Error" message]) app) ;;~
  modify (with_last_logged_percent (-1)).

(** A call of one of the manager's callbacks: the callables the
    application registers are its own three methods. *)
Definition call (f : callable) (arg : pyval) (app : DownloaderApp) : DownloaderApp :=
  match f with
  | Func "update_progress" _ => update_progress arg app
  | Func "on_download_complete" _ => on_download_complete arg app
  | Func "on_download_error" _ => on_download_error arg app
  | Func _ _ => app
  end.

(** What an action of the manager does to the application. *)
Definition in_app (a : action) (app : DownloaderApp) : DownloaderApp :=
  match a with
  | Callback _ f arg => call f arg app
  | SetDownloading b => with_manager (with_downloading b (download_manager app)) app
  | _ => app
  end.

(** A call of a method of the manager on the main thread: the result, the
    application after the actions of the call, and these actions. *)
Definition call_manager {A} (c : M A) (app : DownloaderApp)
  : result A * DownloaderApp * list action :=
  let '(r, _, acts) := c (download_manager app) in
  (r, fold_left (fun app a => in_app a app) acts app, acts).

Definition start_download (w : world) (app : DownloaderApp)
  : result unit * DownloaderApp * list action :=
  let url := Val.strip (url_entry app) in
  let download_type := download_type app in
  if String.eqb url "" then
    (Ok tt, log_message [Lit "Please enter a URL to download."] "error" app, [])
  else if is_downloading (download_manager app) then
    (Ok tt,
     log_message [Lit "A download is already in progress. Please wait."] "error" app,
     [])
  else
    let app := log_message [Lit ("Starting download for: " +:+ url)] "info" app in
    let app := log_message [Lit ("Type: " +:+ Val.capitalize download_type)] "info" app in
    let app := log_message [Lit ("Saving to: " +:+ output_directory app)] "info" app in
    let app := progress_bar_config (Some (Int 0)) (Some "indeterminate") app in
    let app := with_progress_label [Lit "Starting download..."] app in
    let app := with_download_button "disabled" app in
    call_manager (download_content w url download_type (output_directory app)) app.

(** The names a [DownloadManager] object answers to, besides those every
    object has. *)
Definition manager_attributes : list string :=
  ["progress_callback"; "completion_callback"; "error_callback"; "is_downloading";
   "__init__"; "_yt_dlp_hook"; "_download_video_audio"; "_download_image";
   "download_content"; "_run_download_task"].

(** [self.download_manager.<name>]. *)
Definition manager_attribute (name : string) : G string :=
  if existsb (String.eqb name) manager_attributes then ret name
  else
    lift (Raise (MkExn Val.AttributeError
                   ("'DownloadManager' object has no attribute '" +:+ name +:+ "'"))).

(** [save_settings]; [disk] tells whether writing the file fails. *)
Definition save_settings (disk : string -> gmap string pyval -> option exn)
    (app : DownloaderApp) : DownloaderApp :=
  let settings : gmap string pyval :=
    {[ "theme" := PStr (current_theme app);
       "download_quality" := PStr (download_quality_var app);
       "output_directory" := PStr (output_directory app) ]} in
  let app := with_effects (effects app ++ [JsonDump (settings_file app) settings]) app in
  match disk (settings_file app) settings with
  | Some e =>
      with_effects (effects app ++ [Print [Lit ("Error saving settings: " +:+ exn_str e)]])
        app
  | None => app
  end.

Definition set_download_quality_option (disk : string -> gmap string pyval -> option exn)
  : G unit :=
  self <~ get_app ;;
  let quality := download_quality_var self in
  method <~ manager_attribute "set_download_quality" ;;
  modify (save_settings disk) ;;~
  modify (log_message [Lit ("Download quality set to: " +:+ Val.capitalize quality)] "info").

(** The Tk loop runs a scheduled call. *)
Definition run_after (method : string) (arg : pyval) : G unit :=
  if String.eqb method "_update_progress_gui" then _update_progress_gui arg
  else if String.eqb method "_on_download_complete_gui" then _on_download_complete_gui arg
  else if String.eqb method "_on_download_error_gui" then _on_download_error_gui arg
  else ret tt.

(** The program as the user and the system drive it: the application, the
    started threads by number, the number of clicks, and the exceptions Tk
    has reported. *)
Record desktop := MkDesktop {
  app : DownloaderApp;
  workers : gmap nat thread;
  clicks : nat;
  reported : list exn
}.

Inductive event :=
| Edit (url : string)              (* the user changes the URL field *)
| Select (download_type : string)  (* the user picks a kind of download *)
| Click (w : world)                (* the user clicks the download button *)
| Enter (w : world)                (* the user presses Return in the URL field *)
| Step (tid : nat)                 (* a thread performs its next action *)
| Tick.                            (* the Tk loop runs the next scheduled call *)

Definition failure {A} (r : result A) : list exn :=
  match r with Ok _ => [] | Raise e => [e] end.

(** [start_download] as a command of the Tk loop. *)
Definition command_start_download (w : world) (s : desktop) : desktop :=
  let '(r, app1, acts) := start_download w (app s) in
  {| app := app1;
     workers := spawn w (download_manager app1) (clicks s) acts (workers s);
     clicks := S (clicks s);
     reported := reported s ++ failure r |}.

(** One step: the button runs its command unless it is disabled; the
    Return key of the URL field runs the same command whatever the state of
    the button. *)
Definition desktop_step (e : event) (s : desktop) : desktop :=
  match e with
  | Edit url =>
      {| app := with_url_entry url (app s); workers := workers s;
         clicks := clicks s; reported := reported s |}
  | Select download_type =>
      {| app :=
           MkApp (download_manager (app s)) (output_directory (app s))
             (settings_file (app s)) (current_theme (app s))
             (download_quality_var (app s)) (url_entry (app s)) download_type
             (download_button (app s)) (progress_bar (app s)) (progress_label (app s))
             (log_text (app s)) (_last_logged_percent (app s)) (after_calls (app s))
             (effects (app s));
         workers := workers s; clicks := clicks s; reported := reported s |}
  | Click w =>
      if String.eqb (download_button (app s)) "disabled" then s
      else command_start_download w s
  | Enter w => command_start_download w s
  | Step tid =>
      match workers s !! tid with
      | Some {| pending := a :: rest; fault := f |} =>
          {| app := in_app a (app s);
             workers := <[tid := {| pending := rest; fault := f |}]> (workers s);
             clicks := clicks s;
             reported := reported s |}
      | _ => s
      end
  | Tick =>
      match after_calls (app s) with
      | (_, method, arg) :: rest =>
          let '(r, app1) := run_after method arg (with_after_calls rest (app s)) in
          {| app := app1; workers := workers s; clicks := clicks s;
             reported := reported s ++ failure r |}
      | [] => s
      end
  end.

Definition run_desktop (es : list event) (s : desktop) : desktop :=
  fold_left (fun s e => desktop_step e s) es s.

(** The application as the statements of the constructor before its last
    one build it (main.py, lines 11 to 74): the manager with the three
    callbacks of the application, the settings as [load_settings] left them,
    the widgets as [create_widgets] makes them. *)
Definition fresh (output_directory theme quality : string) : DownloaderApp :=
  {| download_manager := app_manager;
     output_directory := output_directory;
     settings_file := "downloader_settings.json";
     current_theme := theme;
     download_quality_var := quality;
     url_entry := "";
     download_type := "video";
     download_button := "normal";
     progress_bar := {| bar_value := Int 0; bar_mode := "determinate" |};
     progress_label := [Lit "Waiting for download..."];
     log_text := {| text_state := "disabled"; text_lines := [] |};
     _last_logged_percent := -1;
     after_calls := [];
     effects := [] |}.

(** [DownloaderApp.__init__], from the loaded settings on: once the
    application is built, its last statement (line 75) asks the manager for
    [set_download_quality]. *)
Definition __init__ (output_directory theme quality : string)
  : result unit * DownloaderApp :=
  (method <~ manager_attribute "set_download_quality" ;; ret tt)
    (fresh output_directory theme quality).

(** A desktop around an application: no thread yet, no click. *)
Definition desktop_of (a : DownloaderApp) : desktop :=
  {| app := a; workers := ∅; clicks := 0; reported := [] |}.


(** A scheduled call that re-enables the download button, and a callback
    call of a thread that schedules one. *)
Definition outcome_call (c : Z * string * pyval) : Prop :=
  c.1.2 = "_on_download_complete_gui" \/ c.1.2 = "_on_download_error_gui".

Definition outcome_action (a : action) : Prop :=
  match a with
  | Callback _ f _ => f = on_complete \/ f = on_error
  | _ => False
  end.

(** An outcome is still to come: it is scheduled, or a thread has yet to
    report it. *)
Definition outcome_to_come (s : desktop) : Prop :=
  Exists outcome_call (after_calls (app s)) \/
  exists tid t, workers s !! tid = Some t /\ Exists outcome_action (pending t).

(** Nothing is left to do: no scheduled call, no action of a thread. *)
Definition at_rest (s : desktop) : Prop :=
  after_calls (app s) = [] /\
  forall tid t, workers s !! tid = Some t -> pending t = [].

End Gui.

(** ** What the handlers of the window keep *)

(** Two states of the application with the same manager, button state,
    scheduled calls and URL field. *)
Definition same_controls (a b : Gui.DownloaderApp) : Prop :=
  Gui.download_manager b = Gui.download_manager a /\
  Gui.download_button b = Gui.download_button a /\
  Gui.after_calls b = Gui.after_calls a /\
  Gui.url_entry b = Gui.url_entry a.

Definition keeps {A} (c : Gui.G A) : Prop :=
  forall app : Gui.DownloaderApp, same_controls app (c app).2.

(** The state of the window between two steps: the manager carries the
    outcome callbacks of the application, the download button is normal or
    disabled, and when it is disabled an outcome is still to come. *)
Definition window_ok (s : Gui.desktop) : Prop :=
  completion_callback (Gui.download_manager (Gui.app s)) = Some on_complete /\
  error_callback (Gui.download_manager (Gui.app s)) = Some on_error /\
  (Gui.download_button (Gui.app s) = "normal" \/
   Gui.download_button (Gui.app s) = "disabled") /\
  (Gui.download_button (Gui.app s) = "disabled" -> Gui.outcome_to_come s).

(** ** The window over the scheduler *)

(** The manager and the threads of the window, as a state of the
    scheduler. *)
Definition manager_and_threads (s : Gui.desktop) : system :=
  {| manager := Gui.download_manager (Gui.app s);
     threads := Gui.workers s;
     history := [];
     submitted := Gui.clicks s |}.

(** * Properties *)

(** ** The library functions on examples *)

Example format_1f_half : Py.format_1f (Py.float_mul_int (Py.float_of_int 1) 1) = "1.0".
Proof. reflexivity. Qed.

Example int_of_str_ok : Py.int_of_str " 1_000 " = Ok 1000.
Proof. reflexivity. Qed.

Example int_of_str_bad :
  Py.int_of_str "12a"
  = Raise (MkExn ValueError "invalid literal for int() with base 10: '12a'").
Proof. reflexivity. Qed.

(** A string with a quote is shown between double quotes, as [repr]
    prints it. *)
Example int_of_str_quote :
  Py.int_of_str "12'a"
  = Raise (MkExn ValueError
             ("invalid literal for int() with base 10: "
                ++ String Py.double_quote ("12'a" ++ String Py.double_quote ""))).
Proof. reflexivity. Qed.

(** The separators 28 to 31 are white space for [str.strip], not for
    [int] and [float]. *)
Example int_of_str_separator :
  Py.int_of_str (String "031" "12")
  = Raise (MkExn ValueError "invalid literal for int() with base 10: '\x1f12'").
Proof. reflexivity. Qed.

Example float_of_str_separator :
  Val.float_of_str (String "031" "50")
  = Raise (MkExn ValueError "could not convert string to float: '\x1f50'").
Proof. reflexivity. Qed.

Example urlparse_path_bracketed :
  Url.urlparse_path "http://[x]/y.png"
  = Raise (MkExn ValueError "'x' does not appear to be an IPv4 or IPv6 address").
Proof. reflexivity. Qed.

Example urlparse_path_ipv6 : Url.urlparse_path "http://[::1]:80/y.png" = Ok "/y.png".
Proof. reflexivity. Qed.

Example percent_third :
  option_map Py.format_1f
    (match Py.true_div 1 3 with Ok q => Some (Py.float_mul_int q 100) | Raise _ => None end)
  = Some "33.3".
Proof. reflexivity. Qed.

Example urlparse_path_file : Url.urlparse_path "https://example.com/x.jpg" = Ok "/x.jpg".
Proof. reflexivity. Qed.

Example urlparse_path_bare : Url.urlparse_path "https://example.com" = Ok "".
Proof. reflexivity. Qed.

Example urlparse_path_query :
  Url.urlparse_path "HTTP://h:80/a/b.png;v=1?x=1#frag" = Ok "/a/b.png".
Proof. reflexivity. Qed.

Example basename_nested : Path.basename "/a/b.png" = "b.png".
Proof. reflexivity. Qed.

Example basename_trailing_slash : Path.basename "/a/" = "".
Proof. reflexivity. Qed.

Example join_plain : Path.join "/tmp/out" "x.jpg" = "/tmp/out/x.jpg".
Proof. reflexivity. Qed.

(** ** How single computations run *)

Lemma guarded_call_run (r : role) (cb : option callable) (arg : pyval)
    (self : DownloadManager) :
  when (truthy cb) (py_call r cb arg) self
  = (fault_result (call_fault cb arg), self, notify r cb arg).
Proof.
  destruct cb as [[name a]|]; [|reflexivity].
  cbn. destruct (a arg); reflexivity.
Qed.

Lemma yt_dlp_hook_run (d : gmap string pyval) (self : DownloadManager) :
  _yt_dlp_hook d self
  = (fault_result (call_fault (progress_callback self) (PDict d)), self,
     notify Progress (progress_callback self) (PDict d)).
Proof.
  unfold _yt_dlp_hook, bind, get_self.
  rewrite guarded_call_run. reflexivity.
Qed.

Lemma make_ydl_opts_hooks (output_path download_type : string) :
  make_ydl_opts output_path download_type !! "progress_hooks"
  = Some (PList [PMethod "_yt_dlp_hook"]).
Proof.
  unfold make_ydl_opts, dict_update, ydl_opts_audio, ydl_opts_default.
  destruct (String.eqb download_type "audio"); reflexivity.
Qed.

Lemma call_progress_hooks_run (opts d : gmap string pyval) (self : DownloadManager) :
  opts !! "progress_hooks" = Some (PList [PMethod "_yt_dlp_hook"]) ->
  call_progress_hooks opts d self
  = (fault_result (call_fault (progress_callback self) (PDict d)), self,
     notify Progress (progress_callback self) (PDict d)).
Proof.
  intros Hh. unfold call_progress_hooks. rewrite Hh. cbn [for_each].
  unfold bind. rewrite yt_dlp_hook_run.
  destruct (call_fault (progress_callback self) (PDict d)); cbn;
    rewrite ?app_nil_r; reflexivity.
Qed.

Lemma notify_progress_hook_events self d ds :
  notify Progress (progress_callback self) (PDict d) ++ hook_events self ds
  = hook_events self (d :: ds).
Proof. unfold notify, hook_events. destruct (progress_callback self); reflexivity. Qed.

Lemma run_engine_run (opts : gmap string pyval) (g : engine) (self : DownloadManager) :
  opts !! "progress_hooks" = Some (PList [PMethod "_yt_dlp_hook"]) ->
  run_engine (call_progress_hooks opts) g self
  = (fault_result (engine_exn (progress_callback self) g), self,
     hook_events self (hook_calls (progress_callback self) g)).
Proof.
  intros Hh. induction g as [e | d next IH]; cbn [run_engine engine_exn hook_calls].
  - unfold hook_events. destruct e, (progress_callback self); reflexivity.
  - unfold bind, attempt. rewrite call_progress_hooks_run by exact Hh.
    destruct (call_fault (progress_callback self) (PDict d)) as [e|]; cbn [fault_result];
      rewrite IH, notify_progress_hook_events; reflexivity.
Qed.

Lemma ydl_download_run (w : world) (opts : gmap string pyval) (url : string)
    (self : DownloadManager) :
  opts !! "progress_hooks" = Some (PList [PMethod "_yt_dlp_hook"]) ->
  ydl_download w opts url self
  = (fault_result (engine_exn (progress_callback self) (youtube_dl w opts url)),
     self,
     YoutubeDL opts [url]
       :: hook_events self (hook_calls (progress_callback self) (youtube_dl w opts url))).
Proof.
  intros Hh. unfold ydl_download, bind, emit.
  rewrite run_engine_run by exact Hh.
  destruct (engine_exn _ _); reflexivity.
Qed.

Lemma is_Exception_all (e : exn) : is_Exception e = true.
Proof. destruct e as [[] ?]; reflexivity. Qed.

Lemma download_video_audio_run (w : world) (url output_path download_type : string)
    (self : DownloadManager) :
  let opts := make_ydl_opts output_path download_type in
  let run := youtube_dl w opts url in
  _download_video_audio w url output_path download_type self
  = (fault_result (video_fault self url output_path run), with_downloading false self,
     (YoutubeDL opts [url] :: hook_events self (hook_calls (progress_callback self) run))
       ++ video_outcome self url output_path run ++ [SetDownloading false]).
Proof.
  intros opts run.
  unfold _download_video_audio, try_finally, try_except, bind at 1.
  fold opts.
  rewrite (ydl_download_run w opts url self (make_ydl_opts_hooks _ _)).
  fold run. unfold video_fault, video_outcome, video_try_fault.
  fold (completion_message url output_path).
  destruct (engine_exn (progress_callback self) run) as [e|]; cbn [fault_result].
  - cbn [dispatch]. rewrite is_Exception_all.
    unfold bind, get_self. rewrite guarded_call_run.
    fold (video_error_message url e).
    destruct (call_fault (error_callback self) _); cbn;
      rewrite <- ?app_assoc; reflexivity.
  - unfold bind, get_self. rewrite guarded_call_run.
    destruct (call_fault (completion_callback self) _) as [e|]; cbn [fault_result].
    + cbn [dispatch]. rewrite is_Exception_all.
      unfold bind, get_self. rewrite guarded_call_run.
      fold (video_error_message url e).
      destruct (call_fault (error_callback self) _); cbn;
        rewrite <- ?app_assoc; reflexivity.
    + cbn. rewrite <- ?app_assoc. rewrite ?app_nil_r. reflexivity.
Qed.

(** ** The image loop *)

Lemma image_chunk_run (w : world) (path : string) (total : Z)
    (chunk : list Byte.byte) (dl : Z) (self : DownloadManager) :
  image_chunk w path total chunk dl self
  = (fst (chunk_turn w (progress_callback self) path total chunk dl), self,
     snd (chunk_turn w (progress_callback self) path total chunk dl)).
Proof.
  unfold image_chunk, chunk_turn.
  destruct chunk as [|b chunk]; [reflexivity|].
  cbn [nonempty]. unfold f_write, bind, emit, raise_if, get_self.
  destruct (file_write w path dl (b :: chunk)) as [e|]; [reflexivity|].
  cbn. destruct (progress_callback self) as [[name a]|]; [|reflexivity].
  cbn. unfold bind, lift.
  destruct (percent_str (dl + len (b :: chunk)) total) as [pct|e]; [|reflexivity].
  cbn. destruct (a _); reflexivity.
Qed.

Lemma chunk_turn_ok (w : world) (cb : option callable) (path : string) (total : Z)
    (chunk : list Byte.byte) (dl : Z) :
  let '(r, acts) := chunk_turn w cb path total chunk dl in
  Forall (loop_action path) acts /\
  progress_ok cb total dl acts /\
  (chunks_written acts = [] \/ chunks_written acts = [chunk]) /\
  (nonempty chunk = true -> chunks_written acts = [chunk]) /\
  (nonempty chunk = false -> acts = []) /\
  (forall z, r = Ok z -> z = dl + written acts).
Proof.
  unfold chunk_turn. destruct chunk as [|b chunk]; cbn [nonempty].
  - cbn. repeat split; intros; try discriminate; auto.
    match goal with H : Ok _ = Ok _ |- _ => injection H as <- end. lia.
  - assert (Hne : b :: chunk <> []) by discriminate.
    destruct (file_write w path dl (b :: chunk)) as [e|];
      [|destruct cb as [f|];
        [destruct (percent_str (dl + len (b :: chunk)) total) as [pct|e] eqn:Hp;
         [cbv zeta; destruct (answer f _)|]|]];
      cbn [chunks_written written progress_ok];
      repeat split; intros; try discriminate; auto;
      try (repeat constructor; auto; fail);
      try (eexists; split; [eassumption|reflexivity]);
      try (match goal with H : Ok _ = Ok _ |- _ => injection H as <- end; lia).
Qed.

Lemma written_app (a b : list action) : written (a ++ b) = written a + written b.
Proof.
  induction a as [|x a IH]; cbn; [lia|].
  destruct x; cbn; rewrite ?IH; lia.
Qed.

Lemma chunks_written_app (a b : list action) :
  chunks_written (a ++ b) = chunks_written a ++ chunks_written b.
Proof.
  induction a as [|x a IH]; cbn; [reflexivity|].
  destruct x; cbn; rewrite ?IH; reflexivity.
Qed.

Lemma progress_ok_app (cb : option callable) (total : Z) (a b : list action) :
  forall dl,
    progress_ok cb total dl (a ++ b)
    <-> progress_ok cb total dl a /\ progress_ok cb total (dl + written a) b.
Proof.
  induction a as [|x a IH]; intros dl; cbn [app written progress_ok].
  - replace (dl + 0) with dl by lia. tauto.
  - destruct x as [[] f arg| | | | | | |]; cbn [progress_ok];
      rewrite ?IH; rewrite ?Z.add_assoc; tauto.
Qed.

Lemma progress_ok_quiet (cb : option callable) (total dl : Z) (acts : list action) :
  Forall quiet acts -> progress_ok cb total dl acts /\ written acts = 0.
Proof.
  induction 1 as [|x acts Hx _ IH]; cbn; [auto|].
  destruct x as [[] f arg| | | | | | |]; cbn in *; tauto.
Qed.

Lemma image_loop_run (w : world) (path : string) (total : Z) (stop : option exn)
    (chunks : list (list Byte.byte)) :
  forall (dl : Z) (self : DownloadManager),
  exists r acts,
    for_each chunks stop (image_chunk w path total) dl self = (r, self, acts) /\
    Forall (loop_action path) acts /\
    progress_ok (progress_callback self) total dl acts /\
    (exists rest, List.filter nonempty chunks = chunks_written acts ++ rest) /\
    (forall z, r = Ok z ->
       z = dl + written acts /\
       chunks_written acts = List.filter nonempty chunks /\
       stop = None).
Proof.
  induction chunks as [|c chunks IH]; intros dl self; cbn [for_each List.filter].
  - destruct stop as [e|]; eexists _, []; (split; [reflexivity|]);
      cbn; repeat split; intros; try discriminate; eauto.
    match goal with H : Ok _ = Ok _ |- _ => injection H as <- end. lia.
  - unfold bind. rewrite image_chunk_run.
    pose proof (chunk_turn_ok w (progress_callback self) path total c dl) as Ht.
    destruct (chunk_turn w (progress_callback self) path total c dl) as [r1 acts1].
    destruct Ht as (Hl & Hp & Hw & Hne & He & Hz). cbn [fst snd].
    destruct r1 as [z1|e1].
    + specialize (Hz z1 eq_refl). subst z1.
      destruct (IH (dl + written acts1) self) as (r & acts2 & Hrun & Hl2 & Hp2 & Hpre & Hfin).
      rewrite Hrun. exists r, (acts1 ++ acts2). split; [reflexivity|].
      split; [apply Forall_app; auto|].
      split; [apply progress_ok_app; auto|].
      rewrite chunks_written_app, written_app.
      destruct (nonempty c) eqn:Hc.
      * rewrite (Hne eq_refl). split.
        -- destruct Hpre as [rest ->]. exists rest. reflexivity.
        -- intros z Hr. destruct (Hfin z Hr) as (-> & -> & ->).
           repeat split; auto. lia.
      * rewrite (He eq_refl) in *. cbn. split; [exact Hpre|].
        intros z Hr. destruct (Hfin z Hr) as (-> & -> & ->).
        repeat split; auto. cbn. lia.
    + exists (Raise e1), acts1. split; [reflexivity|].
      split; [auto|]. split; [auto|]. split; [|discriminate].
      destruct (nonempty c).
      * rewrite (Hne eq_refl). cbn. eauto.
      * rewrite (He eq_refl). cbn. eauto.
Qed.

(** ** The image adapter *)

Lemma with_open_run {A} (w : world) (path : string) (body : M A)
    (self : DownloadManager) (r : result A) (acts : list action) :
  body self = (r, self, acts) ->
  with_open w path body self
  = (match open_wb w path with
     | Some e => Raise e
     | None => match file_close w path with Some e => Raise e | None => r end
     end,
     self,
     OpenWb path ::
       match open_wb w path with
       | Some _ => []
       | None => acts ++ [FileClose path]
       end).
Proof.
  intros Hb. unfold with_open, bind, emit, raise_if, try_finally.
  destruct (open_wb w path) as [e|]; [reflexivity|].
  cbn. rewrite Hb.
  destruct (file_close w path) as [e|]; reflexivity.
Qed.

Lemma raise_for_status_run (resp : response) (self : DownloadManager) :
  exists o : option exn,
    raise_for_status resp self
    = (match o with Some e => Raise e | None => Ok tt end, self, []) /\
    (forall e, o = Some e -> exn_cls e = HTTPError).
Proof.
  unfold raise_for_status.
  destruct (_ && _).
  - eexists (Some _). split; [reflexivity|]. intros e [= <-]. reflexivity.
  - destruct (_ && _).
    + eexists (Some _). split; [reflexivity|]. intros e [= <-]. reflexivity.
    + exists None. split; [reflexivity|]. discriminate.
Qed.

Lemma loop_action_worker_io path a : loop_action path a -> worker_io a.
Proof. destruct a as [[] ? ?| | | | | | |]; cbn; tauto. Qed.

Lemma loop_action_on_file path a : loop_action path a -> on_file path a.
Proof. destruct a as [[] ? ?| | | | | | |]; cbn; tauto. Qed.

Lemma image_pre_facts (cb : option callable) (url path : string) (total : Z)
    (la : list action) :
  Forall (loop_action path) la ->
  progress_ok cb total 0 la ->
  let pre := HttpGet url true 10 :: OpenWb path :: la ++ [FileClose path] in
  Forall worker_io pre /\
  progress_ok cb total 0 pre /\
  chunks_written pre = chunks_written la /\
  Forall (on_file path) pre.
Proof.
  intros Hla Hpo pre. subst pre. repeat split.
  - constructor; [exact I|]. constructor; [exact I|].
    apply Forall_app. split; [|repeat constructor].
    eapply Forall_impl; [exact Hla|]. apply loop_action_worker_io.
  - cbn [progress_ok]. apply progress_ok_app. split; [exact Hpo|exact I].
  - cbn [chunks_written]. rewrite chunks_written_app. cbn. apply app_nil_r.
  - constructor; [exact I|]. constructor; [reflexivity|].
    apply Forall_app. split; [|repeat constructor].
    eapply Forall_impl; [exact Hla|]. apply loop_action_on_file.
Qed.

Lemma image_try_run (w : world) (url output_path : string) (self : DownloadManager) :
  exists r pre tail,
    image_try w url output_path self = (r, self, pre ++ tail) /\
    image_facts w url output_path self r pre tail.
Proof.
  assert (Hearly : forall e : exn,
    image_facts w url output_path self (Raise e) [HttpGet url true 10] []).
  { intros e. split; [repeat constructor|].
    split; [left; split; [reflexivity|discriminate]|].
    split; [intros; repeat constructor|].
    left. split; [repeat constructor|discriminate]. }
  unfold image_try.
  unfold bind at 1. unfold requests_get_call, bind at 1, emit, lift.
  destruct (requests_get w url) as [resp|e] eqn:Hget; cbn [ret raise app].
  2:{ exists (Raise e), [HttpGet url true 10], []. split; [reflexivity|apply Hearly]. }
  unfold bind at 1.
  destruct (raise_for_status_run resp self) as (o & -> & _).
  destruct o as [e|].
  { exists (Raise e), [HttpGet url true 10], []. split; [reflexivity|apply Hearly]. }
  unfold bind at 1, lift.
  destruct (Url.urlparse_path url) as [p|e] eqn:Hp; cbn [ret raise app].
  2:{ exists (Raise e), [HttpGet url true 10], []. split; [reflexivity|apply Hearly]. }
  unfold bind at 1.
  destruct (content_length_int resp) as [total|e] eqn:Hlen; cbn [ret raise app].
  2:{ exists (Raise e), [HttpGet url true 10], []. split; [reflexivity|apply Hearly]. }
  set (path := Path.join output_path (image_filename p)).
  destruct (image_loop_run w path total (body_end resp) (body resp) 0 self)
    as (rl & la & Hrun & Hla & Hpo & Hpre & Hfin).
  unfold bind at 1.
  rewrite (with_open_run w path _ self rl la Hrun).
  destruct (image_pre_facts (progress_callback self) url path total la Hla Hpo)
    as (Hio & Hprog & Hcw & Hfile).
  destruct (open_wb w path) as [e|].
  { exists (Raise e), [HttpGet url true 10; OpenWb path], [].
    split; [reflexivity|]. split; [repeat constructor|].
    split; [left; split; [reflexivity|discriminate]|].
    split; [intros p0 Hp0; rewrite Hp in Hp0; injection Hp0 as <-; repeat constructor|].
    left. split; [repeat constructor|discriminate]. }
  set (pre := HttpGet url true 10 :: OpenWb path :: la ++ [FileClose path]) in *.
  assert (Hright : forall r : result unit,
    (forall u, r = Ok u -> exists z, rl = Ok z) ->
    (forall p0, Url.urlparse_path url = Ok p0 ->
       Forall (on_file (Path.join output_path (image_filename p0))) pre) /\
    (Forall quiet pre /\ (forall u, r <> Ok u) \/
     exists resp0 total0,
       requests_get w url = Ok resp0 /\ content_length_int resp0 = Ok total0 /\
       progress_ok (progress_callback self) total0 0 pre /\
       (exists rest, List.filter nonempty (body resp0) = chunks_written pre ++ rest) /\
       (forall u, r = Ok u -> chunks_written pre = List.filter nonempty (body resp0)))).
  { intros r Hr. split; [intros p0 Hp0; rewrite Hp in Hp0; injection Hp0 as <-; exact Hfile|].
    right. exists resp, total. rewrite Hcw.
    repeat split; auto.
    intros u Hu. destruct (Hr u Hu) as [z Hz]. apply (Hfin z Hz). }
  destruct (file_close w path) as [e|]; [|destruct rl as [z|e]].
  - exists (Raise e), pre, [].
    split; [rewrite app_nil_r; reflexivity|].
    split; [exact Hio|]. split; [left; split; [reflexivity|discriminate]|].
    apply Hright. discriminate.
  - unfold bind, get_self. rewrite guarded_call_run.
    exists (fault_result (call_fault (completion_callback self) (PStr path))), pre,
      (notify Completion (completion_callback self) (PStr path)).
    split; [reflexivity|].
    split; [exact Hio|]. split; [right; exists p; auto|]. apply Hright. eauto.
  - exists (Raise e), pre, [].
    split; [rewrite app_nil_r; reflexivity|].
    split; [exact Hio|]. split; [left; split; [reflexivity|discriminate]|].
    apply Hright. discriminate.
Qed.

Lemma image_handlers_run (url : string) (r : result unit) (self : DownloadManager)
    (acts : list action) (body : M unit) :
  body self = (r, self, acts) ->
  try_finally
    (try_except body
       [(is_RequestException,
         fun e =>
           self <- get_self ;;
           when (truthy (error_callback self))
             (py_call Error (error_callback self)
                (PStr ("Network error downloading image from " +:+ url +:+ ": "
                         +:+ exn_str e))));
        (is_Exception,
         fun e =>
           self <- get_self ;;
           when (truthy (error_callback self))
             (py_call Error (error_callback self)
                (PStr ("Error downloading image from " +:+ url +:+ ": "
                         +:+ exn_str e))))])
    (set_is_downloading false) self
  = (fault_result (image_report_fault self url r), with_downloading false self,
     acts ++ image_report self url r ++ [SetDownloading false]).
Proof.
  intros Hrun. unfold try_finally, try_except. rewrite Hrun.
  destruct r as [[]|e]; [reflexivity|].
  cbn [dispatch image_report image_report_fault]. unfold image_error_message.
  destruct (is_RequestException e).
  - unfold bind, get_self. rewrite guarded_call_run.
    destruct (call_fault (error_callback self) _); cbn;
      rewrite <- ?app_assoc; reflexivity.
  - rewrite is_Exception_all.
    unfold bind, get_self. rewrite guarded_call_run.
    destruct (call_fault (error_callback self) _); cbn;
      rewrite <- ?app_assoc; reflexivity.
Qed.

Lemma download_image_run (w : world) (url output_path : string) (self : DownloadManager) :
  exists r pre tail,
    image_try w url output_path self = (r, self, pre ++ tail) /\
    image_facts w url output_path self r pre tail /\
    _download_image w url output_path self
    = (fault_result (image_report_fault self url r), with_downloading false self,
       pre ++ image_outcome self url r tail ++ [SetDownloading false]).
Proof.
  destruct (image_try_run w url output_path self) as (r & pre & tail & Hrun & Hf).
  exists r, pre, tail. split; [exact Hrun|]. split; [exact Hf|].
  unfold _download_image. rewrite (image_handlers_run url r self _ _ Hrun).
  unfold image_outcome. rewrite <- !app_assoc. reflexivity.
Qed.

(** ** The image adapter computes its value *)

Lemma raise_for_status_value (resp : response) (self : DownloadManager) :
  raise_for_status resp self
  = (match status_error resp with Some e => Raise e | None => Ok tt end, self, []).
Proof.
  unfold raise_for_status, status_error.
  destruct (_ && _); [reflexivity|].
  destruct (_ && _); reflexivity.
Qed.

Lemma for_each_loop_run (w : world) (path : string) (total : Z) (stop : option exn)
    (chunks : list (list Byte.byte)) :
  forall (dl : Z) (self : DownloadManager),
    for_each chunks stop (image_chunk w path total) dl self
    = (fst (loop_run w (progress_callback self) path total chunks stop dl), self,
       snd (loop_run w (progress_callback self) path total chunks stop dl)).
Proof.
  induction chunks as [|c chunks IH]; intros dl self; cbn [for_each loop_run].
  - destruct stop; reflexivity.
  - unfold bind. rewrite image_chunk_run.
    destruct (chunk_turn w (progress_callback self) path total c dl) as [[dl1|e] acts1];
      cbn [fst snd]; [|reflexivity].
    rewrite IH.
    destruct (loop_run w (progress_callback self) path total chunks stop dl1).
    reflexivity.
Qed.

Lemma image_try_is_value (w : world) (url output_path : string) (self : DownloadManager) :
  image_try w url output_path self
  = (fst (image_try_value w (progress_callback self) (completion_callback self)
            url output_path),
     self,
     snd (image_try_value w (progress_callback self) (completion_callback self)
            url output_path)).
Proof.
  unfold image_try, image_try_value.
  unfold bind at 1. unfold requests_get_call, bind at 1, emit, lift.
  destruct (requests_get w url) as [resp|e]; cbn [ret raise app]; [|reflexivity].
  unfold bind at 1. rewrite raise_for_status_value.
  destruct (status_error resp) as [e|]; [reflexivity|].
  unfold bind at 1, lift.
  destruct (Url.urlparse_path url) as [p|e]; cbn [ret raise app]; [|reflexivity].
  unfold bind at 1.
  destruct (content_length_int resp) as [total|e]; cbn [ret raise app]; [|reflexivity].
  unfold bind at 1.
  rewrite (with_open_run w _ _ self _ _ (for_each_loop_run w _ total _ _ 0 self)).
  destruct (open_wb w (Path.join output_path (image_filename p))) as [e|];
    [reflexivity|].
  destruct (loop_run w (progress_callback self)
              (Path.join output_path (image_filename p)) total (body resp)
              (body_end resp) 0) as [rl la].
  cbn [fst snd].
  destruct (file_close w (Path.join output_path (image_filename p))) as [e|];
    [reflexivity|].
  destruct rl as [z|e]; [|reflexivity].
  unfold bind, get_self. rewrite guarded_call_run. reflexivity.
Qed.

Lemma download_image_value (w : world) (url output_path : string)
    (self : DownloadManager) :
  _download_image w url output_path self
  = (fault_result (image_fault w self url output_path), with_downloading false self,
     image_actions w self url output_path).
Proof.
  unfold _download_image.
  rewrite (image_handlers_run url _ self _ _ (image_try_is_value w url output_path self)).
  unfold image_actions, image_fault.
  destruct (image_try_value w (progress_callback self) (completion_callback self)
              url output_path) as [r acts].
  reflexivity.
Qed.

Lemma loop_run_facts (w : world) (cb : option callable) (path : string) (total : Z)
    (stop : option exn) (chunks : list (list Byte.byte)) (dl : Z) :
  Forall (loop_action path) (snd (loop_run w cb path total chunks stop dl)) /\
  (forall z, fst (loop_run w cb path total chunks stop dl) = Ok z ->
     chunks_written (snd (loop_run w cb path total chunks stop dl))
     = List.filter nonempty chunks /\
     stop = None).
Proof.
  pose (self := {| progress_callback := cb; completion_callback := None;
                   error_callback := None; is_downloading := false |}).
  destruct (image_loop_run w path total stop chunks dl self)
    as (r & acts & Hrun & Hl & _ & _ & Hfin).
  rewrite for_each_loop_run in Hrun. cbn [progress_callback self] in Hrun.
  injection Hrun as Hr Ha. rewrite Hr, Ha.
  split; [exact Hl|]. intros z Hz. destruct (Hfin z Hz) as (_ & Hw & Hs). auto.
Qed.

Lemma loop_run_filter (w : world) (cb : option callable) (path : string) (total : Z)
    (stop : option exn) (chunks : list (list Byte.byte)) :
  forall dl,
    loop_run w cb path total (List.filter nonempty chunks) stop dl
    = loop_run w cb path total chunks stop dl.
Proof.
  induction chunks as [|c chunks IH]; intros dl; [reflexivity|].
  cbn [List.filter]. destruct (nonempty c) eqn:Hc; cbn [loop_run].
  - destruct (chunk_turn w cb path total c dl) as [[dl1|e] acts1]; [|reflexivity].
    rewrite IH. reflexivity.
  - unfold chunk_turn. rewrite Hc. rewrite IH.
    destruct (loop_run w cb path total chunks stop dl). reflexivity.
Qed.

Lemma loop_run_world (w' w : world) (cb : option callable) (path : string) (total : Z)
    (stop : option exn) (chunks : list (list Byte.byte)) :
  (forall p offset chunk, file_write w' p offset chunk = file_write w p offset chunk) ->
  forall dl,
    loop_run w' cb path total chunks stop dl = loop_run w cb path total chunks stop dl.
Proof.
  intros Hw. induction chunks as [|c chunks IH]; intros dl; [reflexivity|].
  cbn [loop_run]. unfold chunk_turn. rewrite Hw.
  destruct (nonempty c); [|rewrite IH; reflexivity].
  destruct (file_write w path dl c); [reflexivity|].
  destruct cb as [f|]; [destruct (percent_str _ _); [cbv zeta; destruct (answer f _)|]|];
    rewrite ?IH; reflexivity.
Qed.


Lemma in_notify (r r' : role) (cb : option callable) (f : callable) (arg arg' : pyval) :
  In (Callback r f arg) (notify r' cb arg') -> r = r' /\ cb = Some f /\ arg = arg'.
Proof.
  unfold notify. destruct cb as [g|]; [|intros []].
  intros [[= <- <- <-] | []]. auto.
Qed.

Lemma image_report_no_completion (self : DownloadManager) (url : string) (r : result unit)
    (f : callable) (arg : pyval) :
  ~ In (Callback Completion f arg) (image_report self url r ++ [SetDownloading false]).
Proof.
  intros Hin. apply in_app_or in Hin. destruct Hin as [Hin | [Hin | []]]; [|discriminate].
  destruct r as [u|e]; [destruct Hin|].
  apply in_notify in Hin. destruct Hin as [Hr _]. discriminate.
Qed.

(** A completion call in a run of the image adapter: everything before it
    succeeded. *)
Lemma image_completion_inversion (w : world) (url output_path : string)
    (self : DownloadManager) (f : callable) (arg : pyval) :
  In (Callback Completion f arg) (image_actions w self url output_path) ->
  exists resp p total la z,
    requests_get w url = Ok resp /\
    status_error resp = None /\
    Url.urlparse_path url = Ok p /\
    content_length_int resp = Ok total /\
    let path := Path.join output_path (image_filename p) in
    open_wb w path = None /\
    file_close w path = None /\
    loop_run w (progress_callback self) path total (body resp) (body_end resp) 0
    = (Ok z, la) /\
    completion_callback self = Some f /\
    arg = PStr path /\
    image_actions w self url output_path
    = HttpGet url true 10 :: OpenWb path :: la
        ++ [FileClose path; Callback Completion f (PStr path)]
        ++ image_report self url (fault_result (answer f (PStr path)))
        ++ [SetDownloading false].
Proof.
  unfold image_actions, image_try_value.
  assert (Hnot : forall (pre : list action) (r : result unit),
            Forall worker_io pre ->
            ~ In (Callback Completion f arg)
                (pre ++ image_report self url r ++ [SetDownloading false])).
  { intros pre r Hpre Hin. apply in_app_or in Hin. destruct Hin as [Hin | Hin].
    - rewrite Forall_forall in Hpre. apply list_elem_of_In, Hpre in Hin. destruct Hin.
    - eapply image_report_no_completion, Hin. }
  assert (Hget : Forall worker_io [HttpGet url true 10]) by repeat constructor.
  destruct (requests_get w url) as [resp|e] eqn:Hresp;
    [|intros Hin; destruct (Hnot _ _ Hget Hin)].
  destruct (status_error resp) as [e|] eqn:Hstatus;
    [intros Hin; destruct (Hnot _ _ Hget Hin)|].
  destruct (Url.urlparse_path url) as [p|e] eqn:Hp;
    [|intros Hin; destruct (Hnot _ _ Hget Hin)].
  destruct (content_length_int resp) as [total|e] eqn:Hlen;
    [|intros Hin; destruct (Hnot _ _ Hget Hin)].
  set (path := Path.join output_path (image_filename p)).
  destruct (open_wb w path) as [e|] eqn:Hopen.
  { intros Hin. exfalso. eapply Hnot; [|exact Hin]. repeat constructor. }
  pose proof (loop_run_facts w (progress_callback self) path total (body_end resp)
                (body resp) 0) as [Hl _].
  destruct (loop_run w (progress_callback self) path total (body resp)
              (body_end resp) 0) as [rl la] eqn:Hloop.
  cbn [fst snd] in Hl.
  assert (Hpre : Forall worker_io
                   (HttpGet url true 10 :: OpenWb path :: la ++ [FileClose path])).
  { repeat constructor. apply Forall_app. split; [|repeat constructor].
    eapply Forall_impl; [exact Hl|]. apply loop_action_worker_io. }
  destruct (file_close w path) as [e|] eqn:Hclose;
    [intros Hin; destruct (Hnot _ _ Hpre Hin)|].
  destruct rl as [z|e]; [|intros Hin; destruct (Hnot _ _ Hpre Hin)].
  intros Hin. exists resp, p, total, la, z.
  assert (Hf : completion_callback self = Some f /\ arg = PStr path).
  { apply in_app_or in Hin. destruct Hin as [Hin | Hin].
    - apply in_app_or in Hin. destruct Hin as [Hin | Hin].
      + rewrite Forall_forall in Hpre. apply list_elem_of_In, Hpre in Hin. destruct Hin.
      + apply in_notify in Hin. tauto.
    - destruct (image_report_no_completion _ _ _ _ _ Hin). }
  destruct Hf as [Hf Harg]. rewrite Hf. cbn [notify call_fault].
  repeat split; auto.
  fold path. cbn [app]. rewrite <- !app_assoc. reflexivity.
Qed.

(** ** The worker as a whole *)

Lemma hook_events_worker_io self ds : Forall worker_io (hook_events self ds).
Proof.
  unfold hook_events. destruct (progress_callback self); [|constructor].
  induction ds; cbn; constructor; auto. exact I.
Qed.

Lemma report_raised (self : DownloadManager) (msg : pyval) (acts : list action) :
  (forall f, error_callback self = Some f -> In (Callback Error f msg) acts) ->
  error_callback_raised self (fault_result (call_fault (error_callback self) msg)) acts.
Proof.
  intros Hin. unfold error_callback_raised.
  destruct (error_callback self) as [f|] eqn:Hf; cbn [call_fault]; [|left; reflexivity].
  destruct (answer f msg) as [e|] eqn:He; [|left; reflexivity].
  right. exists f, msg, e. repeat split; auto.
Qed.

Ltac in_report :=
  let f := fresh "f" in
  let Hf := fresh "Hf" in
  intros f Hf; unfold image_report; rewrite Hf; cbn [notify app actions snd];
  repeat first [rewrite in_app_iff | progress cbn [In]]; tauto.

(** The outcome calls after a [try] block that made the completion call
    [tail] and ended with [fault]. *)
Lemma outcome_calls_of_try (self : DownloadManager) (arg : pyval) (msg : exn -> pyval)
    (reached : bool) (fault : option exn) :
  (reached = true -> fault = call_fault (completion_callback self) arg) ->
  (reached = false -> fault <> None) ->
  outcome_calls self
    ((if reached then notify Completion (completion_callback self) arg else [])
       ++ match fault with
          | Some e => notify Error (error_callback self) (msg e)
          | None => []
          end).
Proof.
  intros Hr Hn. unfold outcome_calls. destruct reached.
  - specialize (Hr eq_refl). subst fault.
    destruct (completion_callback self) as [g|] eqn:Hg; cbn [call_fault notify].
    + destruct (answer g arg) as [e|] eqn:He.
      * right. right. exists g, arg, (msg e), e. auto.
      * left. exists arg. rewrite app_nil_r. reflexivity.
    + left. exists arg. reflexivity.
  - destruct fault as [e|]; [|destruct (Hn eq_refl eq_refl)].
    right. left. exists (msg e). reflexivity.
Qed.

Lemma video_outcome_calls (self : DownloadManager) (url output_path : string)
    (run : engine) :
  outcome_calls self (video_outcome self url output_path run).
Proof.
  unfold video_outcome, video_try_fault.
  destruct (engine_exn (progress_callback self) run) as [e|].
  - apply (outcome_calls_of_try self PNone
             (fun e => PStr (video_error_message url e)) false (Some e));
      [discriminate|discriminate].
  - apply (outcome_calls_of_try self (PStr (completion_message url output_path))
             (fun e => PStr (video_error_message url e)) true); [reflexivity|discriminate].
Qed.

Lemma image_outcome_calls (w : world) (url output_path : string) (self : DownloadManager)
    (r : result unit) (pre tail : list action) :
  image_facts w url output_path self r pre tail ->
  outcome_calls self (image_outcome self url r tail).
Proof.
  intros (_ & Htail & _). unfold image_outcome, image_report.
  destruct Htail as [[-> Hno] | (p & _ & -> & ->)].
  - destruct r as [[]|e]; [destruct (Hno tt eq_refl)|].
    right. left. eexists. reflexivity.
  - set (arg := PStr (Path.join output_path (image_filename p))).
    pose proof (outcome_calls_of_try self arg
                  (fun e => PStr (image_error_message url e)) true
                  (call_fault (completion_callback self) arg)
                  (fun _ => eq_refl)) as H.
    cbv iota in H.
    destruct (call_fault (completion_callback self) arg); apply H; discriminate.
Qed.

Lemma run_download_task_shape (w : world) (url download_type output_dir : string)
    (self : DownloadManager) :
  exists r self' acts,
    _run_download_task w url download_type output_dir self = (r, self', acts) /\
    error_callback_raised self r acts /\
    ((self' = with_downloading false self /\ worker_shape self acts) \/
     (self' = self /\ stuck_run self download_type r acts)).
Proof.
  unfold _run_download_task, stuck_run, known_kind.
  destruct (String.eqb download_type "video" || String.eqb download_type "audio").
  - rewrite download_video_audio_run. eexists _, _, _. split; [reflexivity|].
    split.
    + unfold video_fault, video_outcome.
      destruct (video_try_fault self url output_dir _) as [e|]; [|left; reflexivity].
      apply report_raised. in_report.
    + left. split; [reflexivity|].
      eexists _, _. split; [reflexivity|]. split.
      * constructor; [exact I|apply hook_events_worker_io].
      * apply video_outcome_calls.
  - destruct (String.eqb download_type "image").
    + destruct (download_image_run w url output_dir self)
        as (r & pre & tail & _ & Hf & ->).
      eexists _, _, _. split; [reflexivity|]. split.
      * unfold image_outcome, image_report, image_report_fault.
        destruct r as [u|e]; [left; reflexivity|].
        apply report_raised. in_report.
      * left. split; [reflexivity|].
        exists pre, (image_outcome self url r tail). split; [reflexivity|].
        split; [apply Hf|]. eapply image_outcome_calls, Hf.
    + unfold bind, get_self. rewrite guarded_call_run.
      fold (invalid_type_message download_type).
      assert (Hraised : error_callback_raised self
                (fault_result (call_fault (error_callback self)
                                 (PStr (invalid_type_message download_type))))
                (notify Error (error_callback self)
                   (PStr (invalid_type_message download_type)))).
      { apply report_raised. in_report. }
      destruct (error_callback self) as [f|] eqn:Hf; cbn [call_fault notify] in *.
      * destruct (answer f (PStr (invalid_type_message download_type))) as [e|] eqn:He;
          cbn [fault_result] in *.
        -- eexists _, _, _. split; [reflexivity|]. split; [exact Hraised|].
           right. split; [reflexivity|]. split; [reflexivity|].
           exists f, e. auto.
        -- eexists _, _, _. split; [reflexivity|]. split; [left; reflexivity|].
           left. split; [reflexivity|].
           exists [], [Callback Error f (PStr (invalid_type_message download_type))].
           split; [reflexivity|]. split; [constructor|].
           right. left. exists (PStr (invalid_type_message download_type)).
           rewrite Hf. reflexivity.
      * eexists _, _, _. split; [reflexivity|]. split; [left; reflexivity|].
        left. split; [reflexivity|].
        exists [], []. split; [reflexivity|]. split; [constructor|].
        right. left. exists PNone. rewrite Hf. reflexivity.
Qed.

(** A request of a known kind resets the busy flag, whatever the callbacks
    do. *)
Lemma known_kind_resets (w : world) (url download_type output_dir : string)
    (self : DownloadManager) :
  known_kind download_type = true ->
  exists r acts,
    _run_download_task w url download_type output_dir self
    = (r, with_downloading false self, acts) /\
    error_callback_raised self r acts /\
    worker_shape self acts.
Proof.
  intros Hk.
  destruct (run_download_task_shape w url download_type output_dir self)
    as (r & self' & acts & Hrun & Hraised & [[-> Hshape] | [_ (Hu & _)]]).
  - eauto.
  - congruence.
Qed.

(** ** Facts on strings and paths *)











(** ** The two-chunk scenario *)

Lemma percent_half : percent_str 500 1000 = Ok "50.0%".
Proof. reflexivity. Qed.

Lemma percent_full : percent_str 1000 1000 = Ok "100.0%".
Proof. reflexivity. Qed.

Lemma nonempty_of_length (c : list Byte.byte) (n : nat) :
  length c = S n -> nonempty c = true.
Proof. destruct c; [discriminate|reflexivity]. Qed.

(** C5 (two-chunk image scenario): an accepted image request for
    [https://example.com/x.jpg] into [/tmp/out], answered with content
    length 1000 and a body of two chunks of 500 bytes, with callbacks that
    return, produces exactly two progress events, whose dictionaries hold
    500 and then 1000 under [downloaded_bytes] and [50.0%] and then [100.0%]
    under [_percent_str], followed by exactly one completion event that
    carries the path [/tmp/out/x.jpg]; the worker returns normally. *)
Theorem two_chunk_scenario (w : world) (self : DownloadManager) (resp : response)
    (c1 c2 : list Byte.byte) (f g : callable) :
  let url := "https://example.com/x.jpg" in
  progress_callback self = Some f ->
  completion_callback self = Some g ->
  (forall d, answer f d = None) ->
  answer g (PStr "/tmp/out/x.jpg") = None ->
  is_downloading self = false ->
  isdir w "/tmp/out" = true ->
  requests_get w url = Ok resp ->
  status_code resp = 200 ->
  content_length resp = Some "1000" ->
  body resp = [c1; c2] ->
  body_end resp = None ->
  length c1 = 500%nat ->
  length c2 = 500%nat ->
  open_wb w "/tmp/out/x.jpg" = None ->
  (forall off c, file_write w "/tmp/out/x.jpg" off c = None) ->
  file_close w "/tmp/out/x.jpg" = None ->
  download_content w url "image" "/tmp/out" self
  = (Ok tt, with_downloading true self,
     [SetDownloading true; ThreadStart url "image" "/tmp/out" true]) /\
  outcome_of (_run_download_task w url "image" "/tmp/out" (with_downloading true self))
  = Ok tt /\
  exists d1 d2 : gmap string pyval,
    events (actions (_run_download_task w url "image" "/tmp/out"
                       (with_downloading true self)))
    = [Callback Progress f (PDict d1);
       Callback Progress f (PDict d2);
       Callback Completion g (PStr "/tmp/out/x.jpg")] /\
    d1 !! "downloaded_bytes" = Some (PInt 500) /\
    d1 !! "_percent_str" = Some (PStr "50.0%") /\
    d1 !! "total_bytes" = Some (PInt 1000) /\
    d1 !! "status" = Some (PStr "downloading") /\
    d2 !! "downloaded_bytes" = Some (PInt 1000) /\
    d2 !! "_percent_str" = Some (PStr "100.0%") /\
    d2 !! "total_bytes" = Some (PInt 1000) /\
    d2 !! "status" = Some (PStr "downloading").
Proof.
  intros url Hf Hg Hfret Hgret Hbusy Hdir Hget Hst Hlen Hbody Hend Hc1 Hc2 Hopen Hwrite
    Hclose.
  split.
  { unfold download_content, bind, get_self. rewrite Hbusy, Hdir. reflexivity. }
  set (self' := with_downloading true self).
  assert (Hf' : progress_callback self' = Some f) by exact Hf.
  assert (Hg' : completion_callback self' = Some g) by exact Hg.
  assert (Hloop :
    for_each (body resp) (body_end resp) (image_chunk w "/tmp/out/x.jpg" 1000) 0 self'
    = (Ok 1000, self',
       [FileWrite "/tmp/out/x.jpg" c1;
        Callback Progress f (PDict (image_progress 1000 500 "50.0%"));
        FileWrite "/tmp/out/x.jpg" c2;
        Callback Progress f (PDict (image_progress 1000 1000 "100.0%"))])).
  { rewrite Hbody, Hend. cbn [for_each]. unfold bind.
    rewrite image_chunk_run. unfold chunk_turn at 1 2. rewrite Hf'.
    rewrite (nonempty_of_length c1 _ Hc1).
    rewrite !Hwrite. unfold len. rewrite Hc1.
    change (0 + Z.of_nat 500) with 500. rewrite percent_half. cbv zeta.
    rewrite !Hfret. cbn [fst snd].
    rewrite !image_chunk_run. unfold chunk_turn. rewrite Hf'.
    rewrite (nonempty_of_length c2 _ Hc2). rewrite !Hwrite. unfold len. rewrite Hc2.
    change (500 + Z.of_nat 500) with 1000. rewrite percent_full. cbv zeta.
    rewrite !Hfret. reflexivity. }
  assert (Htry : image_try w url "/tmp/out" self'
    = (Ok tt, self',
       [HttpGet url true 10; OpenWb "/tmp/out/x.jpg";
        FileWrite "/tmp/out/x.jpg" c1;
        Callback Progress f (PDict (image_progress 1000 500 "50.0%"));
        FileWrite "/tmp/out/x.jpg" c2;
        Callback Progress f (PDict (image_progress 1000 1000 "100.0%"));
        FileClose "/tmp/out/x.jpg";
        Callback Completion g (PStr "/tmp/out/x.jpg")])).
  { unfold image_try. unfold bind at 1.
    unfold requests_get_call, bind at 1, emit, lift. rewrite Hget. cbn [ret app].
    unfold bind at 1. unfold raise_for_status. rewrite Hst.
    cbn [Z.leb Z.ltb andb Z.compare Pos.compare Pos.compare_cont].
    cbn [ret app]. unfold bind at 1, lift.
    change (Url.urlparse_path url) with (@Ok string "/x.jpg"). cbn [ret app].
    unfold bind at 1. unfold content_length_int. rewrite Hlen.
    change (Py.int_of_str "1000") with (@Ok Z 1000). cbn [ret app].
    change (Path.join "/tmp/out" (image_filename "/x.jpg")) with "/tmp/out/x.jpg".
    unfold bind at 1.
    rewrite (with_open_run w "/tmp/out/x.jpg" _ self' _ _ Hloop).
    rewrite Hopen, Hclose. unfold bind, get_self. rewrite guarded_call_run.
    rewrite Hg'. cbn [call_fault]. rewrite Hgret. reflexivity. }
  assert (Hrun : _run_download_task w url "image" "/tmp/out" self'
    = (Ok tt, with_downloading false self',
       [HttpGet url true 10; OpenWb "/tmp/out/x.jpg";
        FileWrite "/tmp/out/x.jpg" c1;
        Callback Progress f (PDict (image_progress 1000 500 "50.0%"));
        FileWrite "/tmp/out/x.jpg" c2;
        Callback Progress f (PDict (image_progress 1000 1000 "100.0%"));
        FileClose "/tmp/out/x.jpg";
        Callback Completion g (PStr "/tmp/out/x.jpg");
        SetDownloading false])).
  { unfold _run_download_task.
    change (String.eqb "image" "video" || String.eqb "image" "audio") with false.
    change (String.eqb "image" "image") with true. cbv iota.
    unfold _download_image. rewrite (image_handlers_run url _ self' _ _ Htry).
    reflexivity. }
  rewrite Hrun. split; [reflexivity|].
  exists (image_progress 1000 500 "50.0%"), (image_progress 1000 1000 "100.0%").
  split; [reflexivity|]. repeat split.
Qed.

Lemma two_chunk_scenario_witness :
  download_content two_chunk_world "https://example.com/x.jpg" "image" "/tmp/out" app_manager
  = (Ok tt, with_downloading true app_manager,
     [SetDownloading true;
      ThreadStart "https://example.com/x.jpg" "image" "/tmp/out" true]) /\
  outcome_of (_run_download_task two_chunk_world "https://example.com/x.jpg" "image"
                "/tmp/out" (with_downloading true app_manager))
  = Ok tt /\
  exists d1 d2 : gmap string pyval,
    events (actions (_run_download_task two_chunk_world "https://example.com/x.jpg"
                       "image" "/tmp/out" (with_downloading true app_manager)))
    = [Callback Progress on_progress (PDict d1);
       Callback Progress on_progress (PDict d2);
       Callback Completion on_complete (PStr "/tmp/out/x.jpg")] /\
    d1 !! "downloaded_bytes" = Some (PInt 500) /\
    d1 !! "_percent_str" = Some (PStr "50.0%") /\
    d1 !! "total_bytes" = Some (PInt 1000) /\
    d1 !! "status" = Some (PStr "downloading") /\
    d2 !! "downloaded_bytes" = Some (PInt 1000) /\
    d2 !! "_percent_str" = Some (PStr "100.0%") /\
    d2 !! "total_bytes" = Some (PInt 1000) /\
    d2 !! "status" = Some (PStr "downloading").
Proof.
  apply (two_chunk_scenario two_chunk_world app_manager
           (ok_response "https://example.com/x.jpg" (Some "1000")
              [chunk_of 500; chunk_of 500])
           (chunk_of 500) (chunk_of 500) on_progress on_complete);
    reflexivity.
Defined.

(** ** Configuration of the extraction adapter *)

(** C9 (extraction-adapter configuration): a request of kind video or audio
    is run by the extraction adapter, whose engine is called on the URL with
    options holding 3 whole-job retries, 3 fragment retries and the
    skip-on-failure policy; for audio the format is [bestaudio/best] with an
    extraction post-processor to mp3 at quality 192; for video the format
    is the ranked list ending in the generic [best]. *)
Theorem extraction_adapter_configuration (w : world) (url download_type output_dir : string)
    (self : DownloadManager) :
  download_type = "video" \/ download_type = "audio" ->
  let opts := make_ydl_opts output_dir download_type in
  _run_download_task w url download_type output_dir self
  = _download_video_audio w url output_dir download_type self /\
  (exists rest,
     actions (_run_download_task w url download_type output_dir self)
     = YoutubeDL opts [url] :: rest /\
     Forall (fun a => forall u s t, a <> HttpGet u s t) rest) /\
  opts !! "retries" = Some (PInt 3) /\
  opts !! "fragment_retries" = Some (PInt 3) /\
  opts !! "ignoreerrors" = Some (PBool true) /\
  (download_type = "audio" ->
   opts !! "format" = Some (PStr "bestaudio/best") /\
   opts !! "postprocessors"
   = Some (PList [PDict {[ "key" := PStr "FFmpegExtractAudio";
                           "preferredcodec" := PStr "mp3";
                           "preferredquality" := PStr "192" ]}]) /\
   opts !! "extract_audio" = Some (PBool true)) /\
  (download_type = "video" ->
   opts !! "format"
   = Some (PStr "bestvideo[ext=mp4]+bestaudio[ext=m4a]/best[ext=mp4]/best") /\
   opts !! "postprocessors" = None).
Proof.
  intros Hkind opts.
  assert (Hsel : _run_download_task w url download_type output_dir self
                 = _download_video_audio w url output_dir download_type self).
  { unfold _run_download_task. destruct Hkind as [-> | ->]; reflexivity. }
  split; [exact Hsel|]. split.
  - rewrite Hsel, download_video_audio_run. fold opts. cbn [actions snd app].
    eexists. split; [reflexivity|].
    apply Forall_app. split.
    + unfold hook_events. destruct (progress_callback self); [|constructor].
      apply Forall_forall. intros a Ha. apply list_elem_of_In, in_map_iff in Ha.
      destruct Ha as (d & <- & _). discriminate.
    + apply Forall_app. split; [|repeat constructor; discriminate].
      unfold video_outcome, notify.
      destruct (engine_exn _ _), (video_try_fault _ _ _ _), (completion_callback self),
        (error_callback self); repeat constructor; discriminate.
  - subst opts. unfold make_ydl_opts, dict_update, ydl_opts_audio, ydl_opts_default.
    destruct Hkind as [-> | ->];
      repeat split; try reflexivity; intros; try discriminate; repeat split; reflexivity.
Qed.

Lemma extraction_adapter_configuration_witness :
  let opts := make_ydl_opts "/tmp/out" "audio" in
  opts !! "retries" = Some (PInt 3) /\
  opts !! "format" = Some (PStr "bestaudio/best").
Proof.
  pose proof (extraction_adapter_configuration restarting_world
                "https://example.com/watch" "audio" "/tmp/out" app_manager
                (or_intror eq_refl)) as H.
  cbv zeta in H. destruct H as (_ & _ & Hr & _ & _ & Ha & _).
  split; [exact Hr|]. apply (Ha eq_refl).
Defined.

(** ** Filename derivation *)


Lemma status_error_good (resp : response) :
  status_code resp < 400 \/ 600 <= status_code resp -> status_error resp = None.
Proof.
  intros H. unfold status_error.
  replace ((400 <=? status_code resp) && (status_code resp <? 500)) with false
    by (symmetry; apply andb_false_iff; rewrite Z.leb_gt, Z.ltb_ge; lia).
  replace ((500 <=? status_code resp) && (status_code resp <? 600)) with false
    by (symmetry; apply andb_false_iff; rewrite Z.leb_gt, Z.ltb_ge; lia).
  reflexivity.
Qed.





(** ** Callbacks that are not registered *)

Lemma notify_registered (self : DownloadManager) (r : role) (arg : pyval) :
  Forall (registered self) (notify r (callback_of r self) arg).
Proof.
  unfold notify. destruct (callback_of r self) eqn:E; repeat constructor. exact E.
Qed.

Lemma hook_events_registered (self : DownloadManager) (ds : list (gmap string pyval)) :
  Forall (registered self) (hook_events self ds).
Proof.
  unfold hook_events. destruct (progress_callback self) eqn:E; [|constructor].
  induction ds; cbn; constructor; auto.
Qed.

Lemma progress_ok_registered (self : DownloadManager) (total : Z) (acts : list action) :
  forall dl,
    Forall worker_io acts ->
    progress_ok (progress_callback self) total dl acts ->
    Forall (registered self) acts.
Proof.
  induction acts as [|a acts IH]; intros dl Hio Hp; [constructor|].
  inversion Hio as [|? ? Ha Hio']; subst.
  destruct a as [[] f arg| | | | | | |]; cbn in Hp, Ha; try destruct Ha;
    constructor; try exact I; try (eapply IH; eauto; fail).
  - apply Hp.
  - eapply IH; [exact Hio'|apply Hp].
Qed.

Lemma quiet_registered (self : DownloadManager) (acts : list action) :
  Forall worker_io acts -> Forall quiet acts -> Forall (registered self) acts.
Proof.
  induction acts as [|a acts IH]; intros Hio Hq; [constructor|].
  inversion Hio; inversion Hq; subst.
  constructor; [|auto].
  destruct a as [[] f arg| | | | | | |]; cbn in *; tauto.
Qed.

Lemma download_content_run (w : world) (url download_type output_dir : string)
    (self : DownloadManager) :
  download_content w url download_type output_dir self
  = if is_downloading self then
      (fault_result
         (call_fault (error_callback self)
            (PStr "A download is already in progress. Please wait.")),
       self,
       notify Error (error_callback self)
         (PStr "A download is already in progress. Please wait."))
    else if negb (isdir w output_dir) then
      (fault_result
         (call_fault (error_callback self)
            (PStr ("Output directory does not exist: " +:+ output_dir))),
       self,
       notify Error (error_callback self)
         (PStr ("Output directory does not exist: " +:+ output_dir)))
    else
      (Ok tt, with_downloading true self,
       [SetDownloading true; ThreadStart url download_type output_dir true]).
Proof.
  unfold download_content, bind, get_self.
  destruct (is_downloading self); [rewrite guarded_call_run; reflexivity|].
  destruct (negb (isdir w output_dir)); [rewrite guarded_call_run; reflexivity|].
  reflexivity.
Qed.

Lemma download_content_raised (w : world) (url download_type output_dir : string)
    (self : DownloadManager) :
  error_callback_raised self
    (outcome_of (download_content w url download_type output_dir self))
    (actions (download_content w url download_type output_dir self)).
Proof.
  rewrite download_content_run.
  destruct (is_downloading self); [apply report_raised; in_report|].
  destruct (negb (isdir w output_dir)); [apply report_raised; in_report|].
  left. reflexivity.
Qed.

Lemma video_registered (w : world) (url output_path download_type : string)
    (self : DownloadManager) :
  Forall (registered self)
    (actions (_download_video_audio w url output_path download_type self)).
Proof.
  rewrite download_video_audio_run. cbn [actions snd app].
  constructor; [exact I|].
  apply Forall_app. split; [apply hook_events_registered|].
  apply Forall_app. split; [|repeat constructor].
  unfold video_outcome. apply Forall_app. split.
  - destruct (engine_exn _ _); [constructor|apply (notify_registered self Completion)].
  - destruct (video_try_fault _ _ _ _); [apply (notify_registered self Error)|constructor].
Qed.

Lemma image_registered (w : world) (url output_path : string) (self : DownloadManager) :
  Forall (registered self) (actions (_download_image w url output_path self)).
Proof.
  destruct (download_image_run w url output_path self)
    as (r & pre & tail & _ & (Hio & Htail & _ & Hprog) & ->).
  cbn [actions snd].
  apply Forall_app. split.
  - destruct Hprog as [[Hq _] | (resp & total & _ & _ & Hp & _)].
    + apply quiet_registered; assumption.
    + eapply progress_ok_registered; eassumption.
  - apply Forall_app. split; [|repeat constructor].
    unfold image_outcome, image_report. apply Forall_app. split.
    + destruct Htail as [[-> _] | (p & _ & -> & _)];
        [constructor|apply (notify_registered self Completion)].
    + destruct r; [constructor|apply (notify_registered self Error)].
Qed.

Lemma run_download_task_registered (w : world) (url download_type output_dir : string)
    (self : DownloadManager) :
  Forall (registered self)
    (actions (_run_download_task w url download_type output_dir self)).
Proof.
  unfold _run_download_task.
  destruct (String.eqb download_type "video" || String.eqb download_type "audio");
    [apply video_registered|].
  destruct (String.eqb download_type "image"); [apply image_registered|].
  unfold bind, get_self. rewrite guarded_call_run.
  destruct (call_fault (error_callback self) _);
    cbn [fault_result actions snd set_is_downloading app].
  - apply (notify_registered self Error).
  - apply Forall_app. split; [|repeat constructor].
    apply (notify_registered self Error).
Qed.

Lemma download_content_registered (w : world) (url download_type output_dir : string)
    (self : DownloadManager) :
  Forall (registered self)
    (actions (download_content w url download_type output_dir self)).
Proof.
  rewrite download_content_run.
  destruct (is_downloading self); [apply (notify_registered self Error)|].
  destruct (negb (isdir w output_dir)); [apply (notify_registered self Error)|].
  repeat constructor.
Qed.

Lemma registered_none (self : DownloadManager) (r : role) (acts : list action) :
  Forall (registered self) acts ->
  callback_of r self = None ->
  forall f arg, ~ In (Callback r f arg) acts.
Proof.
  intros Hreg Hnone f arg Hin.
  rewrite Forall_forall in Hreg. apply list_elem_of_In, Hreg in Hin.
  cbn in Hin. congruence.
Qed.

Lemma video_raised (w : world) (url output_path download_type : string)
    (self : DownloadManager) :
  error_callback_raised self
    (outcome_of (_download_video_audio w url output_path download_type self))
    (actions (_download_video_audio w url output_path download_type self)).
Proof.
  rewrite download_video_audio_run. cbn [outcome_of actions fst snd].
  unfold video_fault, video_outcome.
  destruct (video_try_fault self url output_path _) as [e|]; [|left; reflexivity].
  apply report_raised. in_report.
Qed.

Lemma image_raised (w : world) (url output_path : string) (self : DownloadManager) :
  error_callback_raised self
    (outcome_of (_download_image w url output_path self))
    (actions (_download_image w url output_path self)).
Proof.
  rewrite download_image_value. cbn [outcome_of actions fst snd].
  unfold image_fault, image_actions.
  destruct (image_try_value _ _ _ _ _) as [[u|e] acts]; cbn [fst];
    [left; reflexivity|].
  apply report_raised. in_report.
Qed.

Lemma run_download_task_raised (w : world) (url download_type output_dir : string)
    (self : DownloadManager) :
  error_callback_raised self
    (outcome_of (_run_download_task w url download_type output_dir self))
    (actions (_run_download_task w url download_type output_dir self)).
Proof.
  destruct (run_download_task_shape w url download_type output_dir self)
    as (r & self' & acts & -> & Hraised & _).
  exact Hraised.
Qed.

Lemma raised_with_returning_callback (self : DownloadManager) (r : result unit)
    (acts : list action) :
  (forall f arg, error_callback self = Some f -> answer f arg = None) ->
  error_callback_raised self r acts -> r = Ok tt.
Proof.
  intros Hret [Hok | (f & arg & e & Hf & _ & He & _)]; [exact Hok|].
  rewrite (Hret f arg Hf) in He. discriminate.
Qed.

(** C10 (optional callbacks are safe): the three callbacks default to
    [None].  Whatever callbacks are registered, a role whose callback is
    [None] gets no call at all: the event is dropped and the operation goes
    on.  No operation of the manager raises by itself: the progress hook
    returns what the progress callback returns, and every other operation
    returns normally unless a call of the error callback it made raised, and
    then with that exception.  So with callbacks that are [None] or return,
    every operation returns normally. *)
Theorem optional_callbacks_safe (w : world) (url download_type output_dir : string)
    (d : gmap string pyval) (self : DownloadManager) :
  let hook := _yt_dlp_hook d self in
  let video := _download_video_audio w url output_dir download_type self in
  let image := _download_image w url output_dir self in
  let submission := download_content w url download_type output_dir self in
  let task := _run_download_task w url download_type output_dir self in
  (progress_callback (__init__ None None None) = None /\
   completion_callback (__init__ None None None) = None /\
   error_callback (__init__ None None None) = None) /\
  outcome_of hook = fault_result (call_fault (progress_callback self) (PDict d)) /\
  error_callback_raised self (outcome_of video) (actions video) /\
  error_callback_raised self (outcome_of image) (actions image) /\
  error_callback_raised self (outcome_of submission) (actions submission) /\
  error_callback_raised self (outcome_of task) (actions task) /\
  ((forall r f arg, callback_of r self = Some f -> answer f arg = None) ->
   outcome_of hook = Ok tt /\ outcome_of video = Ok tt /\ outcome_of image = Ok tt /\
   outcome_of submission = Ok tt /\ outcome_of task = Ok tt) /\
  forall r : role,
    callback_of r self = None ->
    forall f arg,
      ~ In (Callback r f arg)
          (actions hook ++ actions video ++ actions image ++ actions submission
             ++ actions task).
Proof.
  intros hook video image submission task.
  subst hook video image submission task.
  split; [repeat split|].
  split; [rewrite yt_dlp_hook_run; reflexivity|].
  split; [apply video_raised|].
  split; [apply image_raised|].
  split; [apply download_content_raised|].
  split; [apply run_download_task_raised|].
  split.
  { intros Hret.
    assert (Herr : forall f arg, error_callback self = Some f -> answer f arg = None).
    { intros f arg Hf. apply (Hret Error f arg Hf). }
    split.
    { rewrite yt_dlp_hook_run. cbn [outcome_of fst].
      destruct (progress_callback self) as [f|] eqn:Hf; [|reflexivity].
      cbn [call_fault]. rewrite (Hret Progress f (PDict d) Hf). reflexivity. }
    split; [eapply raised_with_returning_callback; [exact Herr|apply video_raised]|].
    split; [eapply raised_with_returning_callback; [exact Herr|apply image_raised]|].
    split;
      [eapply raised_with_returning_callback; [exact Herr|apply download_content_raised]|].
    eapply raised_with_returning_callback; [exact Herr|apply run_download_task_raised]. }
  intros r Hnone. apply (registered_none self r); [|exact Hnone].
  repeat (apply Forall_app; split).
  - rewrite yt_dlp_hook_run. apply (notify_registered self Progress).
  - apply video_registered.
  - apply image_registered.
  - apply download_content_registered.
  - apply run_download_task_registered.
Qed.

Lemma optional_callbacks_safe_witness :
  outcome_of (_run_download_task two_chunk_world "https://example.com/x.jpg" "image"
                "/tmp/out" bare_manager) = Ok tt /\
  forall f arg,
    ~ In (Callback Completion f arg)
        (actions (_run_download_task two_chunk_world "https://example.com/x.jpg"
                    "image" "/tmp/out" bare_manager)).
Proof.
  pose proof (optional_callbacks_safe two_chunk_world "https://example.com/x.jpg"
                "image" "/tmp/out" ∅ bare_manager) as H.
  cbv zeta in H. destruct H as (_ & _ & _ & _ & _ & _ & Hok & Hdrop).
  split.
  - apply Hok. intros [] f arg Hf; discriminate Hf.
  - intros f arg Hin. apply (Hdrop Completion eq_refl f arg).
    apply in_or_app. right. apply in_or_app. right.
    apply in_or_app. right. apply in_or_app. right. exact Hin.
Defined.

(** ** Release of the busy flag *)

Lemma perform_keeps_flag (a : action) (self : DownloadManager) :
  keeps_flag a -> perform a self = self.
Proof. destruct a; cbn; tauto. Qed.

Lemma perform_all_keep_flag (acts : list action) (self : DownloadManager) :
  Forall keeps_flag acts -> fold_left (fun m a => perform a m) acts self = self.
Proof.
  induction 1 as [|a acts Ha _ IH]; [reflexivity|].
  cbn [fold_left]. rewrite perform_keeps_flag by exact Ha. exact IH.
Qed.

Lemma notify_keeps_flag (r : role) (cb : option callable) (arg : pyval) :
  Forall keeps_flag (notify r cb arg).
Proof. destruct cb; repeat constructor. Qed.

Lemma worker_shape_pending (self : DownloadManager) (acts : list action) :
  worker_shape self acts ->
  exists pre, acts = pre ++ [SetDownloading false] /\ Forall keeps_flag pre.
Proof.
  intros (pre & outcome & -> & Hio & Hout).
  exists (pre ++ outcome). split; [rewrite <- app_assoc; reflexivity|].
  apply Forall_app. split.
  - eapply Forall_impl; [exact Hio|]. intros [] Ha; cbn in *; tauto.
  - destruct Hout as [[arg ->] | [[arg ->] | (g & arg & arg' & e & _ & _ & ->)]];
      try apply notify_keeps_flag.
    constructor; [exact I|apply notify_keeps_flag].
Qed.







(** ** One outcome, and it is last *)

Lemma worker_io_not_outcome (a : action) : worker_io a -> is_outcome a = false.
Proof. destruct a as [[] f arg| | | | | | |]; cbn; tauto. Qed.

Lemma outcome_events_none (acts : list action) :
  Forall (fun a => is_outcome a = false) acts -> outcome_events acts = [].
Proof.
  induction 1 as [|a acts Ha _ IH]; [reflexivity|].
  unfold outcome_events in *. cbn. rewrite Ha. exact IH.
Qed.

Lemma outcome_events_app (a b : list action) :
  outcome_events (a ++ b) = outcome_events a ++ outcome_events b.
Proof. unfold outcome_events. apply List.filter_app. Qed.

Lemma outcome_events_notify (r : role) (cb : option callable) (arg : pyval) :
  r <> Progress -> outcome_events (notify r cb arg) = notify r cb arg.
Proof. intros Hr. destruct cb, r; cbn; congruence. Qed.

Lemma outcome_calls_events (self : DownloadManager) (outcome : list action) :
  outcome_calls self outcome -> outcome_events outcome = outcome.
Proof.
  intros [[arg ->] | [[arg ->] | (g & arg & arg' & e & _ & _ & ->)]].
  - apply outcome_events_notify. discriminate.
  - apply outcome_events_notify. discriminate.
  - change (outcome_events (?x :: ?l)) with (x :: outcome_events l).
    rewrite outcome_events_notify by discriminate. reflexivity.
Qed.

Lemma events_notify (r : role) (cb : option callable) (arg : pyval) :
  events (notify r cb arg) = notify r cb arg.
Proof. destruct cb; reflexivity. Qed.

Lemma events_app (a b : list action) : events (a ++ b) = events a ++ events b.
Proof. unfold events. apply List.filter_app. Qed.

Lemma events_all (l : list action) :
  Forall (fun a => is_event a = true) l -> events l = l.
Proof.
  induction 1 as [|a l Ha _ IH]; [reflexivity|].
  unfold events in *. cbn. rewrite Ha, IH. reflexivity.
Qed.

Lemma notify_all_events (r : role) (cb : option callable) (arg : pyval) :
  Forall (fun a => is_event a = true) (notify r cb arg).
Proof. destruct cb; repeat constructor. Qed.

Lemma outcome_calls_all_events (self : DownloadManager) (outcome : list action) :
  outcome_calls self outcome -> Forall (fun a => is_event a = true) outcome.
Proof.
  intros [[arg ->] | [[arg ->] | (g & arg & arg' & e & _ & _ & ->)]];
    try apply notify_all_events.
  constructor; [reflexivity|apply notify_all_events].
Qed.

(** Where an action of some kind can sit in a list made of actions not of
    that kind, then any actions, then again actions not of that kind. *)
Lemma split_at (P : action -> bool) (pre0 mid tail pre post : list action) (o : action) :
  Forall (fun a => P a = false) pre0 ->
  Forall (fun a => P a = false) tail ->
  P o = true ->
  pre0 ++ mid ++ tail = pre ++ o :: post ->
  exists m1 m2, mid = m1 ++ o :: m2 /\ pre = pre0 ++ m1 /\ post = m2 ++ tail.
Proof.
  intros Hpre0 Htail Ho. revert pre.
  induction Hpre0 as [|a pre0 Ha _ IH]; intros pre Heq.
  - cbn [app] in Heq. revert pre Heq.
    induction mid as [|x mid IHm]; intros pre Heq.
    + exfalso. cbn [app] in Heq. subst tail. rewrite Forall_forall in Htail.
      assert (Hin : o ∈ pre ++ o :: post) by (apply list_elem_of_In, in_elt).
      apply Htail in Hin. congruence.
    + destruct pre as [|y pre]; cbn [app] in Heq.
      * injection Heq as -> <-. exists [], mid. auto.
      * injection Heq as -> Heq. destruct (IHm pre Heq) as (m1 & m2 & -> & -> & ->).
        exists (y :: m1), m2. auto.
  - destruct pre as [|y pre]; cbn [app] in Heq.
    + injection Heq as -> _. congruence.
    + injection Heq as -> Heq. destruct (IH pre Heq) as (m1 & m2 & -> & -> & ->).
      exists m1, m2. auto.
Qed.

(** The outcome calls of a worker run, and what follows each of them. *)
Lemma task_outcomes (w : world) (url download_type output_dir : string)
    (self : DownloadManager) :
  let acts := actions (_run_download_task w url download_type output_dir self) in
  exists outcome,
    outcome_calls self outcome /\
    outcome_events acts = outcome /\
    forall pre o post,
      acts = pre ++ o :: post -> is_outcome o = true ->
      exists m1 m2, outcome = m1 ++ o :: m2 /\ events post = m2.
Proof.
  intros acts. subst acts.
  destruct (run_download_task_shape w url download_type output_dir self)
    as (r & self' & acts & -> & _ & [[_ Hshape] | [_ (_ & f & e & Hf & He & _ & ->)]]);
    cbn [actions snd].
  - destruct Hshape as (pre0 & outcome & -> & Hio & Hout).
    assert (Hpre0 : Forall (fun a => is_outcome a = false) pre0).
    { eapply Forall_impl; [exact Hio|]. apply worker_io_not_outcome. }
    exists outcome. split; [exact Hout|]. split.
    + rewrite !outcome_events_app, (outcome_events_none pre0 Hpre0).
      rewrite (outcome_calls_events self outcome Hout). cbn. apply app_nil_r.
    + intros pre o post Heq Ho.
      destruct (split_at is_outcome pre0 outcome [SetDownloading false] pre post o Hpre0)
        as (m1 & m2 & -> & _ & ->); [repeat constructor|exact Ho|exact Heq|].
      exists m1, m2. split; [reflexivity|].
      rewrite events_app. cbn. rewrite app_nil_r.
      apply events_all.
      apply outcome_calls_all_events in Hout.
      apply Forall_app in Hout. destruct Hout as [_ Hout].
      inversion Hout; assumption.
  - exists [Callback Error f (PStr (invalid_type_message download_type))].
    split.
    + right. left. exists (PStr (invalid_type_message download_type)).
      rewrite Hf. reflexivity.
    + split; [reflexivity|].
      intros pre o post Heq Ho.
      destruct pre as [|y pre]; cbn [app] in Heq.
      * injection Heq as <- <-. exists [], []. auto.
      * injection Heq as _ Heq. destruct pre; discriminate Heq.
Qed.

(** After an outcome call no event follows, except the error call after a
    completion call that raised. *)
Lemma after_outcome (w : world) (url download_type output_dir : string)
    (self : DownloadManager) (pre : list action) (o : action) (post : list action) :
  actions (_run_download_task w url download_type output_dir self) = pre ++ o :: post ->
  is_outcome o = true ->
  events post = [] \/
  exists g arg arg' e,
    o = Callback Completion g arg /\ answer g arg = Some e /\
    events post = notify Error (error_callback self) arg'.
Proof.
  intros Heq Ho.
  destruct (task_outcomes w url download_type output_dir self)
    as (outcome & Hout & _ & Hsplit).
  destruct (Hsplit pre o post Heq Ho) as (m1 & m2 & Hm & ->).
  destruct Hout as [[arg Ha] | [[arg Ha] | (g & arg & arg' & e & Hg & He & Ha)]].
  - left. rewrite Ha in Hm. unfold notify in Hm.
    destruct (completion_callback self); destruct m1 as [|? [|? ?]]; try discriminate Hm.
    injection Hm as _ <-. reflexivity.
  - left. rewrite Ha in Hm. unfold notify in Hm.
    destruct (error_callback self); destruct m1 as [|? [|? ?]]; try discriminate Hm.
    injection Hm as _ <-. reflexivity.
  - rewrite Ha in Hm. destruct m1 as [|x m1]; cbn [app] in Hm.
    + injection Hm as <- <-. right. exists g, arg, arg', e. auto.
    + injection Hm as _ Hm. left. unfold notify in Hm.
      destruct (error_callback self); destruct m1 as [|? [|? ?]]; try discriminate Hm.
      injection Hm as _ <-. reflexivity.
Qed.

(** C4, as stated, fails, in three ways.  A manager built without
    callbacks accepts an image request, the download runs to its end, and no
    outcome event at all is delivered.  With a completion callback that
    raises, the same download delivers two outcome events, the completion
    and then an error, since the completion callback is called inside the
    [try] block.  With an error callback that raises, a failed download ends
    with the exception of the callback leaving the worker. *)
Lemma exactly_one_outcome_counterexample :
  let url := "https://example.com/x.jpg" in
  let boom := MkExn (OtherException "RuntimeError") "boom" in
  let picky := __init__ None (Some (Some (raising "done" boom))) (Some (Some on_error)) in
  let failing := sample_world (ok_response "" None [])
                   (Ends (Some (MkExn DownloadError "unsupported URL"))) in
  let stubborn := __init__ None None (Some (Some (raising "fails" boom))) in
  (download_content two_chunk_world url "image" "/tmp/out" bare_manager
   = (Ok tt, with_downloading true bare_manager,
      [SetDownloading true; ThreadStart url "image" "/tmp/out" true]) /\
   ~ exists o,
       outcome_events
         (actions (_run_download_task two_chunk_world url "image" "/tmp/out"
                     (with_downloading true bare_manager)))
       = [o]) /\
  outcome_events
    (actions (_run_download_task two_chunk_world url "image" "/tmp/out"
                (with_downloading true picky)))
  = [Callback Completion (raising "done" boom) (PStr "/tmp/out/x.jpg");
     Callback Error on_error (PStr "Error downloading image from https://example.com/x.jpg: boom")] /\
  outcome_of (_run_download_task failing "u" "video" "/tmp/out"
                (with_downloading true stubborn))
  = Raise boom.
Proof.
  split; [split; [reflexivity|]|split; reflexivity].
  intros [o H]. vm_compute in H. discriminate H.
Qed.

(** C4, amended (the outcome of a request).  No exception raised by the
    libraries escapes the worker: each one is caught and reported through the
    error callback (a failed request, an HTTP error status, a file that
    cannot be opened, an exception of the engine, and in general whatever
    leaves the [try] block of an adapter); the worker returns normally
    unless the error callback itself raised.  The outcome calls of a worker
    are one completion call, or one error call, or a completion call that
    raised followed by the error call that reports its exception; so with a
    completion callback that returns there is at most one, with both
    callbacks registered exactly one, and an outcome whose callback is
    [None] is dropped.  After an outcome call no event follows, except the
    error call after a completion call that raised. *)
Theorem one_outcome_when_registered (w : world) (url download_type output_dir : string)
    (self : DownloadManager) :
  let run := _run_download_task w url download_type output_dir self in
  let outcomes := outcome_events (actions run) in
  error_callback_raised self (outcome_of run) (actions run) /\
  outcome_calls self outcomes /\
  ((forall arg, call_fault (completion_callback self) arg = None) ->
   (length outcomes <= 1)%nat) /\
  (forall g h,
     completion_callback self = Some g ->
     error_callback self = Some h ->
     (forall arg, answer g arg = None) ->
     exists arg,
       outcomes = [Callback Completion g arg] \/ outcomes = [Callback Error h arg]) /\
  (completion_callback self = None -> error_callback self = None -> outcomes = []) /\
  (forall pre o post,
     actions run = pre ++ o :: post -> is_outcome o = true ->
     events post = [] \/
     exists g arg arg' e,
       o = Callback Completion g arg /\ answer g arg = Some e /\
       events post = notify Error (error_callback self) arg') /\
  (forall h e,
     error_callback self = Some h ->
     (download_type = "video" \/ download_type = "audio" ->
      engine_exn (progress_callback self)
        (youtube_dl w (make_ydl_opts output_dir download_type) url) = Some e ->
      outcomes = [Callback Error h (PStr ("Error downloading " +:+ url +:+ ": "
                                           +:+ exn_str e))]) /\
     (download_type = "image" ->
      (requests_get w url = Raise e ->
       outcomes = [Callback Error h (PStr (image_error_message url e))]) /\
      (forall resp,
         requests_get w url = Ok resp ->
         outcome_of (raise_for_status resp self) = Raise e ->
         outcomes = [Callback Error h (PStr (image_error_message url e))]) /\
      (forall resp p total,
         requests_get w url = Ok resp ->
         outcome_of (raise_for_status resp self) = Ok tt ->
         Url.urlparse_path url = Ok p ->
         content_length_int resp = Ok total ->
         open_wb w (Path.join output_dir (image_filename p)) = Some e ->
         outcomes = [Callback Error h (PStr (image_error_message url e))]) /\
      (outcome_of (image_try w url output_dir self) = Raise e ->
       last outcomes = Some (Callback Error h (PStr (image_error_message url e)))))).
Proof.
  intros run outcomes. subst run outcomes.
  destruct (task_outcomes w url download_type output_dir self)
    as (outcome & Hout & Hev & Hsplit).
  cbv zeta in Hev, Hsplit. rewrite Hev.
  split; [apply run_download_task_raised|].
  split; [exact Hout|].
  split.
  { intros Hret.
    destruct Hout as [[arg ->] | [[arg ->] | (g & arg & arg' & e & Hg & He & ->)]].
    - unfold notify. destruct (completion_callback self); cbn; lia.
    - unfold notify. destruct (error_callback self); cbn; lia.
    - specialize (Hret arg). rewrite Hg in Hret. cbn in Hret. congruence. }
  split.
  { intros g h Hg Hh Hret.
    destruct Hout as [[arg ->] | [[arg ->] | (g' & arg & arg' & e & Hg' & He & ->)]].
    - exists arg. rewrite Hg. auto.
    - exists arg. rewrite Hh. auto.
    - rewrite Hg in Hg'. injection Hg' as <-. rewrite Hret in He. discriminate. }
  split.
  { intros Hg Hh.
    destruct Hout as [[arg ->] | [[arg ->] | (g' & arg & arg' & e & Hg' & He & ->)]].
    - rewrite Hg. reflexivity.
    - rewrite Hh. reflexivity.
    - congruence. }
  split; [apply after_outcome|].
  intros h e Hh. rewrite <- Hev. split.
  - intros Hkind Hexn. unfold _run_download_task.
    replace (String.eqb download_type "video" || String.eqb download_type "audio")
      with true by (destruct Hkind as [-> | ->]; reflexivity).
    rewrite download_video_audio_run. cbn [actions snd].
    rewrite !outcome_events_app.
    rewrite (outcome_events_none (_ :: _)).
    2:{ constructor; [reflexivity|].
        eapply Forall_impl; [apply hook_events_worker_io|]. apply worker_io_not_outcome. }
    unfold video_outcome, video_try_fault. rewrite Hexn, Hh. reflexivity.
  - intros ->. unfold _run_download_task.
    change (String.eqb "image" "video" || String.eqb "image" "audio") with false.
    change (String.eqb "image" "image") with true. cbv iota.
    assert (Hearly :
      image_try_value w (progress_callback self) (completion_callback self) url output_dir
      = (Raise e, [HttpGet url true 10]) ->
      outcome_events (actions (_download_image w url output_dir self))
      = [Callback Error h (PStr (image_error_message url e))]).
    { intros Hv. rewrite download_image_value. cbn [actions snd].
      unfold image_actions. rewrite Hv. unfold image_report. rewrite Hh. reflexivity. }
    split; [|split; [|split]].
    + intros Hget. apply Hearly. unfold image_try_value. rewrite Hget. reflexivity.
    + intros resp Hget Hst. apply Hearly. unfold image_try_value. rewrite Hget.
      rewrite raise_for_status_value in Hst. cbn [outcome_of fst] in Hst.
      destruct (status_error resp); [|discriminate Hst].
      injection Hst as ->. reflexivity.
    + intros resp p total Hget Hst Hp Hlen Hopen.
      rewrite download_image_value. cbn [actions snd].
      unfold image_actions, image_try_value. rewrite Hget.
      rewrite raise_for_status_value in Hst. cbn [outcome_of fst] in Hst.
      destruct (status_error resp); [discriminate Hst|].
      rewrite Hp, Hlen, Hopen. unfold image_report. rewrite Hh. reflexivity.
    + intros Htry.
      destruct (download_image_run w url output_dir self)
        as (r & pre & tail & Hrun & (Hio & Htail & _) & ->).
      rewrite Hrun in Htry. cbn [outcome_of fst] in Htry. subst r.
      cbn [actions snd]. rewrite !outcome_events_app.
      rewrite (outcome_events_none pre).
      2:{ eapply Forall_impl; [exact Hio|]. apply worker_io_not_outcome. }
      unfold image_outcome, image_report. rewrite Hh. cbn [notify app].
      rewrite outcome_events_app. cbn.
      rewrite app_nil_r. apply last_snoc.
Qed.

Lemma one_outcome_when_registered_witness :
  exists arg,
    outcome_events
      (actions (_run_download_task two_chunk_world "https://example.com/x.jpg"
                  "image" "/tmp/out" app_manager))
    = [Callback Completion on_complete arg] \/
    outcome_events
      (actions (_run_download_task two_chunk_world "https://example.com/x.jpg"
                  "image" "/tmp/out" app_manager))
    = [Callback Error on_error arg].
Proof.
  pose proof (one_outcome_when_registered two_chunk_world "https://example.com/x.jpg"
                "image" "/tmp/out" app_manager) as H.
  cbv zeta in H. destruct H as (_ & _ & _ & Hone & _).
  apply (Hone on_complete on_error); reflexivity.
Defined.

(** ** Progress of the image adapter *)

Lemma split_in_left (P : action -> Prop) (l1 l2 pre post : list action) (x : action) :
  P x -> Forall (fun a => ~ P a) l2 ->
  l1 ++ l2 = pre ++ x :: post ->
  exists post1, l1 = pre ++ x :: post1.
Proof.
  intros Hx Hl2. revert pre.
  induction l1 as [|a l1 IH]; intros pre Heq.
  - exfalso. cbn in Heq. subst l2. rewrite Forall_forall in Hl2.
    apply (Hl2 x); [apply list_elem_of_In, in_elt|exact Hx].
  - destruct pre as [|b pre]; cbn in Heq.
    + injection Heq as -> _. exists l1. reflexivity.
    + injection Heq as -> Heq. destruct (IH pre Heq) as [post1 ->].
      exists post1. reflexivity.
Qed.

Lemma written_sum (acts : list action) :
  written acts = foldr Z.add 0 (map len (chunks_written acts)).
Proof.
  induction acts as [|a acts IH]; [reflexivity|].
  destruct a; cbn; rewrite <- ?IH; reflexivity.
Qed.

Lemma percent_str_cases (dl total : Z) (pct : string) :
  percent_str dl total = Ok pct ->
  (total <= 0 -> pct = "N/A") /\
  (0 < total ->
   exists q, Py.true_div dl total = Ok q /\
             pct = Py.format_1f (Py.float_mul_int q 100) +:+ "%").
Proof.
  unfold percent_str. destruct (total >? 0) eqn:E.
  - apply Z.gtb_lt in E. destruct (Py.true_div dl total) as [q|e]; [|discriminate].
    intros [= <-]. split; [lia|]. intros _. exists q. auto.
  - assert (total <= 0) by (destruct (Z.gtb_spec total 0); [discriminate|lia]).
    intros [= <-]. split; [reflexivity|lia].
Qed.

Lemma percent_str_unknown (dl total : Z) : total <= 0 -> percent_str dl total = Ok "N/A".
Proof.
  intros H. unfold percent_str.
  replace (total >? 0) with false by (symmetry; rewrite Z.gtb_ltb; apply Z.ltb_ge; lia).
  reflexivity.
Qed.

(** In the loop, a write that succeeds is followed at once by the progress
    call, when a callback is registered and the percent text is computed. *)
Lemma loop_run_write_followed (w : world) (cb : option callable) (path : string)
    (total : Z) (stop : option exn) (chunks : list (list Byte.byte)) :
  forall (dl : Z) (pre post : list action) (q : string) (c : list Byte.byte),
    snd (loop_run w cb path total chunks stop dl) = pre ++ FileWrite q c :: post ->
    q = path /\
    forall f pct,
      cb = Some f ->
      file_write w q (dl + written pre) c = None ->
      percent_str (dl + written pre + len c) total = Ok pct ->
      exists post',
        post
        = Callback Progress f
            (PDict (image_progress total (dl + written pre + len c) pct)) :: post'.
Proof.
  induction chunks as [|chunk chunks IH]; intros dl pre post q c Heq.
  { cbn in Heq. destruct pre; discriminate. }
  cbn [loop_run] in Heq. unfold chunk_turn in Heq.
  destruct (nonempty chunk) eqn:Hc.
  2:{ destruct (loop_run w cb path total chunks stop dl) as [r2 acts2] eqn:Hrest.
      cbn [snd app] in Heq.
      apply (IH dl pre post q c). rewrite Hrest. exact Heq. }
  destruct (file_write w path dl chunk) as [e|] eqn:Hw.
  { cbn [snd] in Heq. destruct pre as [|x [|y pre]]; try discriminate Heq.
    injection Heq as <- <- <-. split; [reflexivity|].
    intros f pct _ Hw'. cbn [written] in Hw'. rewrite Z.add_0_r in Hw'. congruence. }
  assert (Hlater : forall (head acts2 : list action) (r2 : result Z),
            loop_run w cb path total chunks stop (dl + len chunk) = (r2, acts2) ->
            written head = 0 ->
            forall pre', pre = FileWrite path chunk :: head ++ pre' ->
            acts2 = pre' ++ FileWrite q c :: post ->
            q = path /\
            forall f pct,
              cb = Some f ->
              file_write w q (dl + written pre) c = None ->
              percent_str (dl + written pre + len c) total = Ok pct ->
              exists post',
                post
                = Callback Progress f
                    (PDict (image_progress total (dl + written pre + len c) pct))
                    :: post').
  { intros head acts2 r2 Hrest Hhead pre' -> Hacts.
    destruct (IH (dl + len chunk) pre' post q c) as [Hq Hnext].
    { rewrite Hrest. exact Hacts. }
    split; [exact Hq|].
    cbn [written]. rewrite written_app, Hhead.
    replace (dl + (len chunk + (0 + written pre'))) with (dl + len chunk + written pre')
      by lia.
    exact Hnext. }
  destruct cb as [f0|].
  - destruct (percent_str (dl + len chunk) total) as [pct0|e] eqn:Hp.
    + cbv zeta in Heq. destruct (answer f0 _) as [e|].
      * cbn [snd] in Heq. destruct pre as [|x [|y [|z pre]]]; try discriminate Heq.
        injection Heq as <- <- <-. split; [reflexivity|].
        intros f pct [= <-] _ Hpct. cbn [written] in Hpct |- *.
        rewrite Z.add_0_r in Hpct |- *. rewrite Hp in Hpct. injection Hpct as <-.
        eexists. reflexivity.
      * destruct (loop_run w (Some f0) path total chunks stop (dl + len chunk))
          as [r2 acts2] eqn:Hrest.
        cbn [snd app] in Heq. destruct pre as [|x [|y pre]].
        -- injection Heq as <- <- <-. split; [reflexivity|].
           intros f pct [= <-] _ Hpct. cbn [written] in Hpct |- *.
           rewrite Z.add_0_r in Hpct |- *. rewrite Hp in Hpct. injection Hpct as <-.
           eexists. reflexivity.
        -- discriminate Heq.
        -- injection Heq as <- <- Heq.
           apply (Hlater [Callback Progress f0 _] acts2 r2 eq_refl eq_refl pre eq_refl).
           exact Heq.
    + cbn [snd] in Heq. destruct pre as [|x [|y pre]]; try discriminate Heq.
      injection Heq as <- <- <-. split; [reflexivity|].
      intros f pct _ _ Hpct. cbn [written] in Hpct. rewrite Z.add_0_r in Hpct.
      congruence.
  - destruct (loop_run w None path total chunks stop (dl + len chunk))
      as [r2 acts2] eqn:Hrest.
    cbn [snd app] in Heq. destruct pre as [|x pre].
    + injection Heq as <- <- <-. split; [reflexivity|]. discriminate.
    + injection Heq as <- Heq.
      apply (Hlater [] acts2 r2 eq_refl eq_refl pre eq_refl).
      exact Heq.
Qed.

Lemma notify_no_write (r : role) (cb : option callable) (arg : pyval) :
  Forall (fun a => is_write a = false) (notify r cb arg).
Proof. destruct cb; repeat constructor. Qed.

Lemma report_no_write (self : DownloadManager) (url : string) (r : result unit) :
  Forall (fun a => is_write a = false) (image_report self url r ++ [SetDownloading false]).
Proof.
  apply Forall_app. split; [|repeat constructor].
  destruct r; [constructor|apply notify_no_write].
Qed.

Lemma tail_no_write (self : DownloadManager) (url path : string) (mid : list action)
    (r : result unit) :
  Forall (fun a => is_write a = false) mid ->
  Forall (fun a => is_write a = false)
    ([FileClose path] ++ mid ++ image_report self url r ++ [SetDownloading false]).
Proof.
  intros Hmid. apply Forall_app. split; [repeat constructor|].
  apply Forall_app. split; [exact Hmid|apply report_no_write].
Qed.

(** The actions of the image adapter: the request and the opening, the
    actions of the loop, and actions that write nothing. *)
Lemma image_actions_shape (w : world) (self : DownloadManager) (url output_path : string) :
  exists pre0 la tail,
    image_actions w self url output_path = pre0 ++ la ++ tail /\
    Forall (fun a => is_write a = false) pre0 /\
    written pre0 = 0 /\
    Forall (fun a => is_write a = false) tail /\
    (la = [] \/
     exists resp p total,
       requests_get w url = Ok resp /\
       Url.urlparse_path url = Ok p /\
       content_length_int resp = Ok total /\
       la = snd (loop_run w (progress_callback self)
                   (Path.join output_path (image_filename p)) total
                   (body resp) (body_end resp) 0)).
Proof.
  unfold image_actions, image_try_value.
  destruct (requests_get w url) as [resp|e] eqn:Hget.
  2:{ exists [HttpGet url true 10], [], (image_report self url (Raise e) ++ [SetDownloading false]).
      split; [reflexivity|]. split; [repeat constructor|]. split; [reflexivity|].
      split; [apply report_no_write|]. left. reflexivity. }
  destruct (status_error resp) as [e|].
  { exists [HttpGet url true 10], [], (image_report self url (Raise e) ++ [SetDownloading false]).
    split; [reflexivity|]. split; [repeat constructor|]. split; [reflexivity|].
    split; [apply report_no_write|]. left. reflexivity. }
  destruct (Url.urlparse_path url) as [p|e] eqn:Hp.
  2:{ exists [HttpGet url true 10], [], (image_report self url (Raise e) ++ [SetDownloading false]).
      split; [reflexivity|]. split; [repeat constructor|]. split; [reflexivity|].
      split; [apply report_no_write|]. left. reflexivity. }
  destruct (content_length_int resp) as [total|e] eqn:Hlen.
  2:{ exists [HttpGet url true 10], [], (image_report self url (Raise e) ++ [SetDownloading false]).
      split; [reflexivity|]. split; [repeat constructor|]. split; [reflexivity|].
      split; [apply report_no_write|]. left. reflexivity. }
  set (path := Path.join output_path (image_filename p)).
  destruct (open_wb w path) as [e|].
  { exists [HttpGet url true 10; OpenWb path], [],
      (image_report self url (Raise e) ++ [SetDownloading false]).
    split; [reflexivity|]. split; [repeat constructor|]. split; [reflexivity|].
    split; [apply report_no_write|]. left. reflexivity. }
  destruct (loop_run w (progress_callback self) path total (body resp) (body_end resp) 0)
    as [rl la] eqn:Hloop.
  assert (Hright : la = [] \/
            exists resp0 p0 total0,
              Ok resp = Ok resp0 /\ Ok p = Ok p0 /\
              content_length_int resp0 = Ok total0 /\
              la = snd (loop_run w (progress_callback self)
                          (Path.join output_path (image_filename p0)) total0
                          (body resp0) (body_end resp0) 0)).
  { right. exists resp, p, total. fold path. rewrite Hloop. auto. }
  destruct (file_close w path) as [e|]; [|destruct rl as [z|e]].
  - exists [HttpGet url true 10; OpenWb path], la,
      ([FileClose path] ++ [] ++ image_report self url (Raise e) ++ [SetDownloading false]).
    split; [cbn [app]; rewrite <- !app_assoc; reflexivity|].
    split; [repeat constructor|]. split; [reflexivity|].
    split; [apply tail_no_write; constructor|exact Hright].
  - exists [HttpGet url true 10; OpenWb path], la,
      ([FileClose path] ++ notify Completion (completion_callback self) (PStr path)
         ++ image_report self url
              (fault_result (call_fault (completion_callback self) (PStr path)))
         ++ [SetDownloading false]).
    split; [cbn [app]; rewrite <- !app_assoc; reflexivity|].
    split; [repeat constructor|]. split; [reflexivity|].
    split; [apply tail_no_write, notify_no_write|exact Hright].
  - exists [HttpGet url true 10; OpenWb path], la,
      ([FileClose path] ++ [] ++ image_report self url (Raise e) ++ [SetDownloading false]).
    split; [cbn [app]; rewrite <- !app_assoc; reflexivity|].
    split; [repeat constructor|]. split; [reflexivity|].
    split; [apply tail_no_write; constructor|exact Hright].
Qed.

(** C6 (direct-stream progress computation): every progress event of an
    image request carries a dictionary that holds, under [total_bytes], the
    total taken from the content-length header (0, the unknown total,
    without the header); under [downloaded_bytes], the sum of the lengths of
    the chunks written before it, which are the first non-empty chunks of the
    body; under [_percent_str], the text computed as downloaded/total*100
    when the total is positive and [N/A] otherwise.  And these events are
    there: every write that succeeds is followed at once by the progress
    call, when a progress callback is registered and the percent text is
    computed without an exception, which is always so for a total that is
    not positive. *)
Theorem image_progress_computation (w : world) (url output_path : string)
    (self : DownloadManager) :
  let acts := actions (_download_image w url output_path self) in
  (forall pre post f arg,
     acts = pre ++ Callback Progress f arg :: post ->
     exists resp total pct d,
       requests_get w url = Ok resp /\
       content_length_int resp = Ok total /\
       (content_length resp = None -> total = 0) /\
       (forall s, content_length resp = Some s -> Py.int_of_str s = Ok total) /\
       progress_callback self = Some f /\
       arg = PDict d /\
       d !! "status" = Some (PStr "downloading") /\
       d !! "total_bytes" = Some (PInt total) /\
       d !! "downloaded_bytes" = Some (PInt (written pre)) /\
       d !! "_percent_str" = Some (PStr pct) /\
       d !! "_eta_str" = Some (PStr "N/A") /\
       written pre = foldr Z.add 0 (map len (chunks_written pre)) /\
       (exists rest, List.filter nonempty (body resp) = chunks_written pre ++ rest) /\
       percent_str (written pre) total = Ok pct /\
       (total <= 0 -> pct = "N/A") /\
       (0 < total ->
        exists q, Py.true_div (written pre) total = Ok q /\
                  pct = Py.format_1f (Py.float_mul_int q 100) +:+ "%")) /\
  (forall pre post path chunk f resp total pct,
     acts = pre ++ FileWrite path chunk :: post ->
     progress_callback self = Some f ->
     requests_get w url = Ok resp ->
     content_length_int resp = Ok total ->
     file_write w path (written pre) chunk = None ->
     percent_str (written pre + len chunk) total = Ok pct ->
     exists d post',
       post = Callback Progress f (PDict d) :: post' /\
       d !! "status" = Some (PStr "downloading") /\
       d !! "total_bytes" = Some (PInt total) /\
       d !! "downloaded_bytes" = Some (PInt (written pre + len chunk)) /\
       d !! "_percent_str" = Some (PStr pct) /\
       d !! "_eta_str" = Some (PStr "N/A")) /\
  (forall downloaded total, total <= 0 -> percent_str downloaded total = Ok "N/A").
Proof.
  intros acts. subst acts. split; [|split; [|apply percent_str_unknown]].
  - intros pre post f arg Hacts.
    destruct (download_image_run w url output_path self)
      as (r & pre0 & tail & _ & (Hio & Htail & _ & Hprog) & Hrun).
    rewrite Hrun in Hacts. cbn [actions snd] in Hacts.
    destruct (split_in_left (fun a => is_progress a = true) pre0
                (image_outcome self url r tail ++ [SetDownloading false])
                pre post (Callback Progress f arg) eq_refl) as [post1 Hpre0].
    { apply Forall_app. split; [|repeat constructor; discriminate].
      unfold image_outcome, image_report. apply Forall_app. split.
      - destruct Htail as [[-> _] | (p & _ & -> & _)]; [constructor|].
        unfold notify. destruct (completion_callback self); repeat constructor; discriminate.
      - destruct r; [constructor|].
        unfold notify. destruct (error_callback self); repeat constructor; discriminate. }
    { exact Hacts. }
    subst pre0.
    destruct Hprog as [[Hq _] | (resp & total & Hget & Hlen & Hp & [rest Hrest] & _)].
    { exfalso. rewrite Forall_forall in Hq.
      apply (Hq (Callback Progress f arg)). apply list_elem_of_In, in_elt. }
    apply progress_ok_app in Hp. destruct Hp as [_ Hp].
    cbn [progress_ok] in Hp. destruct Hp as [[Hcb (pct & Hpct & Harg)] _].
    rewrite Z.add_0_l in Hpct, Harg.
    exists resp, total, pct, (image_progress total (written pre) pct).
    split; [exact Hget|]. split; [exact Hlen|].
    split. { intros Hnone. unfold content_length_int in Hlen. rewrite Hnone in Hlen.
             injection Hlen as <-. reflexivity. }
    split. { intros s Hs. unfold content_length_int in Hlen. rewrite Hs in Hlen.
             exact Hlen. }
    split; [exact Hcb|]. split; [exact Harg|].
    split; [reflexivity|]. split; [reflexivity|]. split; [reflexivity|].
    split; [reflexivity|]. split; [reflexivity|].
    split; [apply written_sum|].
    split. { rewrite chunks_written_app in Hrest. rewrite <- app_assoc in Hrest. eauto. }
    split; [exact Hpct|]. apply percent_str_cases. exact Hpct.
  - intros pre post path chunk f resp total pct Hacts Hf Hget Hlen Hwrite Hpct.
    rewrite download_image_value in Hacts. cbn [actions snd] in Hacts.
    destruct (image_actions_shape w self url output_path)
      as (pre0 & la & tail & Hshape & Hpre0 & Hw0 & Htail & Hla).
    rewrite Hshape in Hacts.
    destruct (split_at is_write pre0 la tail pre post (FileWrite path chunk)
                Hpre0 Htail eq_refl Hacts) as (m1 & m2 & Hm & -> & ->).
    destruct Hla as [-> | (resp0 & p & total0 & Hget0 & Hp & Hlen0 & Hloop)].
    { destruct m1; discriminate Hm. }
    rewrite Hget in Hget0. injection Hget0 as <-.
    rewrite Hlen in Hlen0. injection Hlen0 as <-.
    rewrite Hm in Hloop. symmetry in Hloop.
    destruct (loop_run_write_followed _ _ _ _ _ _ _ _ _ _ _ Hloop) as [-> Hnext].
    rewrite written_app, Hw0 in Hwrite, Hpct |- *.
    destruct (Hnext f pct Hf Hwrite Hpct) as [post' ->].
    eexists _, _. split; [reflexivity|]. repeat split.
Qed.

Lemma image_progress_computation_witness :
  exists d post',
    [Callback Progress on_progress (PDict (image_progress 1000 1000 "100.0%"));
     FileClose "/tmp/out/x.jpg";
     Callback Completion on_complete (PStr "/tmp/out/x.jpg");
     SetDownloading false]
    = Callback Progress on_progress (PDict d) :: post' /\
    d !! "status" = Some (PStr "downloading") /\
    d !! "total_bytes" = Some (PInt 1000) /\
    d !! "downloaded_bytes" = Some (PInt 1000) /\
    d !! "_percent_str" = Some (PStr "100.0%") /\
    d !! "_eta_str" = Some (PStr "N/A").
Proof.
  pose proof (image_progress_computation two_chunk_world "https://example.com/x.jpg"
                "/tmp/out" app_manager) as H.
  cbv zeta in H. destruct H as (_ & Hthere & _).
  apply (Hthere
           [HttpGet "https://example.com/x.jpg" true 10; OpenWb "/tmp/out/x.jpg";
            FileWrite "/tmp/out/x.jpg" (chunk_of 500);
            Callback Progress on_progress (PDict (image_progress 1000 500 "50.0%"))]
           _ "/tmp/out/x.jpg" (chunk_of 500) on_progress
           (ok_response "https://example.com/x.jpg" (Some "1000")
              [chunk_of 500; chunk_of 500])
           1000 "100.0%"); reflexivity.
Defined.

(** ** Order of the progress events *)

Lemma image_progress_count (total dl : Z) (pct : string) (f : callable) :
  downloaded_bytes (Callback Progress f (PDict (image_progress total dl pct))) = Some dl.
Proof. reflexivity. Qed.

Lemma progress_events_app (a b : list action) :
  progress_events (a ++ b) = progress_events a ++ progress_events b.
Proof. unfold progress_events. apply List.filter_app. Qed.

Lemma progress_events_none (acts : list action) :
  Forall (fun a => is_progress a = false) acts -> progress_events acts = [].
Proof.
  induction 1 as [|a acts Ha _ IH]; [reflexivity|].
  unfold progress_events in *. cbn. rewrite Ha. exact IH.
Qed.

Lemma progress_ok_counts (cb : option callable) (total : Z) (acts : list action) :
  forall dl,
    progress_ok cb total dl acts ->
    map downloaded_bytes (progress_events acts) = map Some (progress_counts acts) /\
    Forall (fun n => dl <= n) (progress_counts acts) /\
    StronglySorted Z.le (progress_counts acts).
Proof.
  unfold progress_counts, progress_events.
  induction acts as [|a acts IH]; intros dl Hp.
  - cbn. repeat split; constructor.
  - destruct a as [[] f arg| | | | | | |]; cbn [progress_ok] in Hp;
      cbn [List.filter is_progress]; try (apply (IH dl Hp)).
    + destruct Hp as [[_ (pct & _ & ->)] Hp].
      destruct (IH dl Hp) as (Hm & Hge & Hs).
      cbn [omap list_omap map]. rewrite image_progress_count. cbn [map].
      split; [f_equal; exact Hm|].
      split; [constructor; [lia|exact Hge]|].
      constructor; [exact Hs|exact Hge].
    + destruct (IH _ Hp) as (Hm & Hge & Hs).
      split; [exact Hm|]. split; [|exact Hs].
      eapply Forall_impl; [exact Hge|]. intros n Hn. unfold len in Hn. cbn beta. lia.
Qed.

Lemma quiet_no_progress (acts : list action) :
  Forall quiet acts -> progress_events acts = [].
Proof.
  intros H. apply progress_events_none.
  eapply Forall_impl; [exact H|].
  intros a. destruct a as [[] f arg| | | | | | |]; cbn; tauto.
Qed.

Lemma notify_not_progress (r : role) (cb : option callable) (arg : pyval) :
  r <> Progress -> progress_events (notify r cb arg) = [].
Proof. intros Hr. destruct cb, r; cbn; congruence. Qed.

Lemma hook_events_progress (self : DownloadManager) (ds : list (gmap string pyval)) :
  progress_events (hook_events self ds) = hook_events self ds.
Proof.
  unfold hook_events. destruct (progress_callback self); [|reflexivity].
  induction ds as [|d ds IH]; [reflexivity|].
  unfold progress_events in *. cbn. rewrite IH. reflexivity.
Qed.

Lemma progress_events_of_events (l : list action) :
  progress_events (events l) = progress_events l.
Proof.
  unfold progress_events, events.
  induction l as [|a l IH]; [reflexivity|].
  destruct a as [[] f arg| | | | | | |]; cbn; rewrite ?IH; reflexivity.
Qed.

(** C8, as stated, fails, in two ways.  A video request is accepted and
    the progress events delivered for it carry 100 bytes and then 50,
    because the dictionaries of the engine are handed on as they come.  And
    with a completion callback that raises, an image request delivers an
    error event after its completion event. *)
Lemma progress_ordering_counterexample :
  let boom := MkExn (OtherException "RuntimeError") "boom" in
  let picky := __init__ None (Some (Some (raising "done" boom))) (Some (Some on_error)) in
  (download_content restarting_world "https://example.com/watch" "video" "/tmp/out"
     app_manager
   = (Ok tt, with_downloading true app_manager,
      [SetDownloading true;
       ThreadStart "https://example.com/watch" "video" "/tmp/out" true]) /\
   ~ StronglySorted Z.le
       (progress_counts
          (actions (_run_download_task restarting_world "https://example.com/watch"
                      "video" "/tmp/out" (with_downloading true app_manager))))) /\
  exists pre post,
    actions (_run_download_task two_chunk_world "https://example.com/x.jpg" "image"
               "/tmp/out" (with_downloading true picky))
    = pre ++ Callback Completion (raising "done" boom) (PStr "/tmp/out/x.jpg") :: post /\
    events post
    = [Callback Error on_error
         (PStr "Error downloading image from https://example.com/x.jpg: boom")].
Proof.
  split.
  - split; [reflexivity|].
    change (progress_counts _) with [100; 50].
    intros H. inversion H as [|? ? _ Hall]; subst.
    inversion Hall as [|? ? Hle _]; subst. lia.
  - exists [HttpGet "https://example.com/x.jpg" true 10; OpenWb "/tmp/out/x.jpg";
            FileWrite "/tmp/out/x.jpg" (chunk_of 500);
            FileWrite "/tmp/out/x.jpg" (chunk_of 500);
            FileClose "/tmp/out/x.jpg"],
      [Callback Error on_error
         (PStr "Error downloading image from https://example.com/x.jpg: boom");
       SetDownloading false].
    split; reflexivity.
Qed.

(** C8, amended (progress ordering): for an image request every progress
    event carries a byte count, the counts are non-negative and
    non-decreasing; for a video or audio request the progress events are the
    dictionaries of the engine in the engine's order, unchanged; for every
    request no progress event follows an outcome event, and no event at all
    follows it except the error event after a completion callback that
    raised. *)
Theorem progress_ordering (w : world) (url download_type output_dir : string)
    (self : DownloadManager) :
  let acts := actions (_run_download_task w url download_type output_dir self) in
  (download_type = "image" ->
   map downloaded_bytes (progress_events acts) = map Some (progress_counts acts) /\
   Forall (fun n => 0 <= n) (progress_counts acts) /\
   StronglySorted Z.le (progress_counts acts)) /\
  (download_type = "video" \/ download_type = "audio" ->
   progress_events acts
   = hook_events self
       (hook_calls (progress_callback self)
          (youtube_dl w (make_ydl_opts output_dir download_type) url))) /\
  (forall pre o post,
     acts = pre ++ o :: post -> is_outcome o = true ->
     progress_events post = [] /\
     (events post = [] \/
      exists g arg arg' e,
        o = Callback Completion g arg /\ answer g arg = Some e /\
        events post = notify Error (error_callback self) arg')).
Proof.
  intros acts. subst acts. split; [|split].
  - intros ->. unfold _run_download_task.
    change (String.eqb "image" "video" || String.eqb "image" "audio") with false.
    change (String.eqb "image" "image") with true. cbv iota.
    destruct (download_image_run w url output_dir self)
      as (r & pre & tail & _ & (Hio & Htail & _ & Hprog) & ->).
    cbn [actions snd].
    assert (Htailp : progress_events (image_outcome self url r tail ++ [SetDownloading false])
                     = []).
    { rewrite progress_events_app. cbn [app].
      change (progress_events [SetDownloading false]) with (@nil action).
      rewrite app_nil_r. unfold image_outcome, image_report.
      rewrite progress_events_app.
      replace (progress_events tail) with (@nil action).
      2:{ destruct Htail as [[-> _] | (p & _ & -> & _)]; [reflexivity|].
          symmetry. apply notify_not_progress. discriminate. }
      destruct r; [reflexivity|]. apply notify_not_progress. discriminate. }
    unfold progress_counts. rewrite progress_events_app, Htailp, app_nil_r.
    destruct Hprog as [[Hq _] | (resp & total & _ & _ & Hp & _)].
    + rewrite (quiet_no_progress pre Hq). cbn. repeat split; constructor.
    + apply (progress_ok_counts _ _ _ _ Hp).
  - intros Hkind. unfold _run_download_task.
    replace (String.eqb download_type "video" || String.eqb download_type "audio")
      with true by (destruct Hkind as [-> | ->]; reflexivity).
    rewrite download_video_audio_run. cbn [actions snd app].
    change (progress_events (?a :: ?l)) with (progress_events l).
    rewrite !progress_events_app. rewrite hook_events_progress.
    change (progress_events [SetDownloading false]) with (@nil action).
    rewrite app_nil_r. unfold video_outcome. rewrite progress_events_app.
    replace (progress_events
               match engine_exn (progress_callback self) _ with
               | Some _ => []
               | None => _
               end) with (@nil action)
      by (destruct (engine_exn _ _); [reflexivity|];
          symmetry; apply notify_not_progress; discriminate).
    replace (progress_events
               match video_try_fault self url output_dir _ with
               | Some e => _
               | None => []
               end) with (@nil action)
      by (destruct (video_try_fault _ _ _ _); [|reflexivity];
          symmetry; apply notify_not_progress; discriminate).
    rewrite !app_nil_r. reflexivity.
  - intros pre o post Heq Ho.
    pose proof (after_outcome w url download_type output_dir self pre o post Heq Ho)
      as Hafter.
    split; [|exact Hafter].
    rewrite <- progress_events_of_events.
    destruct Hafter as [-> | (g & arg & arg' & e & _ & _ & ->)]; [reflexivity|].
    apply notify_not_progress. discriminate.
Qed.

Lemma progress_ordering_witness :
  StronglySorted Z.le
    (progress_counts
       (actions (_run_download_task two_chunk_world "https://example.com/x.jpg"
                   "image" "/tmp/out" app_manager))).
Proof.
  pose proof (progress_ordering two_chunk_world "https://example.com/x.jpg" "image"
                "/tmp/out" app_manager) as H.
  cbv zeta in H. destruct H as (Himg & _ & _).
  apply (Himg eq_refl).
Defined.

(** ** The scheduler: what a step does to another request *)

Lemma actions_of_app (id : nat) (h1 h2 : list (nat * action)) :
  actions_of id (h1 ++ h2) = actions_of id h1 ++ actions_of id h2.
Proof. unfold actions_of. rewrite List.filter_app, map_app. reflexivity. Qed.

Lemma actions_of_other (id sub : nat) (acts : list action) :
  id <> sub -> actions_of id (map (pair sub) acts) = [].
Proof.
  intros Hne. unfold actions_of.
  induction acts as [|a acts IH]; [reflexivity|].
  cbn. destruct (Nat.eqb_spec sub id); [congruence|exact IH].
Qed.

Lemma actions_of_same (id : nat) (acts : list action) :
  actions_of id (map (pair id) acts) = acts.
Proof.
  unfold actions_of.
  induction acts as [|a acts IH]; [reflexivity|].
  cbn. rewrite Nat.eqb_refl. cbn. rewrite IH. reflexivity.
Qed.

Lemma spawn_lookup_ne (w : world) (self : DownloadManager) (sub id : nat)
    (acts : list action) :
  id <> sub ->
  forall ts : gmap nat thread, spawn w self sub acts ts !! id = ts !! id.
Proof.
  intros Hne. induction acts as [|a acts IH]; intros ts; [reflexivity|].
  destruct a; cbn [spawn]; rewrite ?IH; try reflexivity.
  apply lookup_insert_ne. congruence.
Qed.

Lemma spawn_no_thread_start (w : world) (self : DownloadManager) (sub : nat)
    (acts : list action) (ts : gmap nat thread) :
  Forall (fun a => forall u t d b, a <> ThreadStart u t d b) acts ->
  spawn w self sub acts ts = ts.
Proof.
  induction 1 as [|a acts Ha _ IH]; [reflexivity|].
  destruct a; cbn [spawn]; try exact IH.
  exfalso. eapply Ha. reflexivity.
Qed.

Lemma submitted_step (l : label) (s : system) :
  (submitted s <= submitted (sys_step l s))%nat.
Proof.
  destruct l as [w url ty dir | tid]; cbn [sys_step].
  - destruct (download_content w url ty dir (manager s)) as [[r self] acts]. cbn. lia.
  - destruct (threads s !! tid) as [[[|a rest] f]|]; cbn; lia.
Qed.

(** A step that is neither an action of request [id] nor the submission
    that creates it leaves the view of [id] as it is. *)
Lemma step_view_other (id : nat) (l : label) (s : system) :
  (id < submitted s)%nat ->
  l <> Work id ->
  view id (sys_step l s) = view id s.
Proof.
  intros Hlt Hl. unfold view.
  destruct l as [w url ty dir | tid]; cbn [sys_step].
  - destruct (download_content w url ty dir (manager s)) as [[r self] acts].
    cbn [history threads].
    rewrite actions_of_app, actions_of_other, app_nil_r by lia.
    rewrite spawn_lookup_ne by lia. reflexivity.
  - assert (Hne : tid <> id) by congruence.
    destruct (threads s !! tid) as [[[|a rest] f]|]; try reflexivity.
    cbn [history threads].
    change [(tid, a)] with (map (pair tid) [a]).
    rewrite actions_of_app. rewrite (actions_of_other id tid [a]) by congruence.
    rewrite app_nil_r. rewrite lookup_insert_ne by exact Hne. reflexivity.
Qed.

(** The next action of request [id] depends on its view only. *)
Lemma step_view_same (id : nat) (s1 s2 : system) :
  view id s1 = view id s2 ->
  view id (sys_step (Work id) s1) = view id (sys_step (Work id) s2).
Proof.
  unfold view. intros [= Hh Ht]. cbn [sys_step]. rewrite Ht.
  destruct (threads s2 !! id) as [[[|a rest] f]|] eqn:E;
    try (rewrite Hh, Ht, ?E; reflexivity).
  cbn [history threads].
  rewrite !actions_of_app, Hh. rewrite !lookup_insert_eq. reflexivity.
Qed.

Lemma run_view_eq (id : nat) (ls : list label) :
  forall s1 s2 : system,
    view id s1 = view id s2 ->
    (id < submitted s1)%nat -> (id < submitted s2)%nat ->
    view id (run_system ls s1) = view id (run_system ls s2).
Proof.
  unfold run_system.
  induction ls as [|l ls IH]; intros s1 s2 Hv H1 H2; [exact Hv|].
  cbn [fold_left]. apply IH.
  - destruct l as [w url ty dir | tid].
    + rewrite !step_view_other by (assumption || discriminate). exact Hv.
    + destruct (decide (tid = id)) as [-> | Hne].
      * apply step_view_same, Hv.
      * rewrite !step_view_other by (assumption || congruence). exact Hv.
  - pose proof (submitted_step l s1). lia.
  - pose proof (submitted_step l s2). lia.
Qed.

(** ** Rejection while busy *)

(** C1, as stated, fails: a submission made while a download is in
    progress does produce an event, the error callback is called with the
    rejection message. *)
Lemma busy_rejection_counterexample :
  is_downloading (with_downloading true app_manager) = true /\
  events (actions (download_content two_chunk_world "https://example.com/x.jpg"
                     "image" "/tmp/out" (with_downloading true app_manager)))
  = [Callback Error on_error (PStr "A download is already in progress. Please wait.")] /\
  events (actions (download_content two_chunk_world "https://example.com/x.jpg"
                     "image" "/tmp/out" (with_downloading true app_manager)))
  <> [].
Proof. split; [reflexivity|]. split; [reflexivity|discriminate]. Qed.

(** C1, amended (single-flight rejection): a call of [download_content]
    made while [is_downloading] is true returns at once, starts no thread
    and leaves the manager as it is; it produces no progress and no
    completion event; its only event is one call of the error callback with
    the rejection message when an error callback is registered, none
    otherwise, and what that call raises, if anything, goes to the caller;
    and in every continuation of the program each request already submitted
    performs the same actions, outcome included, as it would have without
    the rejected call. *)
Theorem busy_rejection (s : system) (w : world) (url download_type output_dir : string) :
  is_downloading (manager s) = true ->
  let rejected := download_content w url download_type output_dir (manager s) in
  let s' := sys_step (Submit w url download_type output_dir) s in
  outcome_of rejected
  = fault_result
      (call_fault (error_callback (manager s))
         (PStr "A download is already in progress. Please wait.")) /\
  manager_after rejected = manager s /\
  actions rejected
  = notify Error (error_callback (manager s))
      (PStr "A download is already in progress. Please wait.") /\
  progress_events (actions rejected) = [] /\
  (forall f arg, ~ In (Callback Completion f arg) (actions rejected)) /\
  (forall u t d b, ~ In (ThreadStart u t d b) (actions rejected)) /\
  manager s' = manager s /\
  threads s' = threads s /\
  history s' = history s ++ map (pair (submitted s)) (actions rejected) /\
  forall (ls : list label) (id : nat),
    (id < submitted s)%nat ->
    view id (run_system ls s') = view id (run_system ls s).
Proof.
  intros Hbusy rejected s'.
  assert (Hrun : rejected
                 = (fault_result
                      (call_fault (error_callback (manager s))
                         (PStr "A download is already in progress. Please wait.")),
                    manager s,
                    notify Error (error_callback (manager s))
                      (PStr "A download is already in progress. Please wait."))).
  { subst rejected. rewrite download_content_run, Hbusy. reflexivity. }
  assert (Hs' : s' = {| manager := manager s;
                        threads := threads s;
                        history := history s ++ map (pair (submitted s)) (actions rejected);
                        submitted := S (submitted s) |}).
  { subst s'. cbn [sys_step]. fold rejected. rewrite Hrun. cbn [actions snd].
    f_equal. apply spawn_no_thread_start.
    unfold notify. destruct (error_callback (manager s)); repeat constructor; discriminate. }
  rewrite Hrun. cbn [outcome_of manager_after actions fst snd].
  split; [reflexivity|]. split; [reflexivity|]. split; [reflexivity|].
  split; [apply notify_not_progress; discriminate|].
  split.
  { intros f arg. unfold notify. destruct (error_callback (manager s)); cbn;
      [intros [H | []]; discriminate | tauto]. }
  split.
  { intros u t d b. unfold notify. destruct (error_callback (manager s)); cbn;
      [intros [H | []]; discriminate | tauto]. }
  rewrite Hs'. cbn [manager threads history].
  split; [reflexivity|]. split; [reflexivity|].
  split; [rewrite Hrun; reflexivity|].
  intros ls id Hid. apply run_view_eq; cbn [submitted]; try lia.
  unfold view. cbn [history threads].
  rewrite actions_of_app, actions_of_other, app_nil_r by lia. reflexivity.
Qed.

Lemma busy_rejection_witness :
  let s := sys_step (Submit two_chunk_world "https://example.com/x.jpg" "image" "/tmp/out")
             (boot app_manager) in
  let s' := sys_step (Submit two_chunk_world "https://example.com/y.jpg" "image" "/tmp/out")
              s in
  threads s' = threads s /\
  view 0 (run_system (repeat (Work 0) 9) s') = view 0 (run_system (repeat (Work 0) 9) s).
Proof.
  intros s s'.
  pose proof (busy_rejection s two_chunk_world "https://example.com/y.jpg" "image"
                "/tmp/out" eq_refl) as H.
  cbv zeta in H. destruct H as (_ & _ & _ & _ & _ & _ & _ & Hth & _ & Hview).
  split; [exact Hth|]. apply Hview. cbn. lia.
Defined.

(** ** Validation at submission *)

(** C2, as stated, fails: with an idle manager and an existing directory a
    request of the unknown kind [gif], and a request with an empty URL, are
    both accepted: the busy flag is set and a thread is started. *)
Lemma synchronous_validation_counterexample :
  let unknown_kind :=
    download_content two_chunk_world "https://example.com/x.gif" "gif" "/tmp/out"
      app_manager in
  let bad_url := download_content two_chunk_world "" "image" "/tmp/out" app_manager in
  is_downloading app_manager = false /\
  is_downloading (manager_after unknown_kind) = true /\
  In (ThreadStart "https://example.com/x.gif" "gif" "/tmp/out" true)
    (actions unknown_kind) /\
  is_downloading (manager_after bad_url) = true /\
  In (ThreadStart "" "image" "/tmp/out" true) (actions bad_url).
Proof. cbn. tauto. Qed.

(** C2, amended (validation at submission): the only local validation of
    [download_content] is the test of the destination directory.  With an
    idle manager, a request whose directory does not exist is rejected
    before any state change: the error callback, if any, gets the message
    (and what it raises, if anything, goes to the caller), no thread is
    started and the busy flag stays false.  When the directory exists the
    request is accepted whatever its URL and kind; a kind other than video,
    audio and image is reported by the worker, through the error callback,
    and the worker then resets the busy flag, unless the error callback
    raised: then the worker ends with that exception and the busy flag stays
    set. *)
Theorem validation_of_directory_only (s : system) (w : world)
    (url download_type output_dir : string) :
  is_downloading (manager s) = false ->
  let self := manager s in
  let s' := sys_step (Submit w url download_type output_dir) s in
  let missing := PStr ("Output directory does not exist: " +:+ output_dir) in
  let unknown := PStr ("Invalid download type: " +:+ download_type) in
  (isdir w output_dir = false ->
   download_content w url download_type output_dir self
   = (fault_result (call_fault (error_callback self) missing), self,
      notify Error (error_callback self) missing) /\
   manager s' = self /\ is_downloading (manager s') = false /\
   threads s' = threads s) /\
  (isdir w output_dir = true ->
   download_content w url download_type output_dir self
   = (Ok tt, with_downloading true self,
      [SetDownloading true; ThreadStart url download_type output_dir true]) /\
   is_downloading (manager s') = true /\
   threads s' !! submitted s
   = Some (start_thread w (with_downloading true self) url download_type output_dir)) /\
  (download_type <> "video" -> download_type <> "audio" -> download_type <> "image" ->
   _run_download_task w url download_type output_dir (with_downloading true self)
   = match call_fault (error_callback self) unknown with
     | None =>
         (Ok tt, with_downloading false self,
          notify Error (error_callback self) unknown ++ [SetDownloading false])
     | Some e =>
         (Raise e, with_downloading true self, notify Error (error_callback self) unknown)
     end).
Proof.
  intros Hidle self s' missing unknown. subst self missing unknown.
  pose proof (download_content_run w url download_type output_dir (manager s)) as Hrun.
  rewrite Hidle in Hrun. split; [|split].
  - intros Hdir. rewrite Hdir in Hrun. cbn [negb] in Hrun.
    split; [exact Hrun|]. subst s'. cbn [sys_step]. rewrite Hrun. cbn [manager threads].
    split; [reflexivity|]. split; [exact Hidle|].
    apply spawn_no_thread_start.
    unfold notify. destruct (error_callback (manager s)); repeat constructor; discriminate.
  - intros Hdir. rewrite Hdir in Hrun. cbn [negb] in Hrun.
    split; [exact Hrun|]. subst s'. cbn [sys_step]. rewrite Hrun. cbn [manager threads].
    split; [reflexivity|]. cbn [spawn]. apply lookup_insert_eq.
  - intros Hv Ha Hi. unfold _run_download_task.
    apply String.eqb_neq in Hv, Ha, Hi. rewrite Hv, Ha, Hi. cbn [orb].
    unfold bind, get_self. rewrite guarded_call_run.
    cbn [error_callback with_downloading].
    destruct (call_fault (error_callback (manager s))
                (PStr ("Invalid download type: " +:+ download_type))); reflexivity.
Qed.

Lemma validation_of_directory_only_witness :
  let s := boot app_manager in
  let s' := sys_step (Submit two_chunk_world "https://example.com/x.jpg" "image" "/nowhere")
              s in
  is_downloading (manager s') = false /\ threads s' = threads s.
Proof.
  intros s s'.
  pose proof (validation_of_directory_only s two_chunk_world "https://example.com/x.jpg"
                "image" "/nowhere" eq_refl) as H.
  cbv zeta in H. destruct H as (Hmissing & _ & _).
  destruct (Hmissing eq_refl) as (_ & _ & Hflag & Hth). auto.
Defined.

(** ** Threads replay the worker *)

(** Performing the actions of a worker run one by one has the effect on
    the manager that the run itself has. *)
Lemma worker_replay (w : world) (url download_type output_dir : string)
    (self : DownloadManager) :
  let run := _run_download_task w url download_type output_dir self in
  fold_left (fun m a => perform a m) (actions run) self = manager_after run.
Proof.
  intros run. subst run.
  destruct (run_download_task_shape w url download_type output_dir self)
    as (r & self' & acts & -> & _ & [[-> Hshape] | [-> (_ & f & e & _ & _ & _ & ->)]]);
    cbn [actions manager_after fst snd]; [|reflexivity].
  destruct (worker_shape_pending _ _ Hshape) as (pre & -> & Hpre).
  rewrite fold_left_app, (perform_all_keep_flag pre) by exact Hpre. reflexivity.
Qed.

(** The application's sequence: a submission, a second one while the first
    runs, the nine actions of the worker, a third submission.  The second
    is rejected, the third is accepted. *)
Example single_flight_run :
  let submit := Submit two_chunk_world "https://example.com/x.jpg" "image" "/tmp/out" in
  let s := run_system (submit :: submit :: repeat (Work 0) 9 ++ [submit]) (boot app_manager) in
  events (actions_of 1 (history s))
  = [Callback Error on_error (PStr "A download is already in progress. Please wait.")] /\
  events (actions_of 0 (history s))
  = [Callback Progress on_progress (PDict (image_progress 1000 500 "50.0%"));
     Callback Progress on_progress (PDict (image_progress 1000 1000 "100.0%"));
     Callback Completion on_complete (PStr "/tmp/out/x.jpg")] /\
  actions_of 2 (history s)
  = [SetDownloading true;
     ThreadStart "https://example.com/x.jpg" "image" "/tmp/out" true] /\
  is_downloading (manager s) = true.
Proof. vm_compute. repeat split. Qed.

(** ** Failures of the image adapter before a file is opened *)

Lemma int_of_str_error (s : string) (e : exn) :
  Py.int_of_str s = Raise e ->
  exn_cls e = ValueError /\
  (exn_str e
   = "invalid literal for int() with base 10: " +:+ Str.take 200 (Py.repr s) \/
   exists count,
     4300 < count /\
     exn_str e
     = "Exceeds the limit (4300 digits) for integer string conversion: value has "
         +:+ Str.of_Z count
         +:+ " digits; use sys.set_int_max_str_digits() to increase the limit").
Proof.
  unfold Py.int_of_str.
  destruct (match Str.lstrip Py.is_c_space s with
            | String "-" r => (true, r)
            | String "+" r => (false, r)
            | _ => (false, Str.lstrip Py.is_c_space s)
            end) as [negative t].
  destruct (Str.startswith "_" t); [intros [= <-]; split; [reflexivity|left; reflexivity]|].
  destruct (Py.scan_digits t 0 0 "000") as [[[z count] rest]|];
    [|intros [= <-]; split; [reflexivity|left; reflexivity]].
  destruct (count =? 0); [intros [= <-]; split; [reflexivity|left; reflexivity]|].
  destruct (Z.ltb_spec Py.max_str_digits count) as [Hlimit | _].
  { intros [= <-]. split; [reflexivity|]. right. exists count. split; [exact Hlimit|].
    reflexivity. }
  destruct (String.eqb _ ""); [discriminate|].
  intros [= <-]. split; [reflexivity|left; reflexivity].
Qed.

(** X1 (the request fails): when [requests.get] raises, the image adapter
    makes the request and nothing else on the network or on disk, and
    reports the exception once through the error callback: as a network
    error when its class derives from [RequestException] (a connection
    error, a timeout, a URL that [requests] rejects such as one without a
    scheme), as a plain error otherwise.  It resets the busy flag and
    returns, unless the error callback raised: then its exception leaves the
    adapter, after the reset. *)
Theorem request_failure_run (w : world) (url output_path : string)
    (self : DownloadManager) (e : exn) :
  requests_get w url = Raise e ->
  let report :=
    PStr ((if is_RequestException e
           then "Network error downloading image from "
           else "Error downloading image from ")
          +:+ url +:+ ": " +:+ exn_str e) in
  _download_image w url output_path self
  = (fault_result (call_fault (error_callback self) report),
     with_downloading false self,
     HttpGet url true 10 :: notify Error (error_callback self) report
       ++ [SetDownloading false]).
Proof.
  intros Hget report. subst report. rewrite download_image_value.
  unfold image_fault, image_actions, image_try_value, image_report, image_report_fault,
    image_error_message.
  rewrite Hget. cbn [fst].
  destruct (is_RequestException e); reflexivity.
Qed.

Lemma request_failure_run_witness :
  let missing_schema :=
    MkExn (OtherRequestException "MissingSchema")
      "Invalid URL '': No scheme supplied. Perhaps you meant https://?" in
  let w := {| isdir := fun _ => true;
              requests_get := fun _ => Raise missing_schema;
              youtube_dl := fun _ _ => silent_run;
              open_wb := fun _ => None;
              file_write := fun _ _ _ => None;
              file_close := fun _ => None |} in
  _download_image w "" "/tmp/out" (with_downloading true app_manager)
  = (Ok tt, app_manager,
     [HttpGet "" true 10;
      Callback Error on_error
        (PStr ("Network error downloading image from : "
                 +:+ "Invalid URL '': No scheme supplied. Perhaps you meant https://?"));
      SetDownloading false]).
Proof.
  intros missing_schema w.
  rewrite (request_failure_run w "" "/tmp/out" (with_downloading true app_manager)
             missing_schema eq_refl).
  reflexivity.
Defined.

(** X2 (an HTTP error status): when the server answers with a status from
    400 to 599, [raise_for_status] stops the adapter before any file is
    opened; the error callback gets the network-error message with the text
    of the HTTP error, and the busy flag is reset; the adapter returns what
    the error callback returns. *)
Theorem http_error_status_run (w : world) (url output_path : string)
    (self : DownloadManager) (resp : response) :
  requests_get w url = Ok resp ->
  400 <= status_code resp < 600 ->
  let kind := if status_code resp <? 500 then "Client" else "Server" in
  let report :=
    PStr ("Network error downloading image from " +:+ url +:+ ": "
            +:+ Str.of_Z (status_code resp) +:+ " " +:+ kind +:+ " Error: "
            +:+ reason resp +:+ " for url: " +:+ resp_url resp) in
  _download_image w url output_path self
  = (fault_result (call_fault (error_callback self) report),
     with_downloading false self,
     HttpGet url true 10 :: notify Error (error_callback self) report
       ++ [SetDownloading false]).
Proof.
  intros Hget Hstatus kind report. subst kind report. rewrite download_image_value.
  unfold image_fault, image_actions, image_try_value, image_report, image_report_fault,
    image_error_message, status_error.
  rewrite Hget.
  destruct (Z.ltb_spec (status_code resp) 500) as [Hlt | Hge].
  - replace (400 <=? status_code resp) with true by (symmetry; apply Z.leb_le; lia).
    reflexivity.
  - replace (400 <=? status_code resp) with true by (symmetry; apply Z.leb_le; lia).
    replace (500 <=? status_code resp) with true by (symmetry; apply Z.leb_le; lia).
    replace (status_code resp <? 600) with true by (symmetry; apply Z.ltb_lt; lia).
    reflexivity.
Qed.

Lemma http_error_status_run_witness :
  let resp := {| status_code := 404; reason := "Not Found";
                 resp_url := "https://example.com/x.jpg";
                 content_length := None; body := []; body_end := None |} in
  actions (_download_image (sample_world resp silent_run) "https://example.com/x.jpg"
             "/tmp/out" app_manager)
  = [HttpGet "https://example.com/x.jpg" true 10;
     Callback Error on_error
       (PStr ("Network error downloading image from https://example.com/x.jpg: "
                +:+ "404 Client Error: Not Found for url: https://example.com/x.jpg"));
     SetDownloading false].
Proof.
  intros resp.
  rewrite (http_error_status_run (sample_world resp silent_run)
             "https://example.com/x.jpg" "/tmp/out" app_manager resp eq_refl);
    [reflexivity | cbn; lia].
Defined.

(** X3 (a length header that is not a number): when the status is good and
    the URL parses but [int] rejects the [content-length] header, the adapter
    stops before any file is opened and reports a plain error (not a network
    error) with the text of the [ValueError]: the invalid-literal message,
    which shows the header as [repr] prints it, cut after 200 characters, or
    the message about more than 4300 digits; the busy flag is reset. *)
Theorem bad_content_length_run (w : world) (url output_path : string)
    (self : DownloadManager) (resp : response) (p header : string) (e : exn) :
  requests_get w url = Ok resp ->
  status_code resp < 400 \/ 600 <= status_code resp ->
  Url.urlparse_path url = Ok p ->
  content_length resp = Some header ->
  Py.int_of_str header = Raise e ->
  let report := PStr ("Error downloading image from " +:+ url +:+ ": " +:+ exn_str e) in
  _download_image w url output_path self
  = (fault_result (call_fault (error_callback self) report),
     with_downloading false self,
     HttpGet url true 10 :: notify Error (error_callback self) report
       ++ [SetDownloading false]) /\
  exn_cls e = ValueError /\
  (exn_str e
   = "invalid literal for int() with base 10: " +:+ Str.take 200 (Py.repr header) \/
   exists count,
     4300 < count /\
     exn_str e
     = "Exceeds the limit (4300 digits) for integer string conversion: value has "
         +:+ Str.of_Z count
         +:+ " digits; use sys.set_int_max_str_digits() to increase the limit").
Proof.
  intros Hget Hstatus Hp Hheader Hint report. subst report.
  destruct (int_of_str_error header e Hint) as [Hcls Hstr].
  split; [|split; [exact Hcls|exact Hstr]].
  rewrite download_image_value.
  unfold image_fault, image_actions, image_try_value, image_report, image_report_fault,
    image_error_message, content_length_int.
  rewrite Hget, (status_error_good resp Hstatus), Hp, Hheader, Hint.
  unfold is_RequestException. cbn [fst]. rewrite Hcls. reflexivity.
Qed.

Lemma bad_content_length_run_witness :
  actions (_download_image
             (sample_world (ok_response "https://example.com/x.jpg" (Some "12a") [])
                silent_run)
             "https://example.com/x.jpg" "/tmp/out" app_manager)
  = [HttpGet "https://example.com/x.jpg" true 10;
     Callback Error on_error
       (PStr ("Error downloading image from https://example.com/x.jpg: "
                +:+ "invalid literal for int() with base 10: '12a'"));
     SetDownloading false].
Proof.
  destruct (bad_content_length_run
              (sample_world (ok_response "https://example.com/x.jpg" (Some "12a") [])
                 silent_run)
              "https://example.com/x.jpg" "/tmp/out" app_manager
              (ok_response "https://example.com/x.jpg" (Some "12a") [])
              "/x.jpg" "12a"
              (MkExn ValueError "invalid literal for int() with base 10: '12a'"))
    as (Hrun & _); [reflexivity | left; cbn; lia | reflexivity | reflexivity
                   | reflexivity |].
  rewrite Hrun. reflexivity.
Defined.

(** ** Files and the body of the response *)

Lemma notify_no_file_op (r : role) (cb : option callable) (arg : pyval) :
  Forall no_file_op (notify r cb arg).
Proof. destruct cb; repeat constructor. Qed.

Lemma report_no_file_op (self : DownloadManager) (url : string) (r : result unit) :
  Forall no_file_op (image_report self url r ++ [SetDownloading false]).
Proof.
  apply Forall_app. split; [|repeat constructor].
  destruct r; [constructor|apply notify_no_file_op].
Qed.

(** X4 (every opened file is closed): the image adapter either touches no
    file at all, or opens one file right after the request.  When the
    opening fails nothing else is done to a file.  When it succeeds, only
    writes of non-empty chunks to that file and progress calls follow until
    the file is closed, and it is closed once, with no file operation after
    that; this holds also when a write, a progress callback or the stream
    raises. *)
Theorem file_closed_after_open (w : world) (url output_path : string)
    (self : DownloadManager) :
  let acts := actions (_download_image w url output_path self) in
  Forall no_file_op acts \/
  exists path rest,
    acts = HttpGet url true 10 :: OpenWb path :: rest /\
    match open_wb w path with
    | Some _ => Forall no_file_op rest
    | None =>
        exists writes tail,
          rest = writes ++ FileClose path :: tail /\
          Forall (loop_action path) writes /\
          Forall no_file_op tail
    end.
Proof.
  intros acts. subst acts. rewrite download_image_value. cbn [actions snd].
  unfold image_actions, image_try_value.
  assert (Hearly : forall r : result unit,
            Forall no_file_op
              ([HttpGet url true 10] ++ image_report self url r ++ [SetDownloading false])).
  { intros r. apply Forall_app. split; [repeat constructor|apply report_no_file_op]. }
  destruct (requests_get w url) as [resp|e]; [|left; apply Hearly].
  destruct (status_error resp) as [e|]; [left; apply Hearly|].
  destruct (Url.urlparse_path url) as [p|e]; [|left; apply Hearly].
  destruct (content_length_int resp) as [total|e]; [|left; apply Hearly].
  right. exists (Path.join output_path (image_filename p)).
  set (path := Path.join output_path (image_filename p)).
  destruct (open_wb w path) as [e|] eqn:Hopen.
  - eexists. split; [reflexivity|]. apply report_no_file_op.
  - pose proof (loop_run_facts w (progress_callback self) path total (body_end resp)
                  (body resp) 0) as [Hl _].
    destruct (loop_run w (progress_callback self) path total (body resp)
                (body_end resp) 0) as [rl la].
    cbn [snd] in Hl.
    assert (Hshape : forall tail : list action,
              Forall no_file_op tail ->
              exists rest,
                (HttpGet url true 10 :: OpenWb path :: la ++ [FileClose path]) ++ tail
                = HttpGet url true 10 :: OpenWb path :: rest /\
                exists writes tail',
                  rest = writes ++ FileClose path :: tail' /\
                  Forall (loop_action path) writes /\ Forall no_file_op tail').
    { intros tail Htail. exists ((la ++ [FileClose path]) ++ tail).
      split; [reflexivity|].
      exists la, tail. split; [rewrite <- app_assoc; reflexivity|]. auto. }
    destruct (file_close w path) as [e|]; [apply Hshape, report_no_file_op|].
    destruct rl as [z|e]; [|apply Hshape, report_no_file_op].
    rewrite <- app_assoc. apply Hshape.
    apply Forall_app. split; [apply notify_no_file_op|apply report_no_file_op].
Qed.

(** The image download of the script at the end of downloader_core.py,
    had it been run: the progress callback [test_progress] raises [KeyError]
    on the first dictionary, the file is closed, and the download ends as an
    error after one chunk. *)
Example test_script_image_run :
  _download_image two_chunk_world "https://example.com/x.jpg" "/tmp/out"
    (with_downloading true test_manager)
  = (Ok tt, test_manager,
     [HttpGet "https://example.com/x.jpg" true 10;
      OpenWb "/tmp/out/x.jpg";
      FileWrite "/tmp/out/x.jpg" (chunk_of 500);
      Callback Progress test_progress (PDict (image_progress 1000 500 "50.0%"));
      FileClose "/tmp/out/x.jpg";
      Callback Error test_error
        (PStr "Error downloading image from https://example.com/x.jpg: '_total_bytes_str'");
      SetDownloading false]).
Proof. reflexivity. Qed.

(** X5 (completion means the whole body is on disk): when the image adapter
    calls the completion callback, the request and the status check
    succeeded, the stream ended without an exception, the file was opened and
    closed without an error, the chunks written between the two are, in
    order, all the non-empty chunks of the body, and the completion call,
    with the path of the file, comes after the file is closed.  It is
    followed by the reset of the busy flag only, when the completion callback
    returns; when it raises, the error callback is called in between, with
    the error message of the adapter for that exception. *)
Theorem completion_means_whole_body (w : world) (url output_path : string)
    (self : DownloadManager) (f : callable) (arg : pyval) :
  In (Callback Completion f arg) (actions (_download_image w url output_path self)) ->
  exists resp p writes,
    requests_get w url = Ok resp /\
    Url.urlparse_path url = Ok p /\
    let path := Path.join output_path (image_filename p) in
    body_end resp = None /\
    open_wb w path = None /\
    file_close w path = None /\
    completion_callback self = Some f /\
    actions (_download_image w url output_path self)
    = HttpGet url true 10 :: OpenWb path :: writes
        ++ [FileClose path; Callback Completion f (PStr path)]
        ++ match answer f (PStr path) with
           | None => []
           | Some e =>
               notify Error (error_callback self) (PStr (image_error_message url e))
           end
        ++ [SetDownloading false] /\
    Forall (loop_action path) writes /\
    chunks_written writes = List.filter nonempty (body resp).
Proof.
  rewrite download_image_value. cbn [actions snd]. intros Hin.
  destruct (image_completion_inversion w url output_path self f arg Hin)
    as (resp & p & total & la & z & Hget & _ & Hp & _ & Hrest).
  cbv zeta in Hrest. destruct Hrest as (Hopen & Hclose & Hloop & Hf & _ & Hacts).
  pose proof (loop_run_facts w (progress_callback self)
                (Path.join output_path (image_filename p)) total (body_end resp)
                (body resp) 0) as [Hl Hfin].
  rewrite Hloop in Hl, Hfin. cbn [fst snd] in Hl, Hfin.
  destruct (Hfin z eq_refl) as [Hw Hend].
  exists resp, p, la. repeat split; auto.
  rewrite Hacts. unfold image_report.
  destruct (answer f _) as [e|]; reflexivity.
Qed.

Lemma completion_means_whole_body_witness :
  exists resp p writes,
    requests_get two_chunk_world "https://example.com/x.jpg" = Ok resp /\
    Url.urlparse_path "https://example.com/x.jpg" = Ok p /\
    let path := Path.join "/tmp/out" (image_filename p) in
    body_end resp = None /\
    open_wb two_chunk_world path = None /\
    file_close two_chunk_world path = None /\
    completion_callback app_manager = Some on_complete /\
    actions (_download_image two_chunk_world "https://example.com/x.jpg" "/tmp/out"
               app_manager)
    = HttpGet "https://example.com/x.jpg" true 10 :: OpenWb path :: writes
        ++ [FileClose path; Callback Completion on_complete (PStr path)]
        ++ match answer on_complete (PStr path) with
           | None => []
           | Some e =>
               notify Error (error_callback app_manager)
                 (PStr (image_error_message "https://example.com/x.jpg" e))
           end
        ++ [SetDownloading false] /\
    Forall (loop_action path) writes /\
    chunks_written writes = List.filter nonempty (body resp).
Proof.
  apply (completion_means_whole_body two_chunk_world "https://example.com/x.jpg"
           "/tmp/out" app_manager on_complete (PStr "/tmp/out/x.jpg")).
  vm_compute. tauto.
Defined.

(** X6 (empty chunks are skipped): a body that yields empty chunks gives
    exactly the run that the same body without them gives: the same result,
    the same manager and the same actions. *)
Theorem empty_chunks_skipped (w : world) (url output_path : string)
    (self : DownloadManager) :
  _download_image (drop_empty_chunks w) url output_path self
  = _download_image w url output_path self.
Proof.
  rewrite !download_image_value.
  assert (Hv : forall pcb ccb,
            image_try_value (drop_empty_chunks w) pcb ccb url output_path
            = image_try_value w pcb ccb url output_path).
  { intros pcb ccb. unfold image_try_value, drop_empty_chunks.
    cbn [requests_get open_wb file_close].
    destruct (requests_get w url) as [resp|e]; [|reflexivity].
    unfold status_error, content_length_int.
    cbn [status_code reason resp_url content_length body body_end].
    fold (status_error resp). destruct (status_error resp); [reflexivity|].
    destruct (Url.urlparse_path url) as [p|e]; [|reflexivity].
    fold (content_length_int resp).
    destruct (content_length_int resp) as [total|e]; [|reflexivity].
    destruct (open_wb w (Path.join output_path (image_filename p))); [reflexivity|].
    rewrite (loop_run_world _ w) by reflexivity.
    rewrite loop_run_filter. reflexivity. }
  unfold image_fault, image_actions. rewrite Hv. reflexivity.
Qed.

(** ** The worker does not read the busy flag *)

(** X7 (the worker does not depend on the busy flag): the worker body gives
    the same result and the same actions whatever the value of
    [is_downloading] when it starts.  It also leaves the same manager, the
    one with the flag reset, for a kind it knows and for an unknown kind
    reported to an error callback that returns or is [None]; when that
    report raises, the worker leaves the manager as it found it. *)
Theorem worker_ignores_busy_flag (w : world) (url download_type output_dir : string)
    (self : DownloadManager) (b : bool) :
  let run := _run_download_task w url download_type output_dir in
  let unknown := PStr ("Invalid download type: " +:+ download_type) in
  outcome_of (run (with_downloading b self)) = outcome_of (run self) /\
  actions (run (with_downloading b self)) = actions (run self) /\
  (known_kind download_type = true \/ call_fault (error_callback self) unknown = None ->
   run (with_downloading b self) = run self) /\
  (known_kind download_type = false ->
   call_fault (error_callback self) unknown <> None ->
   manager_after (run (with_downloading b self)) = with_downloading b self).
Proof.
  intros run unknown. subst run unknown.
  unfold _run_download_task, known_kind.
  destruct (String.eqb download_type "video" || String.eqb download_type "audio").
  { rewrite !download_video_audio_run. repeat split. discriminate. }
  destruct (String.eqb download_type "image").
  { rewrite !download_image_value. repeat split. discriminate. }
  unfold bind, get_self. rewrite !guarded_call_run.
  cbn [error_callback with_downloading orb].
  destruct (call_fault (error_callback self)
              (PStr ("Invalid download type: " +:+ download_type))) as [e|];
    cbn [fault_result]; repeat split; try reflexivity.
  - intros [Hk | He]; discriminate.
  - intros _ Hnone. destruct (Hnone eq_refl).
Qed.

(** ** At most one download at a time *)

Lemma notify_no_thread_start (r : role) (cb : option callable) (arg : pyval) :
  Forall (fun a => forall u t d b, a <> ThreadStart u t d b) (notify r cb arg).
Proof. destruct cb; repeat constructor; discriminate. Qed.

Lemma single_flight_ext (s1 s2 : system) :
  manager s1 = manager s2 -> threads s1 = threads s2 ->
  (idle s1 -> idle s2) /\ (busy s1 -> busy s2) /\ (stuck s1 -> stuck s2).
Proof. unfold idle, busy, stuck, only_active. intros -> ->. auto. Qed.

Lemma only_active_insert (id : nat) (t : thread) (s s' : system) :
  threads s' = <[id := t]> (threads s) ->
  (forall id' t', id' <> id -> threads s !! id' = Some t' -> pending t' = []) ->
  only_active id s'.
Proof.
  intros Hth Hothers id' t' Hne Ht'. rewrite Hth in Ht'.
  rewrite lookup_insert_ne in Ht' by congruence. eapply Hothers; eauto.
Qed.

(** What a step does to the state of the scheduler. *)
Lemma sys_step_cases (l : label) (s : system) :
  (idle s ->
   idle (sys_step l s) \/ busy (sys_step l s) \/
   (stuck (sys_step l s) /\ ~ resetting (error_callback (manager s)) l)) /\
  (busy s -> idle (sys_step l s) \/ busy (sys_step l s)) /\
  (stuck s -> stuck (sys_step l s)).
Proof.
  destruct l as [w url ty dir | tid]; cbn [sys_step].
  - rewrite download_content_run.
    destruct (is_downloading (manager s)) eqn:Hbusy.
    { cbn [manager threads]. rewrite spawn_no_thread_start by apply notify_no_thread_start.
      split; [|split].
      - intros [Hidle _]. congruence.
      - intros Hb. right. exact Hb.
      - intros Hs. exact Hs. }
    destruct (negb (isdir w dir)).
    { cbn [manager threads]. rewrite spawn_no_thread_start by apply notify_no_thread_start.
      split; [|split].
      - intros Hi. left. exact Hi.
      - intros [Hb _]. congruence.
      - intros [Hb _]. congruence. }
    split; [|split; intros [Hb _]; congruence].
    intros [_ Hquiet].
    cbn [spawn]. unfold start_thread.
    destruct (run_download_task_shape w url ty dir (with_downloading true (manager s)))
      as (r & self' & acts & -> & _ & [[_ Hshape] | [_ Hstuck]]).
    + right. left. split; [reflexivity|].
      destruct (worker_shape_pending _ _ Hshape) as (pre & -> & Hpre).
      eexists (submitted s), _, pre.
      split; [apply lookup_insert_eq|]. split; [reflexivity|]. split; [exact Hpre|].
      eapply only_active_insert; [reflexivity|].
      intros id' t' _ Ht'. eapply Hquiet, Ht'.
    + right. right. destruct Hstuck as (Hunknown & f & e & Hf & He & -> & ->).
      split.
      * split; [reflexivity|].
        eexists (submitted s), _, e.
        split; [apply lookup_insert_eq|]. split; [reflexivity|].
        split; [repeat constructor|].
        eapply only_active_insert; [reflexivity|].
        intros id' t' _ Ht'. eapply Hquiet, Ht'.
      * cbn [resetting]. cbn [error_callback with_downloading] in Hf. rewrite Hf.
        cbn [call_fault]. intros [Hk | Hnone]; congruence.
  - destruct (threads s !! tid) as [[[|a rest] f]|] eqn:Htid;
      try (split; [|split]; auto; fail).
    split; [|split].
    + intros [_ Hquiet]. specialize (Hquiet _ _ Htid). discriminate.
    + intros (Hbusy & id & t & pre & Hid & Hpend & Hpre & Hothers).
      destruct (decide (tid = id)) as [-> | Hne].
      2:{ specialize (Hothers _ _ Hne Htid). discriminate. }
      rewrite Htid in Hid. injection Hid as <-. cbn [pending] in Hpend.
      destruct pre as [|a' pre'].
      * cbn in Hpend. injection Hpend as -> ->. left.
        split; [reflexivity|]. cbn [threads]. intros id' t' Ht'.
        destruct (decide (id' = id)) as [-> | Hne].
        -- rewrite lookup_insert_eq in Ht'. injection Ht' as <-. reflexivity.
        -- rewrite lookup_insert_ne in Ht' by congruence. eapply Hothers; eauto.
      * cbn in Hpend. injection Hpend as -> ->.
        inversion Hpre as [|? ? Ha Hpre']; subst.
        right. split; [cbn [manager]; rewrite perform_keeps_flag by exact Ha; exact Hbusy|].
        eexists id, _, pre'. split; [apply lookup_insert_eq|].
        split; [reflexivity|]. split; [exact Hpre'|].
        eapply only_active_insert; [reflexivity|exact Hothers].
    + intros (Hbusy & id & t & e & Hid & Hfault & Hpend & Hothers).
      destruct (decide (tid = id)) as [-> | Hne].
      2:{ specialize (Hothers _ _ Hne Htid). discriminate. }
      rewrite Htid in Hid. injection Hid as <-. cbn [pending fault] in *.
      inversion Hpend as [|? ? Ha Hrest]; subst.
      split; [cbn [manager]; rewrite perform_keeps_flag by exact Ha; exact Hbusy|].
      eexists id, _, e. split; [apply lookup_insert_eq|].
      split; [reflexivity|]. split; [exact Hrest|].
      eapply only_active_insert; [reflexivity|exact Hothers].
Qed.

Lemma single_flight_step (l : label) (s : system) :
  single_flight s -> single_flight (sys_step l s).
Proof.
  destruct (sys_step_cases l s) as (Hi & Hb & Hs).
  unfold single_flight. intros [H | [H | H]].
  - destruct (Hi H) as [H' | [H' | [H' _]]]; auto.
  - destruct (Hb H) as [H' | H']; auto.
  - auto.
Qed.

Lemma steady_step (l : label) (s : system) :
  steady s -> resetting (error_callback (manager s)) l -> steady (sys_step l s).
Proof.
  destruct (sys_step_cases l s) as (Hi & Hb & _).
  unfold steady. intros [H | H] Hreset.
  - destruct (Hi H) as [H' | [H' | [_ Hno]]]; auto. destruct (Hno Hreset).
  - destruct (Hb H) as [H' | H']; auto.
Qed.

Lemma error_callback_step (l : label) (s : system) :
  error_callback (manager (sys_step l s)) = error_callback (manager s).
Proof.
  destruct l as [w url ty dir | tid]; cbn [sys_step].
  - rewrite download_content_run.
    destruct (is_downloading (manager s)); [reflexivity|].
    destruct (negb (isdir w dir)); reflexivity.
  - destruct (threads s !! tid) as [[[|a rest] f]|]; try reflexivity.
    destruct a; reflexivity.
Qed.

Lemma single_flight_run_system (ls : list label) :
  forall s : system, single_flight s -> single_flight (run_system ls s).
Proof.
  unfold run_system. induction ls as [|l ls IH]; intros s Hs; [exact Hs|].
  cbn [fold_left]. apply IH, single_flight_step, Hs.
Qed.

Lemma steady_run_system (ls : list label) :
  forall s : system,
    steady s -> Forall (resetting (error_callback (manager s))) ls ->
    steady (run_system ls s).
Proof.
  unfold run_system. induction ls as [|l ls IH]; intros s Hs Hls; [exact Hs|].
  inversion Hls as [|? ? Hl Hls']; subst.
  cbn [fold_left]. apply IH.
  - apply steady_step; assumption.
  - rewrite error_callback_step. exact Hls'.
Qed.

(** What the state of the scheduler tells about the threads and the busy
    flag. *)
Lemma single_flight_facts (s : system) :
  single_flight s ->
  (forall i j ti tj,
     threads s !! i = Some ti -> threads s !! j = Some tj ->
     pending ti <> [] -> pending tj <> [] -> i = j) /\
  ((exists i t, threads s !! i = Some t /\ pending t <> []) ->
   is_downloading (manager s) = true) /\
  (is_downloading (manager s) = true ->
   (exists i t, threads s !! i = Some t /\ pending t <> []) \/
   (exists i t e, threads s !! i = Some t /\ pending t = [] /\ fault t = Some e)).
Proof.
  assert (Hone : forall id,
            only_active id s ->
            forall i j ti tj,
              threads s !! i = Some ti -> threads s !! j = Some tj ->
              pending ti <> [] -> pending tj <> [] -> i = j).
  { intros id Hothers i j ti tj Hi Hj Hti Htj.
    destruct (decide (i = id)) as [-> | Hni];
      [|destruct Hti; eapply Hothers; eauto].
    destruct (decide (j = id)) as [-> | Hnj];
      [reflexivity|destruct Htj; eapply Hothers; eauto]. }
  intros [[Hflag Hquiet]
         | [(Hflag & id & t & pre & Hid & Hpend & _ & Hothers)
           | (Hflag & id & t & e & Hid & Hfault & _ & Hothers)]].
  - split; [|split].
    + intros i j ti tj Hi _ Hti _. destruct Hti. eapply Hquiet, Hi.
    + intros (i & t & Ht & Hne). destruct Hne. eapply Hquiet, Ht.
    + congruence.
  - split; [apply (Hone id Hothers)|]. split; [auto|].
    intros _. left. exists id, t. split; [exact Hid|].
    rewrite Hpend. destruct pre; discriminate.
  - split; [apply (Hone id Hothers)|]. split; [auto|].
    intros _. destruct (pending t) as [|a rest] eqn:Hp.
    + right. exists id, t, e. auto.
    + left. exists id, t. split; [exact Hid|]. rewrite Hp. discriminate.
Qed.

Lemma steady_facts (s : system) :
  steady s ->
  (is_downloading (manager s) = true
   <-> exists i t, threads s !! i = Some t /\ pending t <> []).
Proof.
  intros [[Hflag Hquiet] | (Hflag & id & t & pre & Hid & Hpend & _ & Hothers)].
  - rewrite Hflag. split; [discriminate|].
    intros (i & t & Ht & Hne). destruct Hne. eapply Hquiet, Ht.
  - split; [|auto]. intros _. exists id, t. split; [exact Hid|].
    rewrite Hpend. destruct pre; discriminate.
Qed.

Lemma boot_idle (self : DownloadManager) : is_downloading self = false -> idle (boot self).
Proof.
  intros Hidle. split; [exact Hidle|].
  intros id t Ht. cbn in Ht. rewrite lookup_empty in Ht. discriminate.
Qed.

(** X8 (at most one download at a time): start with a manager that is not
    downloading and let calls of [download_content], for any worlds and
    arguments, and steps of the started threads follow one another in any
    order.  Then at every moment at most one thread has an action left to
    perform, and while there is one [is_downloading] is true.  When
    [is_downloading] is true and no thread has an action left, a thread has
    ended with an exception without resetting the flag; this happens only
    after a request of unknown kind whose report the error callback answered
    with an exception.  Without such a request [is_downloading] is true
    exactly when a thread has an action left. *)
Theorem single_flight_invariant (self : DownloadManager) (ls : list label) :
  is_downloading self = false ->
  let s := run_system ls (boot self) in
  (forall i j ti tj,
     threads s !! i = Some ti -> threads s !! j = Some tj ->
     pending ti <> [] -> pending tj <> [] -> i = j) /\
  ((exists i t, threads s !! i = Some t /\ pending t <> []) ->
   is_downloading (manager s) = true) /\
  (is_downloading (manager s) = true ->
   (exists i t, threads s !! i = Some t /\ pending t <> []) \/
   (exists i t e, threads s !! i = Some t /\ pending t = [] /\ fault t = Some e)) /\
  (Forall (resetting (error_callback self)) ls ->
   (is_downloading (manager s) = true
    <-> exists i t, threads s !! i = Some t /\ pending t <> [])).
Proof.
  intros Hidle s.
  assert (Hs : single_flight s).
  { apply single_flight_run_system. left. apply boot_idle, Hidle. }
  destruct (single_flight_facts s Hs) as (H1 & H2 & H3).
  split; [exact H1|]. split; [exact H2|]. split; [exact H3|].
  intros Hls. apply steady_facts. apply steady_run_system; [|exact Hls].
  left. apply boot_idle, Hidle.
Qed.

Lemma single_flight_invariant_witness :
  let submit := Submit two_chunk_world "https://example.com/x.jpg" "image" "/tmp/out" in
  let s := run_system [submit; Work 0; submit; Work 0] (boot app_manager) in
  (forall i j ti tj,
     threads s !! i = Some ti -> threads s !! j = Some tj ->
     pending ti <> [] -> pending tj <> [] -> i = j) /\
  (is_downloading (manager s) = true
   <-> exists i t, threads s !! i = Some t /\ pending t <> []).
Proof.
  intros submit.
  destruct (single_flight_invariant app_manager [submit; Work 0; submit; Work 0] eq_refl)
    as (Hone & _ & _ & Hiff).
  split; [exact Hone|]. apply Hiff.
  repeat constructor; left; reflexivity.
Defined.

(** A request of unknown kind reported to an error callback that raises:
    the thread ends after the report, and the manager stays busy, so every
    later request is rejected. *)
Example stuck_after_unknown_kind :
  let stubborn :=
    __init__ None None (Some (Some (raising "fails" (MkExn OSError "disk full")))) in
  let s := run_system [Submit two_chunk_world "u" "gif" "/tmp/out"; Work 0]
             (boot stubborn) in
  is_downloading (manager s) = true /\
  threads s !! 0%nat = Some {| pending := []; fault := Some (MkExn OSError "disk full") |} /\
  threads (sys_step (Submit two_chunk_world "https://example.com/x.jpg" "image" "/tmp/out")
             s)
  = threads s.
Proof. vm_compute. repeat split. Qed.

(** ** Characters that never reach the filename *)

Lemma find_absent_take (c : ascii) (s : string) :
  forall n : nat, Str.find c s < 0 -> Str.find c (Str.take n s) < 0.
Proof.
  induction s as [|a r IH]; intros n H; destruct n as [|n]; cbn in *; try lia.
  destruct (Ascii.eqb a c); [lia|].
  destruct (Z.ltb_spec (Str.find c r) 0) as [Hr | Hr]; [|lia].
  specialize (IH n Hr).
  destruct (Z.ltb_spec (Str.find c (Str.take n r)) 0); lia.
Qed.

Lemma find_absent_drop (c : ascii) (s : string) :
  forall n : nat, Str.find c s < 0 -> Str.find c (Str.drop n s) < 0.
Proof.
  induction s as [|a r IH]; intros n H; destruct n as [|n]; cbn in *; try lia.
  apply IH.
  destruct (Ascii.eqb a c); [lia|].
  destruct (Z.ltb_spec (Str.find c r) 0); lia.
Qed.

Lemma find_absent_before_self (c : ascii) (s : string) :
  Str.find c (Url.before c s) < 0.
Proof.
  unfold Url.before.
  destruct (Z.leb_spec 0 (Str.find c s)) as [Hfound | Hnot]; [|exact Hnot].
  induction s as [|a r IH]; cbn in *; [lia|].
  destruct (Ascii.eqb a c) eqn:Hac; [change (Z.to_nat 0) with 0%nat; cbn; lia|].
  destruct (Z.ltb_spec (Str.find c r) 0) as [Hr | Hr]; [lia|].
  replace (Z.to_nat (Str.find c r + 1)) with (S (Z.to_nat (Str.find c r))) by lia.
  cbn. rewrite Hac. specialize (IH Hr).
  destruct (Z.ltb_spec (Str.find c (Str.take (Z.to_nat (Str.find c r)) r)) 0); lia.
Qed.

Lemma find_absent_before (c d : ascii) (s : string) :
  Str.find c s < 0 -> Str.find c (Url.before d s) < 0.
Proof.
  intros H. unfold Url.before.
  destruct (0 <=? Str.find d s); [apply find_absent_take, H|exact H].
Qed.

Lemma find_absent_splitparams (c : ascii) (s : string) :
  Str.find c s < 0 -> Str.find c (Url.splitparams s) < 0.
Proof.
  intros H. unfold Url.splitparams.
  destruct (Str.contains "/" s).
  - destruct (_ <? 0); [exact H|apply find_absent_take, H].
  - apply find_absent_take, H.
Qed.

Lemma urlparse_path_absent (url p : string) :
  Url.urlparse_path url = Ok p ->
  Str.find "?" p < 0 /\ Str.find "#" p < 0.
Proof.
  unfold Url.urlparse_path.
  set (u0 := Str.filter _ _).
  destruct (_ && _ && _) ; cbn zeta beta iota.
  - destruct (String.eqb _ "//"); [destruct (Url.splitnetloc _) as [netloc u1]|];
      (destruct (xorb _ _); [discriminate|]);
      (destruct (if _ && _ then _ else None); [discriminate|]);
      (destruct (_ && _); intros [= <-]; split;
       try apply find_absent_splitparams;
       try apply find_absent_before_self;
       apply find_absent_before, find_absent_before_self).
  - destruct (String.eqb _ "//"); [destruct (Url.splitnetloc _) as [netloc u1]|];
      (destruct (xorb _ _); [discriminate|]);
      (destruct (if _ && _ then _ else None); [discriminate|]);
      (destruct (_ && _); intros [= <-]; split;
       try apply find_absent_splitparams;
       try apply find_absent_before_self;
       apply find_absent_before, find_absent_before_self).
Qed.

(** X10 (query and fragment never reach the filename): the name under which
    an image is saved contains neither [?] nor [#]: the query string and the
    fragment of the URL are dropped with the rest of the URL outside its
    path. *)
Theorem filename_without_query_or_fragment (url p : string) :
  Url.urlparse_path url = Ok p ->
  Str.contains "?" (image_filename p) = false /\
  Str.contains "#" (image_filename p) = false.
Proof.
  intros Hp. destruct (urlparse_path_absent url p Hp) as [Hq Hf].
  unfold image_filename.
  destruct (String.eqb (Path.basename p) "" || negb (Str.contains "." (Path.basename p)));
    [split; reflexivity|].
  unfold Path.basename, Str.contains.
  split; apply Z.leb_gt, find_absent_drop; assumption.
Qed.

Lemma filename_without_query_or_fragment_witness :
  Str.contains "?" (image_filename "/a/pic.png") = false /\
  Str.contains "#" (image_filename "/a/pic.png") = false.
Proof.
  apply (filename_without_query_or_fragment "https://example.com/a/pic.png?size=2#top").
  reflexivity.
Defined.

(** ** The run of the extraction adapter *)

(** X11 (the run of the extraction adapter): with all callbacks registered,
    a video or audio download calls the engine once, on the list of the one
    URL; every dictionary the engine hands to the progress hook is passed on
    to the progress callback as it is, once, in order, and the engine goes on
    knowing what the callback did, returned or raised; then comes the
    completion call, with the message naming the URL and the directory, when
    no exception left the engine, whatever the dictionaries reported; then,
    when an exception left the engine or the completion callback raised, the
    error call with the text of that exception; the reset of the busy flag is
    last, and the adapter returns unless the error callback raised. *)
Theorem extraction_adapter_run (w : world) (url output_path download_type : string)
    (self : DownloadManager) (fp fc fe : callable) :
  progress_callback self = Some fp ->
  completion_callback self = Some fc ->
  error_callback self = Some fe ->
  let opts := make_ydl_opts output_path download_type in
  let run := youtube_dl w opts url in
  let done := PStr ("Download complete for " +:+ url +:+ " (check " +:+ output_path +:+ ")") in
  let failed := fun e => PStr ("Error downloading " +:+ url +:+ ": " +:+ exn_str e) in
  let raised :=
    match engine_exn (Some fp) run with
    | Some e => Some e
    | None => answer fc done
    end in
  _download_video_audio w url output_path download_type self
  = (match raised with
     | Some e => fault_result (answer fe (failed e))
     | None => Ok tt
     end,
     with_downloading false self,
     YoutubeDL opts [url]
       :: map (fun d => Callback Progress fp (PDict d)) (hook_calls (Some fp) run)
       ++ match engine_exn (Some fp) run with
          | None => [Callback Completion fc done]
          | Some _ => []
          end
       ++ match raised with
          | Some e => [Callback Error fe (failed e)]
          | None => []
          end
       ++ [SetDownloading false]) /\
  (forall e,
     run = Ends e -> hook_calls (Some fp) run = [] /\ engine_exn (Some fp) run = e) /\
  (forall d next,
     run = Reports d next ->
     hook_calls (Some fp) run = d :: hook_calls (Some fp) (next (answer fp (PDict d))) /\
     engine_exn (Some fp) run = engine_exn (Some fp) (next (answer fp (PDict d)))).
Proof.
  intros Hp Hc He opts run done failed raised. subst raised failed done.
  split; [|split].
  - rewrite download_video_audio_run.
    fold opts run. unfold hook_events, video_fault, video_outcome, video_try_fault.
    rewrite Hp, Hc, He. cbn [call_fault notify].
    unfold completion_message, video_error_message.
    destruct (engine_exn (Some fp) run) as [e|]; [reflexivity|].
    destruct (answer fc _); reflexivity.
  - intros e ->. split; reflexivity.
  - intros d next ->. split; reflexivity.
Qed.

Lemma extraction_adapter_run_witness :
  _download_video_audio restarting_world "https://example.com/v" "/tmp/out" "video"
    (with_downloading true app_manager)
  = (Ok tt, app_manager,
     [YoutubeDL (make_ydl_opts "/tmp/out" "video") ["https://example.com/v"];
      Callback Progress on_progress
        (PDict {[ "status" := PStr "downloading"; "downloaded_bytes" := PInt 100 ]});
      Callback Progress on_progress
        (PDict {[ "status" := PStr "downloading"; "downloaded_bytes" := PInt 50 ]});
      Callback Completion on_complete
        (PStr "Download complete for https://example.com/v (check /tmp/out)");
      SetDownloading false]).
Proof.
  destruct (extraction_adapter_run restarting_world "https://example.com/v" "/tmp/out"
              "video" (with_downloading true app_manager) on_progress on_complete on_error
              eq_refl eq_refl eq_refl) as [Hrun _].
  rewrite Hrun. reflexivity.
Defined.

(** The video download of the script at the end of downloader_core.py,
    had it been run against an engine that reports one dictionary without
    the key [_total_bytes_str] and lets the exception of a hook through:
    [test_progress] raises [KeyError], the engine ends with it, and the
    download is reported as an error. *)
Example test_script_video_run :
  let d : gmap string pyval :=
    {[ "status" := PStr "downloading"; "_percent_str" := PStr "10.0%" ]} in
  _download_video_audio (sample_world (ok_response "" None []) (fragile_run d))
    "https://example.com/v" "/tmp/out" "video" (with_downloading true test_manager)
  = (Ok tt, test_manager,
     [YoutubeDL (make_ydl_opts "/tmp/out" "video") ["https://example.com/v"];
      Callback Progress test_progress (PDict d);
      Callback Error test_error
        (PStr "Error downloading https://example.com/v: '_total_bytes_str'");
      SetDownloading false]).
Proof. reflexivity. Qed.

(** X12 (audio options extend the video options): the options of an audio
    download differ from those of a video download in three keys only, the
    format, the post-processors and the extraction switch; every other key,
    among them the output template and the progress hook, has the same
    value. *)
Theorem audio_options_extend_video_options (output_path key : string) :
  key <> "format" -> key <> "postprocessors" -> key <> "extract_audio" ->
  make_ydl_opts output_path "audio" !! key = make_ydl_opts output_path "video" !! key.
Proof.
  intros Hf Hp He. unfold make_ydl_opts. cbn [String.eqb Ascii.eqb Bool.eqb].
  unfold dict_update, ydl_opts_audio.
  rewrite lookup_union_r; [reflexivity|].
  rewrite !lookup_insert_ne by congruence. apply lookup_singleton_ne. congruence.
Qed.

Lemma audio_options_extend_video_options_witness :
  make_ydl_opts "/tmp/out" "audio" !! "outtmpl"
  = make_ydl_opts "/tmp/out" "video" !! "outtmpl".
Proof.
  apply (audio_options_extend_video_options "/tmp/out" "outtmpl"); discriminate.
Defined.

(** ** The download button and the quality menu *)

(** X13 (the quality menu fails): [DownloadManager] has no attribute
    [set_download_quality], so the command of the quality menu raises
    [AttributeError] at that call: it neither saves the settings nor writes
    to the log, and leaves the application as it was. *)
Theorem quality_option_always_fails (disk : string -> gmap string pyval -> option exn)
    (app : Gui.DownloaderApp) :
  Gui.set_download_quality_option disk app
  = (Raise (MkExn Val.AttributeError
              "'DownloadManager' object has no attribute 'set_download_quality'"),
     app).
Proof. reflexivity. Qed.

Lemma log_message_value (message : Gui.text) (tag : string) (app : Gui.DownloaderApp) :
  Gui.log_message message tag app
  = Gui.with_log_text
      {| Gui.text_state := "disabled";
         Gui.text_lines :=
           Gui.text_lines (Gui.log_text app)
             ++ [(message ++ [Gui.Lit (String "010" "")], tag)] |} app.
Proof. reflexivity. Qed.

Lemma call_manager_run {A} (c : M A) (app : Gui.DownloaderApp) (r : result A)
    (self : DownloadManager) (acts : list action) :
  c (Gui.download_manager app) = (r, self, acts) ->
  Gui.call_manager c app = (r, fold_left (fun app a => Gui.in_app a app) acts app, acts).
Proof. intros H. unfold Gui.call_manager. rewrite H. reflexivity. Qed.

(** X14 (what the download button does): [start_download] returns normally.
    With a blank URL, or while the manager is downloading, it only adds one
    error line to the log and does not call the manager, so the manager never
    has to reject a request of the window as busy.  Otherwise it disables the
    button and calls [download_content] with the stripped URL: when the
    directory exists the busy flag is set and the thread is started; when it
    does not, the manager's error callback schedules the error handler on the
    Tk loop and the manager stays idle. *)
Theorem start_download_cases (w : world) (app : Gui.DownloaderApp) :
  error_callback (Gui.download_manager app) = Some on_error ->
  let url := Val.strip (Gui.url_entry app) in
  let dir := Gui.output_directory app in
  let run := Gui.start_download w app in
  (url = "" ->
   run = (Ok tt,
          Gui.log_message [Gui.Lit "Please enter a URL to download."] "error" app, [])) /\
  (url <> "" -> is_downloading (Gui.download_manager app) = true ->
   run = (Ok tt,
          Gui.log_message [Gui.Lit "A download is already in progress. Please wait."]
            "error" app, [])) /\
  (url <> "" -> is_downloading (Gui.download_manager app) = false ->
   run.1.1 = Ok tt /\
   Gui.download_button run.1.2 = "disabled" /\
   (isdir w dir = true ->
    run.2 = [SetDownloading true; ThreadStart url (Gui.download_type app) dir true] /\
    is_downloading (Gui.download_manager run.1.2) = true /\
    Gui.after_calls run.1.2 = Gui.after_calls app) /\
   (isdir w dir = false ->
    run.2 = [Callback Error on_error (PStr ("Output directory does not exist: " +:+ dir))] /\
    is_downloading (Gui.download_manager run.1.2) = false /\
    Gui.after_calls run.1.2
    = Gui.after_calls app
        ++ [(10, "_on_download_error_gui",
             PStr ("Output directory does not exist: " +:+ dir))])).
Proof.
  intros Herr url dir run. subst run. unfold Gui.start_download. fold url.
  split; [|split].
  - intros ->. reflexivity.
  - intros Hurl Hbusy. apply String.eqb_neq in Hurl. rewrite Hurl, Hbusy. reflexivity.
  - intros Hurl Hidle. apply String.eqb_neq in Hurl. rewrite Hurl, Hidle.
    pose proof (download_content_run w url (Gui.download_type app) dir
                  (Gui.download_manager app)) as Hrun.
    rewrite Hidle, Herr in Hrun. unfold Gui.call_manager.
    rewrite !log_message_value.
    cbn [Gui.output_directory Gui.with_download_button Gui.with_progress_label
           Gui.progress_bar_config Gui.with_progress_bar Gui.with_log_text
           Gui.download_manager].
    fold dir. rewrite Hrun.
    destruct (isdir w dir); cbn; repeat split; auto; discriminate.
Qed.

Lemma start_download_cases_witness :
  let app := Gui.with_url_entry " https://example.com/v "
               (Gui.fresh "/tmp/out" "light" "best") in
  let run := Gui.start_download two_chunk_world app in
  run.2 = [SetDownloading true; ThreadStart "https://example.com/v" "video" "/tmp/out" true]
  /\ Gui.download_button run.1.2 = "disabled".
Proof.
  intros app run.
  destruct (start_download_cases two_chunk_world app eq_refl) as (_ & _ & H).
  destruct H as (_ & Hb & Hdir & _); [discriminate | reflexivity |].
  destruct (Hdir eq_refl) as (Hacts & _). split; [exact Hacts | exact Hb].
Defined.

(** ** Progress of an image download in the window *)

(** X15 (an image download in the window): when the Tk loop handles a
    progress dictionary of the image adapter, for a known positive total the
    bar becomes determinate with the value [downloaded / total * 100] and
    the label reads [Downloading: <percent> of N/A at N/A ETA N/A]; without a
    positive total the bar becomes indeterminate, the label reads
    [Downloading: N/A at N/A ETA N/A], nothing is logged (the percent text
    [N/A] is no number, which the handler passes over) and the handler
    returns normally. *)
Theorem image_progress_display (total dl : Z) (pct : string) (app : Gui.DownloaderApp) :
  percent_str dl total = Ok pct ->
  let run := Gui._update_progress_gui (PDict (image_progress total dl pct)) app in
  (0 < total ->
   exists ratio,
     Py.true_div dl total = Ok ratio /\
     Gui.progress_bar run.2
     = {| Gui.bar_value := Gui.Float (Py.float_mul_int ratio 100);
          Gui.bar_mode := "determinate" |} /\
     Gui.render (Gui.progress_label run.2)
     = Some ("Downloading: " +:+ pct +:+ " of N/A at N/A ETA N/A")) /\
  (total <= 0 ->
   run
   = (Ok tt,
      Gui.with_progress_label
        [Gui.Lit "Downloading: "; Gui.Fmt (PStr "N/A"); Gui.Lit " at ";
         Gui.Fmt (PStr "N/A"); Gui.Lit " ETA "; Gui.Fmt (PStr "N/A")]
        (Gui.progress_bar_config None (Some "indeterminate") app))).
Proof.
  intros Hpct run. subst run. unfold percent_str in Hpct. split.
  - intros Hpos.
    replace (total >? 0) with true in Hpct by (symmetry; apply Z.gtb_lt; lia).
    destruct (Py.true_div dl total) as [ratio|e] eqn:Hdiv; [|discriminate].
    injection Hpct as <-. exists ratio. split; [reflexivity|].
    unfold Gui._update_progress_gui, Gui.bind, Gui.lift.
    cbn [Val.subscript Val.get Val.eq_str]. 
    change (image_progress total dl (_ +:+ "%") !! "status")
      with (Some (PStr "downloading")).
    cbn [String.eqb Ascii.eqb Bool.eqb default].
    change (image_progress total dl (_ +:+ "%") !! "total_bytes")
      with (Some (PInt total)).
    cbn [default Val.truth].
    replace (total =? 0) with false by (symmetry; apply Z.eqb_neq; lia).
    cbn [negb Gui.ret].
    change (image_progress total dl (_ +:+ "%") !! "downloaded_bytes")
      with (Some (PInt dl)).
    change (image_progress total dl ?p !! "_percent_str") with (Some (PStr p)).
    change (image_progress total dl (_ +:+ "%") !! "_total_bytes_str")
      with (@None pyval).
    change (image_progress total dl (_ +:+ "%") !! "_speed_str") with (@None pyval).
    change (image_progress total dl (_ +:+ "%") !! "_eta_str")
      with (Some (PStr "N/A")).
    change (image_progress total dl (_ +:+ "%") !! "_downloaded_bytes_str")
      with (@None pyval).
    cbn -[Py.true_div Py.float_mul_int Val.float_of_str Val.int_of_float Py.format_1f
          Z.gtb Z.eqb Gui.except_ValueError_pass Gui.progress_bar_config
          Gui.with_progress_label].
    replace (total =? 0) with false by (symmetry; apply Z.eqb_neq; lia).
    cbn -[Py.true_div Py.float_mul_int Val.float_of_str Val.int_of_float Py.format_1f
          Z.gtb Z.eqb Gui.except_ValueError_pass Gui.progress_bar_config
          Gui.with_progress_label].
    replace (total >? 0) with true by (symmetry; apply Z.gtb_lt; lia).
    rewrite Hdiv.
    cbn -[Py.true_div Py.float_mul_int Val.float_of_str Val.int_of_float Py.format_1f
          Z.gtb Z.eqb Gui.except_ValueError_pass Gui.progress_bar_config
          Gui.with_progress_label].
    match goal with
    | |- context [Gui.except_ValueError_pass ?b ?a] =>
        destruct (Gui.except_ValueError_pass b a) as [r app'] eqn:Hlog
    end.
    assert (Hkeep : Gui.progress_bar app' = Gui.progress_bar
                      (Gui.progress_bar_config
                         (Some (Gui.Float (Py.float_mul_int ratio 100)))
                         (Some "determinate") app) /\
                    Gui.progress_label app'
                    = [Gui.Lit "Downloading: ";
                       Gui.Fmt (PStr (Py.format_1f (Py.float_mul_int ratio 100) +:+ "%"));
                       Gui.Lit " of "; Gui.Fmt (PStr "N/A"); Gui.Lit " at ";
                       Gui.Fmt (PStr "N/A"); Gui.Lit " ETA "; Gui.Fmt (PStr "N/A")]).
    { unfold Gui.except_ValueError_pass, Gui.bind, Gui.lift, Gui.get_app in Hlog.
      cbn [Val.replace_char] in Hlog.
      destruct (Val.float_of_str _) as [x|e]; [destruct (Val.int_of_float x) as [z|e]|].
      - destruct (_ && _); cbn in Hlog; injection Hlog as <- <-; split; reflexivity.
      - destruct (exn_cls e); injection Hlog as <- <-; split; reflexivity.
      - destruct (exn_cls e); injection Hlog as <- <-; split; reflexivity. }
    destruct Hkeep as [Hbar Hlabel]. cbn [snd]. rewrite Hbar, Hlabel.
    split; reflexivity.
  - intros Hneg.
    replace (total >? 0) with false in Hpct by (symmetry; rewrite Z.gtb_ltb; apply Z.ltb_ge; lia).
    injection Hpct as <-.
    unfold Gui._update_progress_gui, Gui.bind, Gui.lift.
    cbn [Val.subscript Val.get Val.eq_str].
    change (image_progress total dl "N/A" !! "status") with (Some (PStr "downloading")).
    cbn [String.eqb Ascii.eqb Bool.eqb default].
    change (image_progress total dl "N/A" !! "total_bytes") with (Some (PInt total)).
    change (image_progress total dl "N/A" !! "total_bytes_estimate") with (@None pyval).
    change (image_progress total dl "N/A" !! "downloaded_bytes") with (Some (PInt dl)).
    change (image_progress total dl "N/A" !! "_percent_str") with (Some (PStr "N/A")).
    change (image_progress total dl "N/A" !! "_total_bytes_str") with (@None pyval).
    change (image_progress total dl "N/A" !! "_speed_str") with (@None pyval).
    change (image_progress total dl "N/A" !! "_eta_str") with (Some (PStr "N/A")).
    change (image_progress total dl "N/A" !! "_downloaded_bytes_str") with (@None pyval).
    cbn -[Z.gtb Z.eqb Val.float_of_str].
    destruct (Z.eqb_spec total 0) as [-> | Hne].
    + reflexivity.
    + cbn -[Z.gtb Z.eqb Val.float_of_str].
      replace (total >? 0) with false by (symmetry; rewrite Z.gtb_ltb; apply Z.ltb_ge; lia).
      reflexivity.
Qed.

Lemma image_progress_display_witness :
  let run := Gui._update_progress_gui (PDict (image_progress 1000 500 "50.0%"))
               (Gui.fresh "/tmp/out" "light" "best") in
  Gui.render (Gui.progress_label run.2)
  = Some "Downloading: 50.0% of N/A at N/A ETA N/A".
Proof.
  intros run.
  destruct (image_progress_display 1000 500 "50.0%" (Gui.fresh "/tmp/out" "light" "best")
              eq_refl) as [Hpos _].
  destruct (Hpos eq_refl) as (ratio & _ & _ & Hlabel). exact Hlabel.
Defined.

(** ** The download button comes back *)

Lemma same_controls_refl (a : Gui.DownloaderApp) : same_controls a a.
Proof. repeat split. Qed.

Lemma same_controls_trans (a b c : Gui.DownloaderApp) :
  same_controls a b -> same_controls b c -> same_controls a c.
Proof.
  intros (H1 & H2 & H3 & H4) (K1 & K2 & K3 & K4).
  repeat split; congruence.
Qed.

Lemma keeps_ret {A} (a : A) : keeps (Gui.ret a).
Proof. intros app. apply same_controls_refl. Qed.

Lemma keeps_lift {A} (r : result A) : keeps (Gui.lift r).
Proof. intros app. apply same_controls_refl. Qed.

Lemma keeps_get_app : keeps Gui.get_app.
Proof. intros app. apply same_controls_refl. Qed.

Lemma keeps_modify (f : Gui.DownloaderApp -> Gui.DownloaderApp) :
  (forall app, same_controls app (f app)) -> keeps (Gui.modify f).
Proof. intros H app. apply H. Qed.

Lemma keeps_bind {A B} (c : Gui.G A) (k : A -> Gui.G B) :
  keeps c -> (forall a, keeps (k a)) -> keeps (Gui.bind c k).
Proof.
  intros Hc Hk app. unfold Gui.bind. specialize (Hc app).
  destruct (c app) as [[a|e] app1]; cbn [snd] in *; [|exact Hc].
  eapply same_controls_trans; [exact Hc|apply Hk].
Qed.

Lemma keeps_except (c : Gui.G unit) : keeps c -> keeps (Gui.except_ValueError_pass c).
Proof.
  intros Hc app. unfold Gui.except_ValueError_pass. specialize (Hc app).
  destruct (c app) as [[[]|e] app1]; cbn [snd] in *; [exact Hc|].
  destruct (exn_cls e); exact Hc.
Qed.

Ltac keeps_step :=
  first
    [ apply keeps_ret | apply keeps_lift | apply keeps_get_app
    | apply keeps_bind; [|intros ?]
    | apply keeps_except
    | apply keeps_modify; intros ?; repeat split; reflexivity
    | match goal with |- keeps (if ?b then _ else _) => destruct b end ].

Lemma keeps_update_progress_gui (d : pyval) : keeps (Gui._update_progress_gui d).
Proof. unfold Gui._update_progress_gui. repeat keeps_step. Qed.

Lemma start_download_shape (w : world) (app : Gui.DownloaderApp) :
  error_callback (Gui.download_manager app) = Some on_error ->
  exists app1 acts,
    Gui.start_download w app = (Ok tt, app1, acts) /\
    completion_callback (Gui.download_manager app1)
    = completion_callback (Gui.download_manager app) /\
    error_callback (Gui.download_manager app1) = error_callback (Gui.download_manager app) /\
    ((acts = [] /\
      Gui.download_button app1 = Gui.download_button app /\
      Gui.after_calls app1 = Gui.after_calls app)
     \/
     (Gui.download_button app1 = "disabled" /\
      (exists arg,
         acts = [Callback Error on_error arg] /\
         Gui.after_calls app1
         = Gui.after_calls app ++ [(10, "_on_download_error_gui", arg)]))
     \/
     (Gui.download_button app1 = "disabled" /\
      Gui.after_calls app1 = Gui.after_calls app /\
      exists url download_type output_dir,
        acts = [SetDownloading true; ThreadStart url download_type output_dir true])).
Proof.
  intros Herr. unfold Gui.start_download.
  destruct (String.eqb _ "").
  { eexists _, _. split; [reflexivity|]. split; [reflexivity|]. split; [reflexivity|].
    left. repeat split. }
  destruct (is_downloading (Gui.download_manager app)) eqn:Hidle.
  { eexists _, _. split; [reflexivity|]. split; [reflexivity|]. split; [reflexivity|].
    left. repeat split. }
  pose proof (download_content_run w (Val.strip (Gui.url_entry app))
                (Gui.download_type app) (Gui.output_directory app)
                (Gui.download_manager app)) as Hrun.
  rewrite Hidle, Herr in Hrun. unfold Gui.call_manager.
  rewrite !log_message_value.
  cbn [Gui.output_directory Gui.with_download_button Gui.with_progress_label
         Gui.progress_bar_config Gui.with_progress_bar Gui.with_log_text
         Gui.download_manager].
  rewrite Hrun.
  destruct (isdir w (Gui.output_directory app)); cbn.
  - eexists _, _. split; [reflexivity|]. cbn. split; [reflexivity|].
    split; [reflexivity|]. right. right. eauto 10.
  - eexists _, _. split; [reflexivity|]. cbn. split; [reflexivity|].
    split; [reflexivity|]. right. left. eauto 10.
Qed.

Lemma worker_reports_outcome (w : world) (url download_type output_dir : string)
    (self : DownloadManager) :
  completion_callback self = Some on_complete ->
  error_callback self = Some on_error ->
  Exists Gui.outcome_action
    (pending (start_thread w self url download_type output_dir)).
Proof.
  intros Hc He. unfold start_thread.
  destruct (run_download_task_shape w url download_type output_dir self)
    as (r & self' & acts & -> & _ & [[_ Hshape] | [_ (_ & f & e & Hf & _ & _ & ->)]]);
    cbn [pending].
  - destruct Hshape as (pre & outcome & -> & _ & Hout).
    apply Exists_app. right. apply Exists_app. left.
    destruct Hout as [[arg ->] | [[arg ->] | (g & arg & arg' & e & Hg & _ & ->)]].
    + rewrite Hc. constructor. cbn. auto.
    + rewrite He. constructor. cbn. auto.
    + rewrite Hc in Hg. injection Hg as <-. constructor. cbn. auto.
  - rewrite He in Hf. injection Hf as <-. constructor. cbn. auto.
Qed.

Lemma window_ok_command (w : world) (s : Gui.desktop) :
  window_ok s -> window_ok (Gui.command_start_download w s).
Proof.
  intros (Hc & He & Hb & Hdis). unfold Gui.command_start_download.
  destruct (start_download_shape w (Gui.app s) He)
    as (app1 & acts & -> & Hc1 & He1 & Hcases).
  rewrite <- Hc1 in Hc. rewrite <- He1 in He.
  split; [exact Hc|]. split; [exact He|]. cbn [Gui.app Gui.workers].
  destruct Hcases as [(-> & Hbutton & Hafter)
                     | [(Hbutton & arg & -> & Hafter)
                       | (Hbutton & Hafter & url & ty & dir & ->)]].
  - rewrite Hbutton. split; [exact Hb|]. intros Hd.
    destruct (Hdis Hd) as [Hq | Hw]; [left | right]; cbn; [rewrite Hafter|]; assumption.
  - split; [auto|]. intros _. left. cbn. rewrite Hafter.
    apply Exists_app. right. constructor. right. reflexivity.
  - split; [auto|]. intros _. right. cbn [Gui.workers spawn].
    eexists _, _. split; [apply lookup_insert_eq|].
    apply worker_reports_outcome; assumption.
Qed.

Lemma outcome_handler_run (method : string) (arg : pyval) (a : Gui.DownloaderApp) :
  Gui.outcome_call (10, method, arg) ->
  exists app1,
    Gui.run_after method arg a = (Ok tt, app1) /\
    Gui.download_button app1 = "normal" /\
    Gui.download_manager app1 = Gui.download_manager a.
Proof.
  intros [H | H]; cbn in H; subst method; eexists; (split; [reflexivity|]);
    split; reflexivity.
Qed.

Lemma window_ok_step (e : Gui.event) (s : Gui.desktop) :
  window_ok s -> window_ok (Gui.desktop_step e s).
Proof.
  intros Hs. destruct e as [url | ty | w | w | tid |]; cbn [Gui.desktop_step].
  - exact Hs.
  - exact Hs.
  - destruct (String.eqb _ "disabled"); [exact Hs|apply window_ok_command, Hs].
  - apply window_ok_command, Hs.
  - destruct (Gui.workers s !! tid) as [[[|a rest] f]|] eqn:Htid; try exact Hs.
    destruct Hs as (Hc & He & Hb & Hdis).
    assert (Hkeep : completion_callback (Gui.download_manager (Gui.in_app a (Gui.app s)))
                    = Some on_complete /\
                    error_callback (Gui.download_manager (Gui.in_app a (Gui.app s)))
                    = Some on_error /\
                    Gui.download_button (Gui.in_app a (Gui.app s))
                    = Gui.download_button (Gui.app s) /\
                    (Exists Gui.outcome_call (Gui.after_calls (Gui.app s)) ->
                     Exists Gui.outcome_call (Gui.after_calls (Gui.in_app a (Gui.app s)))) /\
                    (Gui.outcome_action a ->
                     Exists Gui.outcome_call (Gui.after_calls (Gui.in_app a (Gui.app s))))).
    { destruct a as [r [name answer] arg| | | | | | |]; cbn [Gui.in_app];
        try (repeat split; auto; intros []; fail).
      unfold Gui.call.
      split; [|split; [|split; [|split]]].
      - repeat match goal with
               | |- context [match ?x with _ => _ end] => destruct x
               end; exact Hc.
      - repeat match goal with
               | |- context [match ?x with _ => _ end] => destruct x
               end; exact He.
      - repeat match goal with
               | |- context [match ?x with _ => _ end] => destruct x
               end; reflexivity.
      - intros Hq.
        repeat match goal with
               | |- context [match ?x with _ => _ end] => destruct x
               end; try exact Hq; cbn; apply Exists_app; left; exact Hq.
      - intros [[= ->] | [= ->]]; cbn; apply Exists_app; right; constructor;
          [left | right]; reflexivity. }
    destruct Hkeep as (Hc' & He' & Hb' & Hq' & Ha').
    split; [exact Hc'|]. split; [exact He'|]. cbn [Gui.app]. rewrite Hb'.
    split; [exact Hb|]. intros Hd.
    destruct (Hdis Hd) as [Hq | (tid' & t' & Ht' & Hex)].
    + left. cbn [Gui.app]. apply Hq', Hq.
    + destruct (decide (tid' = tid)) as [-> | Hne].
      * rewrite Htid in Ht'. injection Ht' as <-. cbn [pending] in Hex.
        inversion Hex as [? ? Hhead | ? ? Htail]; subst.
        -- left. cbn [Gui.app]. apply Ha', Hhead.
        -- right. exists tid. eexists. cbn [Gui.workers].
           split; [apply lookup_insert_eq|exact Htail].
      * right. exists tid', t'. cbn [Gui.workers].
        rewrite lookup_insert_ne by congruence. auto.
  - destruct (Gui.after_calls (Gui.app s)) as [|[[ms method] arg] rest] eqn:Hq;
      [exact Hs|].
    destruct Hs as (Hc & He & Hb & Hdis).
    unfold Gui.run_after.
    destruct (String.eqb method "_update_progress_gui") eqn:E1;
      [|destruct (String.eqb method "_on_download_complete_gui") eqn:E2;
        [|destruct (String.eqb method "_on_download_error_gui") eqn:E3]].
    + pose proof (keeps_update_progress_gui arg (Gui.with_after_calls rest (Gui.app s)))
        as (Km & Kb & Ka & _).
      destruct (Gui._update_progress_gui arg _) as [r app1]. cbn [snd] in *.
      cbn in Km, Kb, Ka. unfold window_ok. cbn [Gui.app]. rewrite Km, Kb.
      split; [exact Hc|]. split; [exact He|]. split; [exact Hb|]. intros Hd.
      destruct (Hdis Hd) as [Hex | Hw]; [left | right; exact Hw].
      cbn [Gui.app]. rewrite Ka. rewrite Hq in Hex.
      apply String.eqb_eq in E1. subst method.
      inversion Hex as [? ? [Hh | Hh] | ? ? Htail]; subst;
        [discriminate Hh | discriminate Hh | exact Htail].
    + destruct (outcome_handler_run "_on_download_complete_gui" arg
                  (Gui.with_after_calls rest (Gui.app s)))
        as (app1 & Hrun & Kb & Km); [left; reflexivity|].
      cbn [Gui.run_after String.eqb Ascii.eqb Bool.eqb] in Hrun. rewrite Hrun.
      unfold window_ok. cbn [Gui.app]. rewrite Km, Kb.
      split; [exact Hc|]. split; [exact He|]. split; [auto|]. discriminate.
    + destruct (outcome_handler_run "_on_download_error_gui" arg
                  (Gui.with_after_calls rest (Gui.app s)))
        as (app1 & Hrun & Kb & Km); [right; reflexivity|].
      cbn [Gui.run_after String.eqb Ascii.eqb Bool.eqb] in Hrun. rewrite Hrun.
      unfold window_ok. cbn [Gui.app]. rewrite Km, Kb.
      split; [exact Hc|]. split; [exact He|]. split; [auto|]. discriminate.
    + unfold Gui.ret, window_ok. cbn [Gui.app Gui.download_manager Gui.download_button
                                        Gui.with_after_calls].
      split; [exact Hc|]. split; [exact He|]. split; [exact Hb|]. intros Hd.
      destruct (Hdis Hd) as [Hex | Hw]; [left | right; exact Hw].
      cbn [Gui.app Gui.after_calls Gui.with_after_calls]. rewrite Hq in Hex.
      apply String.eqb_neq in E2, E3.
      inversion Hex as [? ? [Hh | Hh] | ? ? Htail]; subst;
        [destruct (E2 Hh) | destruct (E3 Hh) | exact Htail].
Qed.

Lemma window_ok_run (es : list Gui.event) :
  forall s : Gui.desktop, window_ok s -> window_ok (Gui.run_desktop es s).
Proof.
  unfold Gui.run_desktop. induction es as [|e es IH]; intros s Hs; [exact Hs|].
  cbn [fold_left]. apply IH, window_ok_step, Hs.
Qed.

(** X16 (the download button comes back): take the window in any state in
    which the manager carries the two outcome callbacks of the application
    and the download button is normal, or disabled with an outcome still to
    come; such is the window that the statements of the constructor build
    before its last one raises.  Let the user edit
    the URL, pick a kind, click the button or press Return, the started
    threads perform their actions and the Tk loop run its scheduled calls, in
    any order.  Then the download button is always normal or disabled;
    whenever it is disabled, a call that sets it back to normal is still to
    come, either scheduled on the Tk loop or yet to be scheduled by the
    outcome callback of a running thread; so when nothing is left to run the
    button is normal.  Both outcome handlers do set the button to normal. *)
Theorem download_button_comes_back (s0 : Gui.desktop) (es : list Gui.event) :
  window_ok s0 ->
  let s := Gui.run_desktop es s0 in
  (Gui.download_button (Gui.app s) = "normal" \/
   Gui.download_button (Gui.app s) = "disabled") /\
  (Gui.download_button (Gui.app s) = "disabled" -> Gui.outcome_to_come s) /\
  (Gui.at_rest s -> Gui.download_button (Gui.app s) = "normal") /\
  (forall (method : string) (arg : pyval) (a : Gui.DownloaderApp),
     Gui.outcome_call (10, method, arg) ->
     Gui.download_button (Gui.run_after method arg a).2 = "normal").
Proof.
  intros H0 s.
  assert (Hs : window_ok s) by (apply window_ok_run, H0).
  destruct Hs as (_ & _ & Hb & Hdis).
  split; [exact Hb|]. split; [exact Hdis|]. split.
  - intros [Hq Hw]. destruct Hb as [Hb | Hb]; [exact Hb|].
    destruct (Hdis Hb) as [Hex | (tid & t & Ht & Hex)].
    + rewrite Hq in Hex. inversion Hex.
    + rewrite (Hw tid t Ht) in Hex. inversion Hex.
  - intros method arg a Hcall.
    destruct (outcome_handler_run method arg a Hcall) as (app1 & -> & Hb1 & _).
    exact Hb1.
Qed.

Lemma fresh_window_ok (output_directory theme quality : string) :
  window_ok (Gui.desktop_of (Gui.fresh output_directory theme quality)).
Proof. repeat split; auto. discriminate. Qed.

Lemma download_button_comes_back_witness :
  let s := Gui.run_desktop
             [Gui.Edit "https://example.com/x.jpg"; Gui.Select "image";
              Gui.Click two_chunk_world; Gui.Step 0]
             (Gui.desktop_of (Gui.fresh "/tmp/out" "light" "best")) in
  Gui.download_button (Gui.app s) = "disabled" /\ Gui.outcome_to_come s.
Proof.
  intros s.
  destruct (download_button_comes_back
              (Gui.desktop_of (Gui.fresh "/tmp/out" "light" "best"))
              [Gui.Edit "https://example.com/x.jpg"; Gui.Select "image";
               Gui.Click two_chunk_world; Gui.Step 0]
              (fresh_window_ok "/tmp/out" "light" "best")) as (_ & Hdis & _).
  split; [reflexivity|]. apply Hdis. reflexivity.
Defined.

(** ** A progress report handled twice *)

Ltac throttle_twice app :=
  unfold Gui.except_ValueError_pass, Gui.bind, Gui.lift, Gui.get_app, Gui.modify, Gui.ret;
  (destruct (Val.replace_char _ _) as [stripped|e];
   [|destruct (exn_cls e); reflexivity]);
  (destruct (Val.float_of_str _) as [x|e]; [|destruct (exn_cls e); reflexivity]);
  (destruct (Val.int_of_float x) as [z|e]; [|destruct (exn_cls e); reflexivity]);
  cbn [snd Gui._last_logged_percent Gui.with_progress_label Gui.progress_bar_config
         Gui.with_progress_bar];
  (destruct (z mod 10 =? 0); cbn [andb]; [|reflexivity]);
  destruct (z =? Gui._last_logged_percent app) eqn:Hlast; cbn [negb];
  [ cbn [snd Gui._last_logged_percent Gui.with_progress_label Gui.progress_bar_config
           Gui.with_progress_bar];
    rewrite Hlast; reflexivity
  | rewrite !log_message_value;
    cbn [snd Gui._last_logged_percent Gui.with_progress_label Gui.progress_bar_config
           Gui.with_progress_bar Gui.with_last_logged_percent Gui.with_log_text];
    rewrite Z.eqb_refl; reflexivity ].

(** X17 (a repeated progress report changes nothing): when the Tk loop
    handles the same dictionary of status [downloading] twice in a row, the
    second call gives the result of the first and leaves the window as the
    first left it; in particular it adds no second [Progress:] line to the
    log. *)
Theorem repeated_progress_report (m : gmap string pyval) (app : Gui.DownloaderApp) :
  m !! "status" = Some (PStr "downloading") ->
  let once := Gui._update_progress_gui (PDict m) app in
  Gui._update_progress_gui (PDict m) once.2 = once.
Proof.
  intros Hstatus once. subst once.
  unfold Gui._update_progress_gui, Gui.bind, Gui.lift, Gui.modify, Gui.ret.
  cbn [Val.subscript Val.get]. rewrite Hstatus.
  cbn [Val.eq_str String.eqb Ascii.eqb Bool.eqb].
  destruct (Val.truth _);
    (destruct (Val.gt_zero _) as [[|]|e]; [| |reflexivity]);
    try (destruct (Val.truediv _ _) as [ratio|e]; [|reflexivity]);
    throttle_twice app.
Qed.

Lemma repeated_progress_report_witness :
  let d := PDict (image_progress 1000 500 "50.0%") in
  let once := Gui._update_progress_gui d (Gui.fresh "/tmp/out" "light" "best") in
  Gui._update_progress_gui d once.2 = once.
Proof.
  apply (repeated_progress_report (image_progress 1000 500 "50.0%")
           (Gui.fresh "/tmp/out" "light" "best")).
  reflexivity.
Defined.

(** ** One download at a time, seen from the window *)

Lemma call_manager_same (f : callable) (arg : pyval) (a : Gui.DownloaderApp) :
  Gui.download_manager (Gui.call f arg a) = Gui.download_manager a.
Proof.
  unfold Gui.call. destruct f as [name answer].
  repeat match goal with
         | |- context [match ?x with _ => _ end] => destruct x
         end; reflexivity.
Qed.

Lemma in_app_perform (a : action) (app : Gui.DownloaderApp) :
  Gui.download_manager (Gui.in_app a app) = perform a (Gui.download_manager app).
Proof. destruct a; try reflexivity. apply call_manager_same. Qed.

Lemma notify_in_app (r : role) (cb : option callable) (arg : pyval)
    (app : Gui.DownloaderApp) :
  Gui.download_manager (fold_left (fun app a => Gui.in_app a app) (notify r cb arg) app)
  = Gui.download_manager app.
Proof. destruct cb; cbn; [apply call_manager_same|reflexivity]. Qed.

Lemma command_as_submit (w : world) (s : Gui.desktop) :
  (manager (manager_and_threads (Gui.command_start_download w s))
   = manager (manager_and_threads s) /\
   threads (manager_and_threads (Gui.command_start_download w s))
   = threads (manager_and_threads s))
  \/
  exists url download_type output_dir,
    manager (manager_and_threads (Gui.command_start_download w s))
    = manager (sys_step (Submit w url download_type output_dir) (manager_and_threads s)) /\
    threads (manager_and_threads (Gui.command_start_download w s))
    = threads (sys_step (Submit w url download_type output_dir) (manager_and_threads s)).
Proof.
  unfold Gui.command_start_download, Gui.start_download.
  destruct (String.eqb _ "").
  { left. split; reflexivity. }
  destruct (is_downloading (Gui.download_manager (Gui.app s))) eqn:Hidle.
  { left. split; reflexivity. }
  right. exists (Val.strip (Gui.url_entry (Gui.app s))), (Gui.download_type (Gui.app s)),
           (Gui.output_directory (Gui.app s)).
  pose proof (download_content_run w (Val.strip (Gui.url_entry (Gui.app s)))
                (Gui.download_type (Gui.app s)) (Gui.output_directory (Gui.app s))
                (Gui.download_manager (Gui.app s))) as Hrun.
  rewrite Hidle in Hrun. unfold Gui.call_manager.
  rewrite !log_message_value.
  cbn [Gui.output_directory Gui.with_download_button Gui.with_progress_label
         Gui.progress_bar_config Gui.with_progress_bar Gui.with_log_text
         Gui.download_manager].
  cbn [sys_step manager_and_threads manager threads submitted].
  rewrite Hrun.
  destruct (negb (isdir w (Gui.output_directory (Gui.app s)))).
  - cbn [manager threads Gui.app Gui.workers]. rewrite notify_in_app.
    cbn [Gui.download_manager]. split; reflexivity.
  - cbn [manager threads Gui.app Gui.workers fold_left Gui.in_app Gui.download_manager
           Gui.with_manager spawn].
    split; reflexivity.
Qed.

Lemma run_after_same_manager (method : string) (arg : pyval) (a : Gui.DownloaderApp) :
  Gui.download_manager (Gui.run_after method arg a).2 = Gui.download_manager a.
Proof.
  unfold Gui.run_after.
  destruct (String.eqb method "_update_progress_gui");
    [apply keeps_update_progress_gui|].
  destruct (String.eqb method "_on_download_complete_gui"); [reflexivity|].
  destruct (String.eqb method "_on_download_error_gui"); reflexivity.
Qed.

Lemma steady_ext (s1 s2 : system) :
  manager s1 = manager s2 -> threads s1 = threads s2 -> steady s1 -> steady s2.
Proof.
  intros Hm Ht. destruct (single_flight_ext s1 s2 Hm Ht) as (Hi & Hb & _).
  unfold steady. tauto.
Qed.

Lemma window_single_flight_step (e : Gui.event) (s : Gui.desktop) :
  error_callback (Gui.download_manager (Gui.app s)) = Some on_error ->
  steady (manager_and_threads s) ->
  steady (manager_and_threads (Gui.desktop_step e s)).
Proof.
  intros Herr Hs.
  assert (Hsubmit : forall w url ty dir,
            steady (sys_step (Submit w url ty dir) (manager_and_threads s))).
  { intros w url ty dir. apply steady_step; [exact Hs|].
    cbn [resetting manager manager_and_threads]. rewrite Herr. right. reflexivity. }
  destruct e as [url | ty | w | w | tid |]; cbn [Gui.desktop_step].
  - exact Hs.
  - exact Hs.
  - destruct (String.eqb _ "disabled"); [exact Hs|].
    destruct (command_as_submit w s) as [[Hm Ht] | (url & ty & dir & Hm & Ht)].
    + eapply steady_ext; [symmetry; exact Hm|symmetry; exact Ht|exact Hs].
    + eapply steady_ext; [symmetry; exact Hm|symmetry; exact Ht|apply Hsubmit].
  - destruct (command_as_submit w s) as [[Hm Ht] | (url & ty & dir & Hm & Ht)].
    + eapply steady_ext; [symmetry; exact Hm|symmetry; exact Ht|exact Hs].
    + eapply steady_ext; [symmetry; exact Hm|symmetry; exact Ht|apply Hsubmit].
  - pose proof (steady_step (Work tid) _ Hs I) as Hstep.
    cbn [sys_step manager_and_threads threads] in Hstep.
    destruct (Gui.workers s !! tid) as [[[|a rest] f]|]; try exact Hs.
    eapply steady_ext; [| |exact Hstep].
    + cbn [manager manager_and_threads Gui.app]. symmetry. apply in_app_perform.
    + reflexivity.
  - destruct (Gui.after_calls (Gui.app s)) as [|[[ms method] arg] rest]; [exact Hs|].
    pose proof (run_after_same_manager method arg (Gui.with_after_calls rest (Gui.app s)))
      as Hm.
    destruct (Gui.run_after method arg _) as [r app1]. cbn [snd] in Hm.
    eapply steady_ext; [| |exact Hs].
    + cbn [manager manager_and_threads Gui.app]. rewrite Hm. reflexivity.
    + reflexivity.
Qed.

(** X18 (one download at a time, seen from the window): take the window in
    any state in which the manager carries the two outcome callbacks of the
    application, the button is normal or disabled with an outcome to come,
    and the manager is idle with no thread at work or busy with one thread
    that will reset it; such is the window that the statements of the
    constructor build before its last one raises.  Let
    edits, selections, clicks, Return keys, thread steps and scheduled calls
    follow one another in any order.  Then at most one thread has an action
    left to perform, and the manager's [is_downloading] is true exactly when
    there is such a thread; the Return key, which runs [start_download] even
    while the button is disabled, cannot start a second download beside a
    running one. *)
Theorem window_single_flight (s0 : Gui.desktop) (es : list Gui.event) :
  window_ok s0 ->
  steady (manager_and_threads s0) ->
  let s := Gui.run_desktop es s0 in
  (forall i j ti tj,
     Gui.workers s !! i = Some ti -> Gui.workers s !! j = Some tj ->
     pending ti <> [] -> pending tj <> [] -> i = j) /\
  (is_downloading (Gui.download_manager (Gui.app s)) = true
   <-> exists i t, Gui.workers s !! i = Some t /\ pending t <> []).
Proof.
  intros Hok0 H0 s.
  assert (Hs : steady (manager_and_threads s)).
  { subst s. unfold Gui.run_desktop. revert s0 Hok0 H0.
    induction es as [|e es IH]; intros s0 Hok0 H0; [exact H0|].
    cbn [fold_left]. apply IH.
    - apply window_ok_step, Hok0.
    - apply window_single_flight_step; [apply Hok0|exact H0]. }
  split.
  - apply (single_flight_facts (manager_and_threads s)).
    unfold single_flight. unfold steady in Hs. tauto.
  - apply (steady_facts (manager_and_threads s) Hs).
Qed.

Lemma window_single_flight_witness :
  let s := Gui.run_desktop
             [Gui.Edit "https://example.com/x.jpg"; Gui.Select "image";
              Gui.Click two_chunk_world; Gui.Step 0; Gui.Enter two_chunk_world]
             (Gui.desktop_of (Gui.fresh "/tmp/out" "light" "best")) in
  (forall i j ti tj,
     Gui.workers s !! i = Some ti -> Gui.workers s !! j = Some tj ->
     pending ti <> [] -> pending tj <> [] -> i = j) /\
  (is_downloading (Gui.download_manager (Gui.app s)) = true
   <-> exists i t, Gui.workers s !! i = Some t /\ pending t <> []).
Proof.
  apply (window_single_flight
           (Gui.desktop_of (Gui.fresh "/tmp/out" "light" "best"))
           [Gui.Edit "https://example.com/x.jpg"; Gui.Select "image";
            Gui.Click two_chunk_world; Gui.Step 0; Gui.Enter two_chunk_world]
           (fresh_window_ok "/tmp/out" "light" "best")).
  left. apply (boot_idle app_manager). reflexivity.
Defined.

(** ** A missing directory, from the click to the dialog *)

Ltac gui_simpl :=
  cbn [Gui.app Gui.workers Gui.clicks Gui.reported
         Gui.download_manager Gui.output_directory Gui.settings_file Gui.current_theme
         Gui.download_quality_var Gui.url_entry Gui.download_type Gui.download_button
         Gui.progress_bar Gui.progress_label Gui.log_text Gui._last_logged_percent
         Gui.after_calls Gui.effects Gui.text_state Gui.text_lines
         Gui.with_manager Gui.with_url_entry Gui.with_download_button
         Gui.with_progress_bar Gui.with_progress_label Gui.with_log_text
         Gui.with_last_logged_percent Gui.with_after_calls Gui.with_effects
         Gui.progress_bar_config].

(** X19 (a missing directory, from the click to the dialog): when the
    button is clicked with a URL in the field, an idle manager and an output
    directory that does not exist, and the Tk loop then runs its next call,
    no thread has been started, the manager is idle as before, one error
    dialog with the message of the manager has been shown, the log ends with
    the same message as an error line, the URL is still in the field and the
    button is normal again. *)
Theorem missing_directory_dialog (w : world) (s : Gui.desktop) :
  error_callback (Gui.download_manager (Gui.app s)) = Some on_error ->
  Gui.download_button (Gui.app s) = "normal" ->
  Val.strip (Gui.url_entry (Gui.app s)) <> "" ->
  is_downloading (Gui.download_manager (Gui.app s)) = false ->
  isdir w (Gui.output_directory (Gui.app s)) = false ->
  Gui.after_calls (Gui.app s) = [] ->
  let message :=
    PStr ("Output directory does not exist: " +:+ Gui.output_directory (Gui.app s)) in
  let s' := Gui.run_desktop [Gui.Click w; Gui.Tick] s in
  Gui.download_button (Gui.app s') = "normal" /\
  Gui.effects (Gui.app s')
  = Gui.effects (Gui.app s) ++ [Gui.ShowError "Download Error" message] /\
  last (Gui.text_lines (Gui.log_text (Gui.app s')))
  = Some ([Gui.Lit "Error: "; Gui.Fmt message; Gui.Lit (String "010" "")], "error") /\
  Gui.download_manager (Gui.app s') = Gui.download_manager (Gui.app s) /\
  Gui.workers s' = Gui.workers s /\
  Gui.after_calls (Gui.app s') = [] /\
  Gui.url_entry (Gui.app s') = Gui.url_entry (Gui.app s) /\
  Gui.reported s' = Gui.reported s.
Proof.
  intros Herr Hbutton Hurl Hidle Hdir Hafter message s'. subst s'.
  unfold Gui.run_desktop. cbn [fold_left Gui.desktop_step].
  rewrite Hbutton. cbn [String.eqb Ascii.eqb Bool.eqb].
  unfold Gui.command_start_download, Gui.start_download.
  apply String.eqb_neq in Hurl. rewrite Hurl, Hidle.
  pose proof (download_content_run w (Val.strip (Gui.url_entry (Gui.app s)))
                (Gui.download_type (Gui.app s)) (Gui.output_directory (Gui.app s))
                (Gui.download_manager (Gui.app s))) as Hrun.
  rewrite Hidle, Herr, Hdir in Hrun. cbn [negb notify] in Hrun.
  unfold Gui.call_manager. rewrite !log_message_value. gui_simpl.
  rewrite Hrun.
  cbn [fold_left Gui.in_app Gui.call on_error spawn Gui.failure].
  unfold Gui.on_download_error, Gui.master_after.
  gui_simpl. rewrite Hafter. cbn [app].
  unfold Gui.run_after. cbn [String.eqb Ascii.eqb Bool.eqb].
  unfold Gui._on_download_error_gui, Gui.bind, Gui.modify.
  rewrite !log_message_value. gui_simpl. cbn [Gui.failure].
  rewrite !app_nil_r.
  repeat split. apply last_snoc.
Qed.

Lemma missing_directory_dialog_witness :
  let s := {| Gui.app := Gui.with_url_entry "https://example.com/v"
                           (Gui.fresh "/nowhere" "light" "best");
              Gui.workers := ∅; Gui.clicks := 0; Gui.reported := [] |} in
  let s' := Gui.run_desktop [Gui.Click two_chunk_world; Gui.Tick] s in
  Gui.download_button (Gui.app s') = "normal" /\
  Gui.effects (Gui.app s')
  = [Gui.ShowError "Download Error" (PStr "Output directory does not exist: /nowhere")].
Proof.
  intros s.
  destruct (missing_directory_dialog two_chunk_world s) as (Hb & He & _);
    try reflexivity; [discriminate|].
  split; [exact Hb|exact He].
Defined.

(** ** Progress reports the handler cannot read *)

(** X20 (progress reports the handler cannot read): whatever it is given,
    [_update_progress_gui] leaves the manager, the state of the download
    button, the scheduled calls and the URL field as they are.  Given a
    dictionary without the key [status] it raises [KeyError] before touching
    a widget; given a value that is not a dictionary it raises [TypeError]
    likewise; given a status other than [downloading], [finished] and
    [error] it returns without any change. *)
Theorem progress_report_edge_cases (d : pyval) (app : Gui.DownloaderApp) :
  let run := Gui._update_progress_gui d app in
  (Gui.download_manager run.2 = Gui.download_manager app /\
   Gui.download_button run.2 = Gui.download_button app /\
   Gui.after_calls run.2 = Gui.after_calls app /\
   Gui.url_entry run.2 = Gui.url_entry app) /\
  (forall m, d = PDict m -> m !! "status" = None ->
     run = (Raise (MkExn Val.KeyError "'status'"), app)) /\
  ((forall m, d <> PDict m) ->
     exists e, run = (Raise e, app) /\ exn_cls e = TypeError) /\
  (forall m status,
     d = PDict m -> m !! "status" = Some status ->
     status <> PStr "downloading" -> status <> PStr "finished" ->
     status <> PStr "error" ->
     run = (Ok tt, app)).
Proof.
  intros run. subst run. split; [apply keeps_update_progress_gui|].
  split; [|split].
  - intros m -> Hm. unfold Gui._update_progress_gui, Gui.bind, Gui.lift.
    cbn [Val.subscript]. rewrite Hm. reflexivity.
  - intros Hd. unfold Gui._update_progress_gui, Gui.bind, Gui.lift.
    destruct d; try (eexists; split; reflexivity).
    destruct (Hd _ eq_refl).
  - intros m status -> Hm H1 H2 H3.
    assert (Hneq : forall s, status <> PStr s -> Val.eq_str status s = false).
    { intros s Hs. destruct status; try reflexivity. cbn.
      apply String.eqb_neq. congruence. }
    unfold Gui._update_progress_gui, Gui.bind, Gui.lift.
    cbn [Val.subscript]. rewrite Hm.
    rewrite !Hneq by assumption. reflexivity.
Qed.

(** ** The constructor of the window *)

